(** * tautulli-new-seasons-reminder: classification and webhook providers

    A shallow embedding of [new_seasons_reminder] (logic.py, api.py,
    config.py, main.py, providers/base.py, providers/generic.py,
    providers/signal_cli.py) together with the properties its
    specification states about it.

    Modelling conventions.
    - A Python str is a [string] holding its UTF-8 bytes.  Library
      functions that look at characters ([str.strip], [str.lower], [int],
      [repr]) are modelled on ASCII; bytes above 127 are carried unchanged.
    - A value decoded from JSON is a [value]; a dict keeps its insertion
      order, as Python's does.  Values coming from the Tautulli API and
      from the configuration carry no float ([pyval]); a float read from a
      payload template is kept as its literal ([jvalue]) since the program
      never computes with one.
    - The items, the children and the metadata are dicts, as their
      annotations say, and the callables that logic.py is given return a
      value of their annotated type; [is_new_show_func] can also raise,
      as [is_new_show] does.  A season of the output is a record with the
      seven fields the classification writes; [Generic.to_dict] gives the
      dict.
    - A naive [datetime] is the number of microseconds on the local wall
      clock since 1970-01-01T00:00:00.  The local-time conversion
      [fromtimestamp], the clock, the network and [str.format] belong to
      the platform and are fields of the class [Runtime]: every theorem
      holds for every runtime.  [fromtimestamp] can raise: ValueError for
      a year outside 1 to 9999, OverflowError and OSError outside the
      range of time_t and of the C library.  The recursion depth and the
      digit limit of [int] are not modelled.
    - Effects are explicit: a computation is a function on [state], which
      holds the outside world and the log records written so far; a
      computation that can raise returns a [result]. *)

From Stdlib Require Import ZArith List String Ascii Bool Lia.
Import ListNotations.

Set Warnings "-register-all".

Local Open Scope string_scope.
Local Open Scope Z_scope.

(** ** Python strings *)

Module Str.

Definition chr (n : nat) : string := String (ascii_of_nat n) EmptyString.

(** The double quote, the apostrophe, the backslash and the line feed. *)
Definition dq : string := chr 34.
Definition sq : string := chr 39.
Definition bs : string := chr 92.
Definition nl : string := chr 10.

Definition code (c : ascii) : Z := Z.of_nat (nat_of_ascii c).

Fixpoint startswith (p s : string) : bool :=
  match p, s with
  | EmptyString, _ => true
  | String a p', String b s' => Ascii.eqb a b && startswith p' s'
  | String _ _, EmptyString => false
  end.

Fixpoint drop (n : nat) (s : string) : string :=
  match n, s with
  | O, _ => s
  | S k, String _ s' => drop k s'
  | S _, EmptyString => EmptyString
  end.

(** [s.endswith(p)] *)
Definition endswith (s p : string) : bool :=
  (String.length p <=? String.length s)%nat
  && String.eqb (drop (String.length s - String.length p) s) p.

(** [s.replace(old, new)] for a non-empty [old]: every occurrence, left
    to right, without overlap.  [skip] counts the characters of a match
    that are still to be passed over. *)
Fixpoint replace_from (old new : string) (skip : nat) (s : string) : string :=
  match s with
  | EmptyString => EmptyString
  | String c s' =>
      match skip with
      | S k => replace_from old new k s'
      | O =>
          if startswith old s
          then new ++ replace_from old new (String.length old - 1) s'
          else String c (replace_from old new O s')
      end
  end.

(** With an empty [old] Python puts [new] before every character and at
    the end. *)
Fixpoint intersperse (new s : string) : string :=
  match s with
  | EmptyString => new
  | String c s' => new ++ String c (intersperse new s')
  end.

Definition replace (s old new : string) : string :=
  match old with
  | EmptyString => intersperse new s
  | String _ _ => replace_from old new O s
  end.

Fixpoint contains_char (c : ascii) (s : string) : bool :=
  match s with
  | EmptyString => false
  | String a s' => Ascii.eqb a c || contains_char c s'
  end.

(** ASCII white space as [str.isspace] has it. *)
Definition is_space (c : ascii) : bool :=
  let n := code c in
  ((9 <=? n) && (n <=? 13)) || ((28 <=? n) && (n <=? 32)).

(** Leading characters that satisfy [space] are taken away. *)
Fixpoint lstrip_by (space : ascii -> bool) (s : string) : string :=
  match s with
  | String c s' => if space c then lstrip_by space s' else s
  | EmptyString => EmptyString
  end.

Fixpoint rev_onto (s acc : string) : string :=
  match s with
  | EmptyString => acc
  | String c s' => rev_onto s' (String c acc)
  end.

Definition rev (s : string) : string := rev_onto s EmptyString.

Definition strip_by (space : ascii -> bool) (s : string) : string :=
  rev (lstrip_by space (rev (lstrip_by space s))).

(** [s.strip()] *)
Definition strip (s : string) : string := strip_by is_space s.

(** [s.split(sep)] for a one-character separator; [cur] is the field
    being read, reversed. *)
Fixpoint split_from (sep : ascii) (cur : string) (s : string) : list string :=
  match s with
  | EmptyString => [rev cur]
  | String c s' =>
      if Ascii.eqb c sep
      then rev cur :: split_from sep EmptyString s'
      else split_from sep (String c cur) s'
  end.

Definition split (s : string) (sep : ascii) : list string :=
  split_from sep EmptyString s.

(** [sep.join(l)] *)
Fixpoint join (sep : string) (l : list string) : string :=
  match l with
  | [] => EmptyString
  | [x] => x
  | x :: r => x ++ sep ++ join sep r
  end.

Definition lower_char (c : ascii) : ascii :=
  let n := code c in
  if (65 <=? n) && (n <=? 90) then ascii_of_nat (nat_of_ascii c + 32) else c.

(** [s.lower()] *)
Fixpoint lower (s : string) : string :=
  match s with
  | EmptyString => EmptyString
  | String c s' => String (lower_char c) (lower s')
  end.

Definition digit_char (d : Z) : ascii := ascii_of_nat (48 + Z.to_nat d).

(** Decimal digits of a natural number, most significant first; the
    recursion is on the binary size of the number. *)
Fixpoint digits_fuel (fuel : nat) (n : Z) (acc : string) : string :=
  match fuel with
  | O => acc
  | S k =>
      let acc' := String (digit_char (n mod 10)) acc in
      if n <? 10 then acc' else digits_fuel k (n / 10) acc'
  end.

Definition of_nonneg (n : Z) : string :=
  digits_fuel (S (Z.to_nat (Z.log2 n))) n EmptyString.

(** [str(n)] for an int. *)
Definition of_Z (n : Z) : string :=
  if n <? 0 then "-" ++ of_nonneg (- n) else of_nonneg n.

(** [n] written with at least [w] digits, as [%02d] does. *)
Fixpoint zeros (k : nat) : string :=
  match k with O => EmptyString | S k' => String "0" (zeros k') end.

Definition pad (w : nat) (n : Z) : string :=
  let d := of_nonneg n in
  zeros (w - String.length d) ++ d.

Definition hex_char (d : Z) : ascii :=
  if d <? 10 then ascii_of_nat (48 + Z.to_nat d)
  else ascii_of_nat (87 + Z.to_nat d).

(** Two and four lower-case hexadecimal digits. *)
Definition hex2 (n : Z) : string :=
  String (hex_char ((n / 16) mod 16)) (String (hex_char (n mod 16)) EmptyString).

Definition hex4 (n : Z) : string := hex2 ((n / 256) mod 256) ++ hex2 (n mod 256).

End Str.

(** ** Python values *)

Module Py.

Inductive value (F : Type) : Type :=
| VNone
| VBool (b : bool)
| VInt (n : Z)
| VFloat (f : F)
| VStr (s : string)
| VList (l : list (value F))
| VDict (d : list (string * value F)).

Arguments VNone {F}.
Arguments VBool {F} b.
Arguments VInt {F} n.
Arguments VFloat {F} f.
Arguments VStr {F} s.
Arguments VList {F} l.
Arguments VDict {F} d.

(** Values of the Tautulli API and of the configuration: no float. *)
Abbreviation pyval := (value Empty_set).
Abbreviation dict := (list (string * value Empty_set)).

(** Values decoded from a payload template: a float is its literal. *)
Abbreviation jvalue := (value string).
Abbreviation jdict := (list (string * value string)).

(** [d.get(k)]; [None] is the absent key. *)
Fixpoint get {V : Type} (k : string) (d : list (string * V)) : option V :=
  match d with
  | [] => None
  | (k', v) :: r => if String.eqb k' k then Some v else get k r
  end.

(** [d.get(k, default)] *)
Definition get_default {V : Type} (k : string) (default : V)
    (d : list (string * V)) : V :=
  match get k d with Some v => v | None => default end.

(** [d.get(k)] as a Python value: the absent key reads as [None]. *)
Definition get_or_none {F : Type} (k : string) (d : list (string * value F))
    : value F :=
  get_default k VNone d.

(** [d[k] = v]: an existing key keeps its place. *)
Fixpoint set {V : Type} (k : string) (v : V) (d : list (string * V))
    : list (string * V) :=
  match d with
  | [] => [(k, v)]
  | (k', v') :: r =>
      if String.eqb k' k then (k', v) :: r else (k', v') :: set k v r
  end.

Definition keys {V : Type} (d : list (string * V)) : list string :=
  map fst d.

(** [bool(v)] *)
Definition truthy (v : pyval) : bool :=
  match v with
  | VNone => false
  | VBool b => b
  | VInt n => negb (n =? 0)
  | VFloat f => match f with end
  | VStr s => negb (String.eqb s EmptyString)
  | VList l => match l with [] => false | _ => true end
  | VDict d => match d with [] => false | _ => true end
  end.

(** [v == s] for a str [s]: only an equal str is equal to it. *)
Definition eq_str (v : pyval) (s : string) : bool :=
  match v with
  | VStr s' => String.eqb s' s
  | _ => false
  end.

(** [repr(s)] of a str. *)
Definition escape_char (quote : ascii) (c : ascii) : string :=
  let n := Str.code c in
  if Ascii.eqb c quote then Str.bs ++ String c EmptyString
  else if n =? 92 then Str.bs ++ Str.bs
  else if n =? 10 then Str.bs ++ "n"
  else if n =? 13 then Str.bs ++ "r"
  else if n =? 9 then Str.bs ++ "t"
  else if (n <? 32) || (n =? 127) then Str.bs ++ "x" ++ Str.hex2 n
  else String c EmptyString.

Fixpoint escape (quote : ascii) (s : string) : string :=
  match s with
  | EmptyString => EmptyString
  | String c s' => escape_char quote c ++ escape quote s'
  end.

Definition repr_str (s : string) : string :=
  let q :=
    if Str.contains_char (ascii_of_nat 39) s
       && negb (Str.contains_char (ascii_of_nat 34) s)
    then ascii_of_nat 34 else ascii_of_nat 39 in
  String q (escape q s) ++ String q EmptyString.

(** [repr(v)] *)
Fixpoint repr (v : pyval) : string :=
  match v with
  | VNone => "None"
  | VBool true => "True"
  | VBool false => "False"
  | VInt n => Str.of_Z n
  | VFloat f => match f with end
  | VStr s => repr_str s
  | VList l =>
      "[" ++ Str.join ", " (map repr l) ++ "]"
  | VDict d =>
      "{" ++ Str.join ", "
               ((fix members (d : list (string * pyval)) : list string :=
                   match d with
                   | [] => []
                   | (k, x) :: r => (repr_str k ++ ": " ++ repr x) :: members r
                   end) d)
          ++ "}"
  end.

(** [str(v)], which is also what an f-string writes for [{v}]. *)
Definition str (v : pyval) : string :=
  match v with
  | VStr s => s
  | _ => repr v
  end.

Definition type_name (v : pyval) : string :=
  match v with
  | VNone => "NoneType"
  | VBool _ => "bool"
  | VInt _ => "int"
  | VFloat _ => "float"
  | VStr _ => "str"
  | VList _ => "list"
  | VDict _ => "dict"
  end.

(** Exceptions. *)
Inductive exn_class :=
| ValueError | TypeError | KeyError | IndexError | AttributeError
| NotImplementedError | JSONDecodeError | OverflowError | OSError.

Record exn := Exn { exn_type : exn_class; exn_msg : string }.

(** [except (ValueError, TypeError)] catches [e]: JSONDecodeError is a
    subclass of ValueError. *)
Definition is_value_or_type_error (e : exn) : bool :=
  match exn_type e with
  | ValueError | TypeError | JSONDecodeError => true
  | _ => false
  end.

Inductive result (A : Type) : Type :=
| Ok (a : A)
| Raise (e : exn).

Arguments Ok {A} a.
Arguments Raise {A} e.

(** The digits of an int literal: decimal digits, single underscores
    between two digits.  [acc] is the value read so far, [prev] tells
    whether the previous character was a digit. *)
Fixpoint int_digits (s : string) (acc : Z) (prev : bool) : option Z :=
  match s with
  | EmptyString => if prev then Some acc else None
  | String c s' =>
      let n := Str.code c in
      if (48 <=? n) && (n <=? 57) then int_digits s' (acc * 10 + (n - 48)) true
      else if (n =? 95) && prev then
        match s' with
        | EmptyString => None
        | String c' _ =>
            let n' := Str.code c' in
            if (48 <=? n') && (n' <=? 57) then int_digits s' acc false else None
        end
      else None
  end.

(** The ASCII white space [int] passes over around the number. *)
Definition is_int_space (c : ascii) : bool :=
  let n := Str.code c in
  ((9 <=? n) && (n <=? 13)) || (n =? 32).

(** [int(s)] for a str, base 10. *)
Definition int_of_string (s : string) : option Z :=
  match Str.strip_by is_int_space s with
  | String "-" s' => option_map Z.opp (int_digits s' 0 false)
  | String "+" s' => int_digits s' 0 false
  | s' => int_digits s' 0 false
  end.

(** [int(v)] *)
Definition int (v : pyval) : result Z :=
  match v with
  | VInt n => Ok n
  | VBool b => Ok (if b then 1 else 0)
  | VFloat f => match f with end
  | VStr s =>
      match int_of_string s with
      | Some n => Ok n
      | None =>
          Raise (Exn ValueError
                   ("invalid literal for int() with base 10: " ++ repr_str s))
      end
  | _ =>
      Raise (Exn TypeError
               ("int() argument must be a string, a bytes-like object or a real number, not "
                  ++ Str.sq ++ type_name v ++ Str.sq))
  end.

End Py.

(** ** The json module *)

Module Json.
Import Py.

(** One code point as json.dumps writes it with [ensure_ascii]: a
    [\uXXXX] escape, a surrogate pair above the basic plane. *)
Definition escape_point (cp : Z) : string :=
  if cp <? 65536 then Str.bs ++ "u" ++ Str.hex4 cp
  else
    let v := cp - 65536 in
    Str.bs ++ "u" ++ Str.hex4 (55296 + v / 1024)
      ++ Str.bs ++ "u" ++ Str.hex4 (56320 + v mod 1024).

Definition escape_ascii (c : ascii) : string :=
  let n := Str.code c in
  if n =? 34 then Str.bs ++ Str.dq
  else if n =? 92 then Str.bs ++ Str.bs
  else if n =? 10 then Str.bs ++ "n"
  else if n =? 13 then Str.bs ++ "r"
  else if n =? 9 then Str.bs ++ "t"
  else if n =? 8 then Str.bs ++ "b"
  else if n =? 12 then Str.bs ++ "f"
  else if (n <? 32) || (n =? 127) then escape_point n
  else String c EmptyString.

(** The body of a JSON string; [need] continuation bytes of a UTF-8
    sequence are still to come and [cp] holds the bits read so far. *)
Fixpoint escape (s : string) (need : nat) (cp : Z) : string :=
  match s with
  | EmptyString => EmptyString
  | String c s' =>
      let n := Str.code c in
      match need with
      | S k =>
          let cp' := cp * 64 + n mod 64 in
          match k with
          | O => escape_point cp' ++ escape s' O 0
          | S _ => escape s' k cp'
          end
      | O =>
          if n <? 128 then escape_ascii c ++ escape s' O 0
          else if n <? 224 then escape s' 1%nat (n mod 32)
          else if n <? 240 then escape s' 2%nat (n mod 16)
          else escape s' 3%nat (n mod 8)
      end
  end.

Definition dumps_str (s : string) : string :=
  Str.dq ++ escape s O 0 ++ Str.dq.

(** [json.dumps(v)] with the default separators. *)
Fixpoint dumps (v : pyval) : string :=
  match v with
  | VNone => "null"
  | VBool true => "true"
  | VBool false => "false"
  | VInt n => Str.of_Z n
  | VFloat f => match f with end
  | VStr s => dumps_str s
  | VList l => "[" ++ Str.join ", " (map dumps l) ++ "]"
  | VDict d =>
      "{" ++ Str.join ", "
               ((fix members (d : list (string * pyval)) : list string :=
                   match d with
                   | [] => []
                   | (k, x) :: r => (dumps_str k ++ ": " ++ dumps x) :: members r
                   end) d)
          ++ "}"
  end.

(** A float-free value seen as a decoded one. *)
Fixpoint lift (v : pyval) : jvalue :=
  match v with
  | VNone => VNone
  | VBool b => VBool b
  | VInt n => VInt n
  | VFloat f => match f with end
  | VStr s => VStr s
  | VList l => VList (map lift l)
  | VDict d =>
      VDict ((fix members (d : list (string * pyval)) : jdict :=
                match d with
                | [] => []
                | (k, x) :: r => (k, lift x) :: members r
                end) d)
  end.

(** *** Decoding: the scanner *)

Inductive token :=
| TLBrace | TRBrace | TLBrack | TRBrack | TColon | TComma
| TAtom (v : jvalue).

Definition is_digit (c : ascii) : bool :=
  let n := Str.code c in (48 <=? n) && (n <=? 57).

Fixpoint skip_digits (s : string) : string :=
  match s with
  | String c s' => if is_digit c then skip_digits s' else s
  | EmptyString => EmptyString
  end.

Definition digits1 (s : string) : option string :=
  match s with
  | String c s' => if is_digit c then Some (skip_digits s') else None
  | EmptyString => None
  end.

(** [0] or a digit from 1 to 9 followed by digits. *)
Definition int_part (s : string) : option string :=
  match s with
  | String c s' =>
      if Ascii.eqb c "0" then Some s'
      else if is_digit c then Some (skip_digits s') else None
  | EmptyString => None
  end.

Definition frac_part (s : string) : option (bool * string) :=
  match s with
  | String "." s' => option_map (pair true) (digits1 s')
  | _ => Some (false, s)
  end.

Definition exp_digits (s : string) : option (bool * string) :=
  match s with
  | String "+" s' => option_map (pair true) (digits1 s')
  | String "-" s' => option_map (pair true) (digits1 s')
  | _ => option_map (pair true) (digits1 s)
  end.

Definition exp_part (s : string) : option (bool * string) :=
  match s with
  | String "e" s' => exp_digits s'
  | String "E" s' => exp_digits s'
  | _ => Some (false, s)
  end.

Fixpoint digits_value (s : string) (acc : Z) : Z :=
  match s with
  | String c s' =>
      if is_digit c then digits_value s' (acc * 10 + (Str.code c - 48)) else acc
  | EmptyString => acc
  end.

(** A number literal: an int when it has neither fraction nor exponent,
    a float otherwise. *)
Definition number (w : string) : option jvalue :=
  let '(neg, body) :=
    match w with
    | String "-" r => (true, r)
    | _ => (false, w)
    end in
  match int_part body with
  | None => None
  | Some r1 =>
      match frac_part r1 with
      | None => None
      | Some (f, r2) =>
          match exp_part r2 with
          | Some (e, EmptyString) =>
              if f || e then Some (VFloat w)
              else Some (VInt (if neg then - digits_value body 0
                               else digits_value body 0))
          | _ => None
          end
      end
  end.

(** A bare word: one of the constants or a number. *)
Definition atom (w : string) : option jvalue :=
  if String.eqb w "null" then Some VNone
  else if String.eqb w "true" then Some (VBool true)
  else if String.eqb w "false" then Some (VBool false)
  else if String.eqb w "NaN" then Some (VFloat w)
  else if String.eqb w "Infinity" then Some (VFloat w)
  else if String.eqb w "-Infinity" then Some (VFloat w)
  else number w.

(** The UTF-8 bytes of a code point. *)
Definition byte (n : Z) : ascii := ascii_of_nat (Z.to_nat n).

Definition utf8 (cp : Z) : string :=
  if cp <? 128 then String (byte cp) EmptyString
  else if cp <? 2048 then
    String (byte (192 + cp / 64)) (String (byte (128 + cp mod 64)) EmptyString)
  else if cp <? 65536 then
    String (byte (224 + cp / 4096))
      (String (byte (128 + (cp / 64) mod 64))
         (String (byte (128 + cp mod 64)) EmptyString))
  else
    String (byte (240 + cp / 262144))
      (String (byte (128 + (cp / 4096) mod 64))
         (String (byte (128 + (cp / 64) mod 64))
            (String (byte (128 + cp mod 64)) EmptyString))).

Definition hex_value (c : ascii) : option Z :=
  let n := Str.code c in
  if (48 <=? n) && (n <=? 57) then Some (n - 48)
  else if (97 <=? n) && (n <=? 102) then Some (n - 87)
  else if (65 <=? n) && (n <=? 70) then Some (n - 55)
  else None.

Definition is_high (cp : Z) : bool := (55296 <=? cp) && (cp <=? 56319).
Definition is_low (cp : Z) : bool := (56320 <=? cp) && (cp <=? 57343).

(** [acc] is the text of the string read so far, reversed; [hi] is a
    high surrogate that waits for its low half. *)
Definition flush (acc : string) (hi : option Z) : string :=
  match hi with
  | Some h => Str.rev_onto (utf8 h) acc
  | None => acc
  end.

Definition simple_escape (c : ascii) : option ascii :=
  let n := Str.code c in
  if n =? 34 then Some c
  else if n =? 92 then Some c
  else if n =? 47 then Some c
  else if n =? 98 then Some (byte 8)
  else if n =? 102 then Some (byte 12)
  else if n =? 110 then Some (byte 10)
  else if n =? 114 then Some (byte 13)
  else if n =? 116 then Some (byte 9)
  else None.

Inductive scan_state :=
| STop
| SWord (w : string)
| SStr (acc : string) (hi : option Z)
| SEsc (acc : string) (hi : option Z)
| SHex (acc : string) (hi : option Z) (todo : nat) (cp : Z).

Definition is_ws (c : ascii) : bool :=
  let n := Str.code c in (n =? 32) || (n =? 9) || (n =? 10) || (n =? 13).

Definition structural (c : ascii) : option token :=
  let n := Str.code c in
  if n =? 123 then Some TLBrace
  else if n =? 125 then Some TRBrace
  else if n =? 91 then Some TLBrack
  else if n =? 93 then Some TRBrack
  else if n =? 58 then Some TColon
  else if n =? 44 then Some TComma
  else None.

(** What a character does outside a string and outside a word; [out]
    is the list of tokens read so far, reversed. *)
Definition scan_top (c : ascii) (out : list token)
    : scan_state * list token :=
  if is_ws c then (STop, out)
  else if Str.code c =? 34 then (SStr EmptyString None, out)
  else match structural c with
       | Some t => (STop, t :: out)
       | None => (SWord (String c EmptyString), out)
       end.

Definition ends_word (c : ascii) : bool :=
  is_ws c || (Str.code c =? 34)
  || match structural c with Some _ => true | None => false end.

Fixpoint scan (st : scan_state) (s : string) (out : list token)
    : option (list token) :=
  match s with
  | EmptyString =>
      match st with
      | STop => Some (List.rev out)
      | SWord w => option_map (fun v => List.rev (TAtom v :: out)) (atom (Str.rev w))
      | _ => None
      end
  | String c s' =>
      match st with
      | STop => let '(st', out') := scan_top c out in scan st' s' out'
      | SWord w =>
          if ends_word c then
            match atom (Str.rev w) with
            | Some v => let '(st', out') := scan_top c (TAtom v :: out) in scan st' s' out'
            | None => None
            end
          else scan (SWord (String c w)) s' out
      | SStr acc hi =>
          let n := Str.code c in
          if n =? 34 then scan STop s' (TAtom (VStr (Str.rev (flush acc hi))) :: out)
          else if n =? 92 then scan (SEsc acc hi) s' out
          else if n <? 32 then None
          else scan (SStr (String c (flush acc hi)) None) s' out
      | SEsc acc hi =>
          if Str.code c =? 117 then scan (SHex acc hi 4 0) s' out
          else match simple_escape c with
               | Some e => scan (SStr (String e (flush acc hi)) None) s' out
               | None => None
               end
      | SHex acc hi todo cp =>
          match hex_value c with
          | None => None
          | Some d =>
              let cp' := cp * 16 + d in
              match todo with
              | S (S k) => scan (SHex acc hi (S k) cp') s' out
              | _ =>
                  match hi with
                  | Some h =>
                      if is_low cp'
                      then scan (SStr (Str.rev_onto
                                         (utf8 (65536 + (h - 55296) * 1024 + (cp' - 56320)))
                                         acc) None) s' out
                      else if is_high cp'
                      then scan (SStr (flush acc hi) (Some cp')) s' out
                      else scan (SStr (Str.rev_onto (utf8 cp') (flush acc hi)) None) s' out
                  | None =>
                      if is_high cp'
                      then scan (SStr acc (Some cp')) s' out
                      else scan (SStr (Str.rev_onto (utf8 cp') acc) None) s' out
                  end
              end
          end
      end
  end.

(** *** Decoding: the parser, a stack machine over the tokens *)

Inductive frame :=
| FArr (acc : list jvalue)
| FObj (acc : list (string * jvalue)) (key : option string).

Inductive expect :=
| EValue | EFirst | EKeyFirst | EKey | EColon | EAfter
| EDone (v : jvalue).

(** [dict(pairs)]: a repeated key keeps its first place and its last
    value. *)
Definition dict_of_pairs (pairs : list (string * jvalue)) : jdict :=
  fold_left (fun d kv => Py.set (fst kv) (snd kv) d) pairs [].

(** A value is complete: it is the result, or goes into the container
    on top of the stack. *)
Definition complete (v : jvalue) (st : list frame)
    : option (expect * list frame) :=
  match st with
  | [] => Some (EDone v, [])
  | FArr acc :: st' => Some (EAfter, FArr (v :: acc) :: st')
  | FObj acc (Some k) :: st' => Some (EAfter, FObj ((k, v) :: acc) None :: st')
  | FObj _ None :: _ => None
  end.

Definition step (e : expect) (st : list frame) (t : token)
    : option (expect * list frame) :=
  match e, t with
  | (EValue | EFirst), TAtom v => complete v st
  | (EValue | EFirst), TLBrack => Some (EFirst, FArr [] :: st)
  | (EValue | EFirst), TLBrace => Some (EKeyFirst, FObj [] None :: st)
  | EFirst, TRBrack =>
      match st with
      | FArr [] :: st' => complete (VList []) st'
      | _ => None
      end
  | EKeyFirst, TRBrace =>
      match st with
      | FObj [] None :: st' => complete (VDict []) st'
      | _ => None
      end
  | (EKeyFirst | EKey), TAtom (VStr k) =>
      match st with
      | FObj acc None :: st' => Some (EColon, FObj acc (Some k) :: st')
      | _ => None
      end
  | EColon, TColon => Some (EValue, st)
  | EAfter, TComma =>
      match st with
      | FArr _ :: _ => Some (EValue, st)
      | FObj _ None :: _ => Some (EKey, st)
      | _ => None
      end
  | EAfter, TRBrack =>
      match st with
      | FArr acc :: st' => complete (VList (List.rev acc)) st'
      | _ => None
      end
  | EAfter, TRBrace =>
      match st with
      | FObj acc None :: st' => complete (VDict (dict_of_pairs (List.rev acc))) st'
      | _ => None
      end
  | _, _ => None
  end.

Fixpoint parse (e : expect) (st : list frame) (ts : list token)
    : option jvalue :=
  match ts with
  | [] => match e, st with EDone v, [] => Some v | _, _ => None end
  | t :: ts' =>
      match step e st t with
      | Some (e', st') => parse e' st' ts'
      | None => None
      end
  end.

(** [json.loads(s)]; [None] is JSONDecodeError. *)
Definition loads (s : string) : option jvalue :=
  match scan STop s [] with
  | Some ts => parse EValue [] ts
  | None => None
  end.

End Json.

(** ** Naive datetimes *)

Module DateTime.

(** Microseconds on the wall clock since 1970-01-01T00:00:00. *)
Definition datetime : Type := Z.

Definition day : Z := 86400000000.

(** [timedelta(days=n)] *)
Definition timedelta (days : Z) : Z := days * day.

(** Year, month and day of a day number (days since 1970-01-01) in the
    proleptic Gregorian calendar. *)
Definition civil (z : Z) : Z * Z * Z :=
  let z := z + 719468 in
  let era := z / 146097 in
  let doe := z - era * 146097 in
  let yoe := (doe - doe / 1460 + doe / 36524 - doe / 146096) / 365 in
  let doy := doe - (365 * yoe + yoe / 4 - yoe / 100) in
  let mp := (5 * doy + 2) / 153 in
  let d := doy - (153 * mp + 2) / 5 + 1 in
  let m := if mp <? 10 then mp + 3 else mp - 9 in
  let y := yoe + era * 400 in
  (if m <=? 2 then y + 1 else y, m, d).

Definition date_part (t : datetime) : string :=
  let '(y, m, d) := civil (t / day) in
  Str.pad 4 y ++ "-" ++ Str.pad 2 m ++ "-" ++ Str.pad 2 d.

Definition hm_part (t : datetime) : string :=
  let secs := (t mod day) / 1000000 in
  Str.pad 2 (secs / 3600) ++ ":" ++ Str.pad 2 ((secs / 60) mod 60).

Definition time_part (t : datetime) : string :=
  let secs := (t mod day) / 1000000 in
  let us := t mod 1000000 in
  hm_part t ++ ":" ++ Str.pad 2 (secs mod 60)
    ++ (if us =? 0 then EmptyString else "." ++ Str.pad 6 us).

(** [t.isoformat()] *)
Definition isoformat (t : datetime) : string :=
  date_part t ++ "T" ++ time_part t.

(** [str(t)] *)
Definition str (t : datetime) : string :=
  date_part t ++ " " ++ time_part t.

(** [t.strftime('%Y-%m-%d %H:%M')]; the year has four digits, as every
    C library writes the years from 1000 on. *)
Definition strftime_minutes (t : datetime) : string :=
  date_part t ++ " " ++ hm_part t.

End DateTime.

(** ** The runtime, the state and the log *)

Import Py.

(** What the program takes from its platform. *)
Class Runtime : Type := {
  (** the world outside the process: clock, network *)
  World : Type;
  (** [datetime.now()] *)
  clock : World -> DateTime.datetime * World;
  (** [datetime.fromtimestamp(n)], the local time of a unix time; it
      raises ValueError when the year is not from 1 to 9999, and
      OverflowError or OSError when the platform cannot convert [n] *)
  fromtimestamp : Z -> result DateTime.datetime;
  (** [template.format] with keyword arguments *)
  str_format : string -> list (string * pyval) -> result string;
  (** [urlopen(url, timeout=30)] followed by [response.read()] *)
  urlopen_read : string -> World -> result string * World;
  (** [dict(l)] for a non-empty list [l] decoded from JSON *)
  dict_of_list : list jvalue -> result jdict
}.

Inductive level := DEBUG | INFO | WARNING | ERROR.

Record log_record := LogRecord { levelname : level; message : string }.

Record state `{Runtime} := State { world : World; records : list log_record }.

(** A computation that reads the clock, calls the network and logs. *)
Definition St `{Runtime} (A : Type) : Type := state -> A * state.

Definition ret `{Runtime} {A : Type} (a : A) : St A := fun s => (a, s).

Definition bind `{Runtime} {A B : Type} (c : St A) (k : A -> St B) : St B :=
  fun s => let '(a, s') := c s in k a s'.

Declare Scope st_scope.
Delimit Scope st_scope with st.

Notation "x <- c ;; k" := (bind c (fun x => k))
  (at level 61, c at next level, right associativity) : st_scope.
Notation "c ;;; k" := (bind c (fun _ => k))
  (at level 61, right associativity) : st_scope.

Local Open Scope st_scope.

(** [logger.<level>(msg)] *)
Definition log `{Runtime} (l : level) (msg : string) : St unit :=
  fun s => (tt, {| world := world s; records := records s ++ [LogRecord l msg] |}).

(** [datetime.now()] *)
Definition datetime_now `{Runtime} : St DateTime.datetime :=
  fun s => let '(t, w) := clock (world s) in (t, {| world := w; records := records s |}).

(** A computation that may also raise. *)
Definition bindR `{Runtime} {A B : Type} (c : St (result A))
    (k : A -> St (result B)) : St (result B) :=
  r <- c ;;
  match r with
  | Ok a => k a
  | Raise e => ret (Raise e)
  end.

Notation "x <-! c ;; k" := (bindR c (fun x => k))
  (at level 61, c at next level, right associativity) : st_scope.

(** ** logic.py *)

Module Logic.
Section Logic.
Context `{Runtime}.

(** The value under a path of keys; [default] as soon as a level is
    missing or is not a dict. *)
Fixpoint safe_get_from (current : pyval) (keys : list string) (default : pyval)
    : pyval :=
  match keys with
  | [] => current
  | key :: rest =>
      match current with
      | VDict d => safe_get_from (get_default key default d) rest default
      | _ => default
      end
  end.

(** logic.py, [_safe_get_nested]. *)
Definition _safe_get_nested (d : dict) (keys : list string) (default : pyval)
    : pyval :=
  safe_get_from (VDict d) keys default.

(** [datetime.fromtimestamp(int(v))]: what [int] raises, or what
    [fromtimestamp] raises on the number. *)
Definition from_unix (v : pyval) : result DateTime.datetime :=
  match Py.int v with
  | Ok n => fromtimestamp n
  | Raise e => Raise e
  end.

(** logic.py, [is_new_show]: metadata that are missing or empty, an
    [added_at] that is missing, empty or does not parse, all answer
    false.  The [try] holds the conversion and the comparison; its
    handler catches ValueError and TypeError, any other exception of the
    conversion goes to the caller. *)
Definition is_new_show (grandparent_rating_key : string)
    (cutoff_date : DateTime.datetime)
    (get_metadata_func : string -> St (option dict)) : St (result bool) :=
  show_metadata <- get_metadata_func grandparent_rating_key ;;
  match show_metadata with
  | None | Some [] =>
      log WARNING ("Could not get metadata for show " ++ grandparent_rating_key) ;;;
      ret (Ok false)
  | Some md =>
      let show_added_at := get_or_none "added_at" md in
      if negb (truthy show_added_at) then ret (Ok false)
      else
        match from_unix show_added_at with
        | Ok show_date =>
            if cutoff_date <=? show_date then
              log DEBUG ("Show added at " ++ DateTime.str show_date
                           ++ " - this is a NEW SHOW") ;;;
              ret (Ok true)
            else ret (Ok false)
        | Raise e =>
            if is_value_or_type_error e then
              log WARNING ("Error parsing added_at for show: " ++ exn_msg e) ;;;
              ret (Ok false)
            else ret (Raise e)
        end
  end.

(** The test the loop of [is_season_finished] makes on a child before it
    counts it. *)
Definition is_available (ep : dict) : bool :=
  if negb (eq_str (get_or_none "media_type" ep) "episode") then false
  else
    let file_path :=
      _safe_get_nested ep ["media_info"; "parts"; "file"] (VStr EmptyString) in
    truthy file_path && negb (Str.endswith (Py.str file_path) ".strm").

(** logic.py, [is_season_finished]. *)
Definition is_season_finished (season_rating_key : string)
    (get_children_func : string -> St (list dict)) : St bool :=
  episodes <- get_children_func season_rating_key ;;
  match episodes with
  | [] => ret false
  | _ =>
      let total_episodes := Z.of_nat (List.length episodes) in
      let available_episodes :=
        fold_left (fun n ep => if is_available ep then n + 1 else n) episodes 0 in
      log DEBUG ("Season has " ++ Str.of_Z available_episodes ++ "/"
                   ++ Str.of_Z total_episodes ++ " episodes available") ;;;
      ret (0 <? available_episodes)
  end.

(** The record the classification emits. *)
Record NewFinishedSeason := {
  show : pyval;
  season : pyval;
  season_title : pyval;
  added_at : string;
  episode_count : Z;
  rating_key : pyval;
  cover_url : option string
}.

(** How an item leaves the loop body without a record: the [continue]
    it takes, or the exception that the body does not catch and that
    ends the loop. *)
Inductive skip :=
| NotSeason | NoAddedAt | BadAddedAt | BeforeCutoff
| NoShowKey | NewShow | NoRatingKey | NotFinished
| Raised (e : exn).

Definition is_episode (ep : dict) : bool :=
  eq_str (get_or_none "media_type" ep) "episode".

Section Loop.
Variable cutoff_date : DateTime.datetime.
Variable is_new_show_func : string -> DateTime.datetime -> St (result bool).
Variable is_season_finished_func : string -> St bool.
Variable get_show_cover_func : string -> St (option string).
Variable get_children_func : string -> St (list dict).

(** The body of [for item in recently_added]: [inl] names the [continue]
    the item leaves by, or the exception it raises; [inr] holds the
    record that is appended.  The [try] statement holds the conversion of
    the timestamp alone and catches ValueError and TypeError; the call of
    [is_new_show_func] is outside any [try]. *)
Definition loop_body (item : dict) : St (skip + NewFinishedSeason) :=
  let media_type := get_or_none "media_type" item in
  if negb (eq_str media_type "season") then ret (inl NotSeason)
  else
    let rating_key := get_or_none "rating_key" item in
    let title := get_default "title" (VStr "Unknown") item in
    let parent_title := get_default "parent_title" (VStr "Unknown") item in
    let grandparent_rating_key := get_or_none "grandparent_rating_key" item in
    let season_index := get_default "parent_index" (VInt 0) item in
    let added_at_timestamp := get_or_none "added_at" item in
    if negb (truthy added_at_timestamp) then
      log DEBUG ("Skipping " ++ Py.str title ++ " - no added_at timestamp") ;;;
      ret (inl NoAddedAt)
    else
      match from_unix added_at_timestamp with
      | Raise e =>
          if is_value_or_type_error e then
            log WARNING ("Error parsing added_at for " ++ Py.str title ++ ": "
                           ++ exn_msg e) ;;;
            ret (inl BadAddedAt)
          else ret (inl (Raised e))
      | Ok added_at =>
          if added_at <? cutoff_date then
            log DEBUG ("Skipping " ++ Py.str title ++ " - added at "
                         ++ DateTime.str added_at ++ " (before cutoff)") ;;;
            ret (inl BeforeCutoff)
          else
            log INFO ("Processing: " ++ Py.str parent_title ++ " - Season "
                        ++ Py.str season_index ++ " (added "
                        ++ DateTime.str added_at ++ ")") ;;;
            if negb (truthy grandparent_rating_key) then
              log DEBUG ("Skipping " ++ Py.str title
                           ++ " - no grandparent_rating_key") ;;;
              ret (inl NoShowKey)
            else
              new_show <- is_new_show_func (Py.str grandparent_rating_key)
                            cutoff_date ;;
              match new_show with
              | Raise e => ret (inl (Raised e))
              | Ok true =>
                log INFO ("Skipping " ++ Py.str parent_title
                            ++ " - this is a NEW SHOW, not a new season") ;;;
                ret (inl NewShow)
              | Ok false =>
              if negb (truthy rating_key) then
                log DEBUG ("Skipping " ++ Py.str title ++ " - no rating_key") ;;;
                ret (inl NoRatingKey)
              else
                finished <- is_season_finished_func (Py.str rating_key) ;;
                if negb finished then
                  log INFO ("Skipping " ++ Py.str parent_title ++ " Season "
                              ++ Py.str season_index ++ " - season not finished") ;;;
                  ret (inl NotFinished)
                else
                  episodes <- get_children_func (Py.str rating_key) ;;
                  let episode_count :=
                    Z.of_nat (List.length (filter is_episode episodes)) in
                  cover_url <- get_show_cover_func
                                 (Py.str grandparent_rating_key) ;;
                  ret (inr {| show := parent_title;
                              season := season_index;
                              season_title := title;
                              added_at := DateTime.isoformat added_at;
                              episode_count := episode_count;
                              rating_key := rating_key;
                              cover_url := cover_url |})
              end
      end.

(** The loop: [new_seasons] grows at its end; an exception of the body
    ends the loop and goes to the caller. *)
Fixpoint for_items (items : list dict) (new_seasons : list NewFinishedSeason)
    : St (result (list NewFinishedSeason)) :=
  match items with
  | [] => ret (Ok new_seasons)
  | item :: rest =>
      r <- loop_body item ;;
      match r with
      | inr s => for_items rest (new_seasons ++ [s])
      | inl (Raised e) => ret (Raise e)
      | inl _ => for_items rest new_seasons
      end
  end.

End Loop.

(** logic.py, [get_new_finished_seasons]. *)
Definition get_new_finished_seasons (lookback_days : Z)
    (get_recently_added_func : string -> Z -> St (list dict))
    (is_new_show_func : string -> DateTime.datetime -> St (result bool))
    (is_season_finished_func : string -> St bool)
    (get_show_cover_func : string -> St (option string))
    (get_children_func : string -> St (list dict))
    : St (result (list NewFinishedSeason)) :=
  now <- datetime_now ;;
  let cutoff_date := now - DateTime.timedelta lookback_days in
  log INFO ("Looking for seasons added since " ++ DateTime.str cutoff_date) ;;;
  recently_added <- get_recently_added_func "season" 100 ;;
  match recently_added with
  | [] =>
      log INFO "No recently added items found" ;;;
      ret (Ok [])
  | _ =>
      for_items cutoff_date is_new_show_func is_season_finished_func
        get_show_cover_func get_children_func recently_added []
  end.

End Logic.
End Logic.

(** ** config.py *)

Module Config.

(** The dataclass; every field has the type its annotation gives. *)
Record Config := {
  tautulli_url : string;
  tautulli_apikey : string;
  plex_url : string;
  plex_token : string;
  webhook_url : string;
  webhook_mode : string;
  webhook_message_template : string;
  webhook_on_empty : bool;
  webhook_payload_template : string;
  signal_number : string;
  signal_recipients : string;
  signal_text_mode : string;
  signal_include_covers : bool;
  lookback_days : Z;
  debug : bool
}.

(** config.py, [Config.get_provider_config]. *)
Definition get_provider_config (self : Config) : dict :=
  [ ("webhook_url", VStr (webhook_url self));
    ("webhook_on_empty", VBool (webhook_on_empty self));
    ("message_template", VStr (webhook_message_template self));
    ("payload_template", VStr (webhook_payload_template self));
    ("lookback_days", VInt (lookback_days self));
    ("signal_number", VStr (signal_number self));
    ("signal_recipients", VStr (signal_recipients self));
    ("signal_text_mode", VStr (signal_text_mode self));
    ("signal_include_covers", VBool (signal_include_covers self)) ].

End Config.

(** ** providers/base.py *)

Module Base.
Import Logic.
Section Base.
Context `{Runtime}.

Definition validate_config (config : dict) : St bool := ret true.

Definition should_send_on_empty (config : dict) : bool :=
  truthy (get_default "webhook_on_empty" (VBool false) config).

Definition build_payload (config : dict) (seasons : list NewFinishedSeason)
    : St (result jdict) :=
  ret (Raise (Exn NotImplementedError "Subclasses must implement build_payload()")).

Definition get_headers : list (string * string) :=
  [ ("Content-Type", "application/json");
    ("User-Agent", "Tautulli-NewSeasons-Reminder/1.0") ].

(** The comma-joined list of [Show SN], or [None] for no season. *)
Definition show_list (seasons : list NewFinishedSeason) : string :=
  match seasons with
  | [] => "None"
  | _ => Str.join ", "
           (map (fun s => Py.str (show s) ++ " S" ++ Py.str (season s)) seasons)
  end.

Definition default_message_template : string :=
  "📺 {season_count} new season(s) completed this week!".

Definition format_message (config : dict) (seasons : list NewFinishedSeason)
    : St (result string) :=
  let template :=
    get_default "message_template" (VStr default_message_template) config in
  let show_list := show_list seasons in
  match template with
  | VStr template =>
      now <- datetime_now ;;
      ret (str_format template
             [ ("season_count", VInt (Z.of_nat (List.length seasons)));
               ("period_days", get_default "lookback_days" (VInt 7) config);
               ("timestamp", VStr (DateTime.isoformat now));
               ("show_list", VStr show_list) ])
  | _ =>
      ret (Raise (Exn AttributeError
                    (Str.sq ++ type_name template ++ Str.sq
                       ++ " object has no attribute 'format'")))
  end.

End Base.
End Base.

(** ** providers/generic.py *)

Module Generic.
Import Logic.
Section Generic.
Context `{Runtime}.

(** A season as the dict the classification builds. *)
Definition to_dict (s : NewFinishedSeason) : pyval :=
  VDict [ ("show", show s);
          ("season", season s);
          ("season_title", season_title s);
          ("added_at", VStr (added_at s));
          ("episode_count", VInt (episode_count s));
          ("rating_key", rating_key s);
          ("cover_url", match cover_url s with
                        | Some u => VStr u
                        | None => VNone
                        end) ].

Definition seasons_value (seasons : list NewFinishedSeason) : pyval :=
  VList (map to_dict seasons).

Definition jtype_name (v : jvalue) : string :=
  match v with
  | VNone => "NoneType"
  | VBool _ => "bool"
  | VInt _ => "int"
  | VFloat _ => "float"
  | VStr _ => "str"
  | VList _ => "list"
  | VDict _ => "dict"
  end.

(** [dict(v)] for a decoded value. *)
Definition py_dict (v : jvalue) : result jdict :=
  match v with
  | VDict d => Ok d
  | VList [] => Ok []
  | VList l => dict_of_list l
  | VStr EmptyString => Ok []
  | VStr _ =>
      Raise (Exn ValueError
               "dictionary update sequence element #0 has length 1; 2 is required")
  | _ =>
      Raise (Exn TypeError
               (Str.sq ++ jtype_name v ++ Str.sq ++ " object is not iterable"))
  end.

(** The default template. *)
Definition default_payload (config : dict) (seasons : list NewFinishedSeason)
    (message : string) : St (result jdict) :=
  now <- datetime_now ;;
  ret (Ok [ ("timestamp", VStr (DateTime.isoformat now));
            ("period_days", Json.lift (get_default "lookback_days" (VInt 7) config));
            ("season_count", VInt (Z.of_nat (List.length seasons)));
            ("seasons", Json.lift (seasons_value seasons));
            ("message", VStr message) ]).

(** The six replacements, in the order of the source. *)
Definition substitute (template_str : string) (now : DateTime.datetime)
    (config : dict) (seasons : list NewFinishedSeason)
    (message show_list : string) : string :=
  let template_str :=
    Str.replace template_str "{timestamp}"
      (Json.dumps (VStr (DateTime.isoformat now))) in
  let template_str :=
    Str.replace template_str "{period_days}"
      (Json.dumps (get_default "lookback_days" (VInt 7) config)) in
  let template_str :=
    Str.replace template_str "{season_count}"
      (Json.dumps (VInt (Z.of_nat (List.length seasons)))) in
  let template_str :=
    Str.replace template_str "{message}" (Json.dumps (VStr message)) in
  let template_str :=
    Str.replace template_str "{show_list}" (Json.dumps (VStr show_list)) in
  Str.replace template_str "{seasons}" (Json.dumps (seasons_value seasons)).

(** generic.py, [GenericProvider.build_payload].  Only JSONDecodeError
    is caught: what [format_message], [str.replace] on a template that is
    not a str, or [dict] raise goes to the caller.  The text of the
    decoder's diagnostic is not modelled: the log record holds the fixed
    part of the message. *)
Definition build_payload (config : dict) (seasons : list NewFinishedSeason)
    : St (result jdict) :=
  message <-! Base.format_message config seasons ;;
  let payload_template := get_or_none "webhook_payload_template" config in
  if truthy payload_template then
    let show_list := Base.show_list seasons in
    match payload_template with
    | VStr template_str =>
        now <- datetime_now ;;
        let template_str :=
          substitute template_str now config seasons message show_list in
        match Json.loads template_str with
        | Some v => ret (py_dict v)
        | None =>
            log ERROR "Failed to parse custom payload template: " ;;;
            default_payload config seasons message
        end
    | _ =>
        ret (Raise (Exn AttributeError
                      (Str.sq ++ type_name payload_template ++ Str.sq
                         ++ " object has no attribute 'replace'")))
    end
  else default_payload config seasons message.

End Generic.
End Generic.

(** ** providers/signal_cli.py *)

Module SignalCli.
Import Logic.
Section SignalCli.
Context `{Runtime}.

(** [base64.b64encode] *)
Definition b64_char (n : Z) : ascii :=
  if n <? 26 then Json.byte (65 + n)
  else if n <? 52 then Json.byte (71 + n)
  else if n <? 62 then Json.byte (n - 4)
  else if n =? 62 then "+"%char else "/"%char.

Fixpoint b64encode (data : string) : string :=
  match data with
  | EmptyString => EmptyString
  | String a EmptyString =>
      let x := Str.code a in
      String (b64_char (x / 4)) (String (b64_char ((x mod 4) * 16)) "==")
  | String a (String b EmptyString) =>
      let x := Str.code a in
      let y := Str.code b in
      String (b64_char (x / 4))
        (String (b64_char ((x mod 4) * 16 + y / 16))
           (String (b64_char ((y mod 16) * 4)) "="))
  | String a (String b (String c rest)) =>
      let x := Str.code a in
      let y := Str.code b in
      let z := Str.code c in
      String (b64_char (x / 4))
        (String (b64_char ((x mod 4) * 16 + y / 16))
           (String (b64_char ((y mod 16) * 4 + z / 64))
              (String (b64_char (z mod 64)) (b64encode rest))))
  end.

(** [urlopen(url, timeout=30)] and [response.read()] *)
Definition urlopen (url : string) : St (result string) :=
  fun s =>
    let '(r, w) := urlopen_read url (world s) in
    (r, {| world := w; records := records s |}).

Fixpoint check_required (required : list string) (config : dict) : St bool :=
  match required with
  | [] => ret true
  | key :: rest =>
      if negb (truthy (get_or_none key config)) then
        log ERROR ("Missing required config: " ++ key) ;;;
        ret false
      else check_required rest config
  end.

Definition validate_config (config : dict) : St bool :=
  check_required ["signal_number"; "signal_recipients"] config.

Definition should_send_on_empty (config : dict) : bool := false.

Definition nonempty (r : string) : bool := negb (String.eqb r EmptyString).

Definition _parse_recipients (config : dict) : result (list string) :=
  let recipients_str := get_default "signal_recipients" (VStr EmptyString) config in
  if negb (truthy recipients_str) then Ok []
  else
    match recipients_str with
    | VStr s => Ok (filter nonempty (map Str.strip (Str.split s ",")))
    | _ =>
        Raise (Exn AttributeError
                 (Str.sq ++ type_name recipients_str ++ Str.sq
                    ++ " object has no attribute 'split'"))
    end.

Fixpoint covers_loop (seasons : list NewFinishedSeason)
    (base64_covers : list string) : St (list string) :=
  match seasons with
  | [] => ret base64_covers
  | season :: rest =>
      match cover_url season with
      | None | Some EmptyString => covers_loop rest base64_covers
      | Some url =>
          r <- urlopen url ;;
          match r with
          | Ok image_data =>
              covers_loop rest (app base64_covers [b64encode image_data])
          | Raise e =>
              log WARNING ("Failed to download cover for " ++ Py.str (show season)
                             ++ ": " ++ exn_msg e) ;;;
              covers_loop rest base64_covers
          end
      end
  end.

Definition _get_covers_as_base64 (seasons : list NewFinishedSeason)
    : St (list string) :=
  covers_loop seasons [].

Definition season_line (s : NewFinishedSeason) : string :=
  "• *" ++ Py.str (show s) ++ "* - Season " ++ Py.str (season s) ++ " ("
    ++ Str.of_Z (episode_count s) ++ " episodes)".

Definition format_message (config : dict) (seasons : list NewFinishedSeason)
    : St string :=
  let count := Z.of_nat (List.length seasons) in
  let period := get_default "lookback_days" (VInt 7) config in
  let season_plural := if 1 <? count then "s" else EmptyString in
  let lines :=
    [ "📺 *" ++ Str.of_Z count ++ " new season" ++ season_plural
        ++ "* completed in the last " ++ Py.str period ++ " days!";
      EmptyString ] in
  let lines := (lines ++ map season_line seasons)%list in
  let lines := (lines ++ [EmptyString])%list in
  now <- datetime_now ;;
  let lines := app lines [("_" ++ DateTime.strftime_minutes now ++ "_")%string] in
  ret (Str.join Str.nl lines).

Definition build_payload (config : dict) (seasons : list NewFinishedSeason)
    : St (result jdict) :=
  message <- format_message config seasons ;;
  match _parse_recipients config with
  | Raise e => ret (Raise e)
  | Ok recipients =>
      match get "signal_number" config with
      | None => ret (Raise (Exn KeyError "'signal_number'"))
      | Some number =>
          let payload :=
            [ ("message", VStr message);
              ("number", Json.lift number);
              ("recipients", VList (map VStr recipients));
              ("text_mode",
               Json.lift (get_default "signal_text_mode" (VStr "styled") config)) ] in
          if truthy (get_default "signal_include_covers" (VBool false) config)
             && match seasons with [] => false | _ => true end
          then
            base64_covers <- _get_covers_as_base64 seasons ;;
            match base64_covers with
            | [] => ret (Ok payload)
            | _ =>
                ret (Ok (Py.set "base64_attachments"
                           (VList (map VStr base64_covers)) payload))
            end
          else ret (Ok payload)
      end
  end.

End SignalCli.
End SignalCli.

(** ** main.py *)

Module Main.
Import Logic Config.
Section Main.
Context `{Runtime}.

(** The provider classes; each instance holds its config dict. *)
Inductive WebhookProvider :=
| SignalCliProvider (config : dict)
| GenericProvider (config : dict).

Definition validate_config (p : WebhookProvider) : St bool :=
  match p with
  | SignalCliProvider config => SignalCli.validate_config config
  | GenericProvider config => Base.validate_config config
  end.

Definition should_send_on_empty (p : WebhookProvider) : bool :=
  match p with
  | SignalCliProvider config => SignalCli.should_send_on_empty config
  | GenericProvider config => Base.should_send_on_empty config
  end.

Definition build_payload (p : WebhookProvider) (seasons : list NewFinishedSeason)
    : St (result jdict) :=
  match p with
  | SignalCliProvider config => SignalCli.build_payload config seasons
  | GenericProvider config => Generic.build_payload config seasons
  end.

(** main.py, [get_webhook_provider]. *)
Definition get_webhook_provider (config : Config) : St (result WebhookProvider) :=
  let provider_config := get_provider_config config in
  let mode := Str.lower (webhook_mode config) in
  let validated (provider : WebhookProvider) : St (result WebhookProvider) :=
    valid <- validate_config provider ;;
    if negb valid then
      ret (Raise (Exn ValueError
                    ("Invalid configuration for " ++ mode ++ " provider")))
    else ret (Ok provider) in
  if String.eqb mode "signal-cli" then
    validated (SignalCliProvider provider_config)
  else if String.eqb mode "default" || String.eqb mode "custom" then
    validated (GenericProvider provider_config)
  else
    ret (Raise (Exn ValueError
                  ("Unsupported webhook_mode: " ++ webhook_mode config))).

End Main.
End Main.

(** ** The classification as the specification words it *)

Module Spec.
Import Logic.
Section Spec.
Context `{Runtime}.

Variable cutoff_date : DateTime.datetime.
Variable is_new_show_func : string -> DateTime.datetime -> St (result bool).
Variable is_season_finished_func : string -> St bool.
Variable get_show_cover_func : string -> St (option string).
Variable get_children_func : string -> St (list dict).

(** The show of these metadata was added at or after the cutoff: there
    is a record, its [added_at] is there (a non-empty value) and parses
    to a number that the platform converts to a time, and that time is
    not before the cutoff. *)
Definition show_is_new (cutoff : DateTime.datetime) (metadata : option dict)
    : Prop :=
  exists d v n t,
    metadata = Some d
    /\ get "added_at" d = Some v
    /\ truthy v = true
    /\ Py.int v = Ok n
    /\ fromtimestamp n = Ok t
    /\ cutoff <= t.

(** The file path nested in a child, the empty str when there is none. *)
Definition file_path (child : dict) : pyval :=
  match get "media_info" child with
  | Some (VDict media_info) =>
      match get "parts" media_info with
      | Some (VDict parts) =>
          match get "file" parts with
          | Some path => path
          | None => VStr EmptyString
          end
      | _ => VStr EmptyString
      end
  | _ => VStr EmptyString
  end.

(** An episode whose file is really there: the child is an episode, its
    file path is not empty and does not end in [.strm]. *)
Definition materialized_episode (child : dict) : Prop :=
  get "media_type" child = Some (VStr "episode")
  /\ truthy (file_path child) = true
  /\ Str.endswith (Py.str (file_path child)) ".strm" = false.

(** The keys of the default payload. *)
Definition default_keys : list string :=
  ["timestamp"; "period_days"; "season_count"; "seasons"; "message"].

(** A season carries a cover URL when the field holds a non-empty str. *)
Definition has_cover (season : NewFinishedSeason) : bool :=
  match cover_url season with
  | None | Some EmptyString => false
  | Some _ => true
  end.

(** Items whose [media_type] is exactly [season]. *)
Definition is_season_item (item : dict) : bool :=
  eq_str (get_or_none "media_type" item) "season".

(** Gates A to F on a season item, each one asked in the state the
    run has reached: the timestamp is there, parses and is converted to
    a time, that time is not before the cutoff, the show key is there,
    the show is not new, the rating key is there, the season is
    finished. *)
Definition passes_gates (item : dict) (s : state) : Prop :=
  let added_at_timestamp := get_or_none "added_at" item in
  let grandparent_rating_key := get_or_none "grandparent_rating_key" item in
  let rating_key := get_or_none "rating_key" item in
  exists n t s1 s2 s3,
    truthy added_at_timestamp = true
    /\ Py.int added_at_timestamp = Ok n
    /\ fromtimestamp n = Ok t
    /\ cutoff_date <= t
    /\ truthy grandparent_rating_key = true
    /\ records s1 = (records s
                      ++ [LogRecord INFO
                            ("Processing: "
                               ++ Py.str (get_default "parent_title" (VStr "Unknown") item)
                               ++ " - Season "
                               ++ Py.str (get_default "parent_index" (VInt 0) item)
                               ++ " (added " ++ DateTime.str t ++ ")")])%list
    /\ world s1 = world s
    /\ is_new_show_func (Py.str grandparent_rating_key) cutoff_date s1
       = (Ok false, s2)
    /\ truthy rating_key = true
    /\ is_season_finished_func (Py.str rating_key) s2 = (true, s3).


(** One record per surviving item, in the order of the list: the
    records of the items after [item] follow the record of [item].  An
    item whose body raises ends the list there, with the exception. *)
Fixpoint survivors (items : list dict) : St (result (list NewFinishedSeason)) :=
  match items with
  | [] => ret (Ok [])
  | item :: rest =>
      r <- loop_body cutoff_date is_new_show_func is_season_finished_func
             get_show_cover_func get_children_func item ;;
      match r with
      | inl (Raised e) => ret (Raise e)
      | _ =>
          out <- survivors rest ;;
          ret match r with
              | inr record =>
                  match out with
                  | Ok out => Ok (record :: out)
                  | Raise e => Raise e
                  end
              | inl _ => out
              end
      end
  end.

(** The output of a loop that drops an item: what the loop gives on
    the items before it, then on the items after it; an exception of the
    items before, of the item or of the items after is the outcome. *)
Definition without_item (before : result (list NewFinishedSeason))
    (dropped : skip + NewFinishedSeason)
    (after : result (list NewFinishedSeason))
    : result (list NewFinishedSeason) :=
  match before with
  | Raise e => Raise e
  | Ok kept =>
      match dropped with
      | inl (Raised e) => Raise e
      | _ =>
          match after with
          | Ok out => Ok (kept ++ out)%list
          | Raise e => Raise e
          end
      end
  end.

End Spec.

Section AsStated.
Context `{Runtime}.


(** The selection as the specification states it: every mode string
    other than the three names fails. *)
Definition every_other_mode_fails : Prop :=
  forall (config : Config.Config) (s : state),
    Config.webhook_mode config <> "signal-cli" ->
    Config.webhook_mode config <> "default" ->
    Config.webhook_mode config <> "custom" ->
    exists e, fst (Main.get_webhook_provider config s) = Raise e.

(** The generic provider of a [Config] as the specification states it:
    [build_payload] always returns the default payload. *)
Definition always_default_payload : Prop :=
  forall (config : Config.Config) (seasons : list NewFinishedSeason) (s : state),
    exists payload,
      fst (Generic.build_payload (Config.get_provider_config config) seasons s)
      = Ok payload
      /\ keys payload = default_keys.

End AsStated.
End Spec.

(** ** A runtime to run the program on *)

Module Sample.
Import Logic.

(** [str.format] for templates made of text, doubled braces and plain
    [{name}] fields; a field with a conversion, a format spec, an
    attribute or an index is outside this fragment.  In [FField] the name
    read so far is kept reversed. *)
Inductive fstate := FText | FOpen | FField (name : string) | FClose.

Fixpoint all_digits (s : string) : bool :=
  match s with
  | EmptyString => true
  | String c s' => Json.is_digit c && all_digits s'
  end.

Fixpoint format_from (kwargs : list (string * pyval)) (st : fstate) (s : string)
    : result string :=
  match s with
  | EmptyString =>
      match st with
      | FText => Ok EmptyString
      | FClose => Raise (Exn ValueError "Single '}' encountered in format string")
      | FOpen => Raise (Exn ValueError "Single '{' encountered in format string")
      | FField _ => Raise (Exn ValueError "expected '}' before end of string")
      end
  | String c s' =>
      let emit (t : string) :=
        match format_from kwargs FText s' with
        | Ok r => Ok (t ++ r)
        | Raise e => Raise e
        end in
      let n := Str.code c in
      match st with
      | FText =>
          if n =? 123 then format_from kwargs FOpen s'
          else if n =? 125 then format_from kwargs FClose s'
          else emit (String c EmptyString)
      | FOpen =>
          if n =? 123 then emit "{"
          else if n =? 125 then
            Raise (Exn IndexError
                     "Replacement index 0 out of range for positional args tuple")
          else format_from kwargs (FField (String c EmptyString)) s'
      | FField name =>
          if n =? 125 then
            if all_digits name then
              Raise (Exn IndexError
                       ("Replacement index " ++ Str.rev name
                          ++ " out of range for positional args tuple"))
            else
              match get (Str.rev name) kwargs with
              | Some v => emit (Py.str v)
              | None => Raise (Exn KeyError (repr_str (Str.rev name)))
              end
          else if n =? 123 then
            Raise (Exn ValueError "unexpected '{' in field name")
          else format_from kwargs (FField (String c name)) s'
      | FClose =>
          if n =? 125 then emit "}"
          else Raise (Exn ValueError "Single '}' encountered in format string")
      end
  end.

Definition format_named (template : string) (kwargs : list (string * pyval))
    : result string :=
  format_from kwargs FText template.

(** The year of the day that is [days] days after 1970-01-01 in the
    proleptic Gregorian calendar. *)
Definition year_of_days (days : Z) : Z :=
  let z := days + 719468 in
  let era := z / 146097 in
  let doe := z - era * 146097 in
  let yoe := (doe - doe / 1460 + doe / 36524 - doe / 146096) / 365 in
  let doy := doe - (365 * yoe + yoe / 4 - yoe / 100) in
  let mp := (5 * doy + 2) / 153 in
  yoe + era * 400 + (if mp <? 10 then 0 else 1).

(** The year of a unix time as the C library holds it, in an [int]. *)
Definition c_year (n : Z) : Z :=
  (year_of_days (n / 86400) + 2147483648) mod 4294967296 - 2147483648.

Definition out_of_range (year : Z) : exn :=
  Exn ValueError ("year " ++ Str.of_Z year ++ " is out of range").

(** [datetime.fromtimestamp] of CPython on 64-bit Linux with UTC as the
    local time: a number outside time_t is an OverflowError, one whose
    year does not fit the C library's [struct tm] an OSError, and a
    year outside 1 to 9999 a ValueError, for the time itself and for
    the time one day before it, which is looked at to detect a fold. *)
Definition fromtimestamp_utc (n : Z) : result DateTime.datetime :=
  if (n <? - 2 ^ 63) || (2 ^ 63 <=? n) then
    Raise (Exn OverflowError "timestamp out of range for platform time_t")
  else if (n <? -67768040609740800) || (67768036191676799 <? n) then
    Raise (Exn OSError "[Errno 75] Value too large for defined data type")
  else
    let year := c_year n in
    if (year <? 1) || (9999 <? year) then Raise (out_of_range year)
    else
      let probe := c_year (n - 86400) in
      if (probe <? 1) || (9999 <? probe) then Raise (out_of_range probe)
      else Ok (n * 1000000).

(** The world is the reading of the clock, which advances by one
    microsecond when read; the local time is UTC; the network is down;
    no list converts to a dict. *)
#[local] Instance runtime : Runtime := {
  World := Z;
  clock := fun w => (w, w + 1);
  fromtimestamp := fromtimestamp_utc;
  str_format := format_named;
  urlopen_read := fun url w =>
    (Raise (Exn ValueError ("unknown url type: " ++ repr_str url)), w);
  dict_of_list := fun l =>
    Raise (Exn TypeError
             "cannot convert dictionary update sequence element #0 to a sequence")
}.

Definition start (now : Z) : state := {| world := now; records := [] |}.

(** 2026-02-04T10:30:00 *)
Definition now : Z := 1770201000 * 1000000.

(** Upstream answers that do not depend on the state. *)
Definition answer {A : Type} (a : A) : St A := fun s => (a, s).

Definition season_item (rating_key grandparent : string) (added_at : Z) : dict :=
  [ ("rating_key", VStr rating_key);
    ("title", VStr "Season 3");
    ("parent_title", VStr "Breaking Bad");
    ("grandparent_rating_key", VStr grandparent);
    ("media_type", VStr "season");
    ("parent_index", VInt 3);
    ("added_at", VStr (Str.of_Z added_at)) ].

Definition episode (file : string) : dict :=
  [ ("rating_key", VStr "ep");
    ("media_type", VStr "episode");
    ("media_info", VDict [("parts", VDict [("file", VStr file)])]) ].

Definition old_show : dict :=
  [ ("rating_key", VStr "11111"); ("added_at", VStr "1700000000") ].

Definition breaking_bad : NewFinishedSeason :=
  {| show := VStr "Breaking Bad";
     season := VInt 3;
     season_title := VStr "Season 3";
     added_at := "2026-01-28T10:30:00";
     episode_count := 13;
     rating_key := VStr "12345";
     cover_url := Some "http://localhost:32400/library/metadata/12345/thumb/1234567890" |}.

Definition the_office : NewFinishedSeason :=
  {| show := VStr "The Office";
     season := VInt 2;
     season_title := VStr "Season 2";
     added_at := "2026-01-29T14:20:00";
     episode_count := 22;
     rating_key := VStr "67890";
     cover_url := None |}.

Definition base_config : Config.Config :=
  {| Config.tautulli_url := "http://localhost:8181";
     Config.tautulli_apikey := "test";
     Config.plex_url := EmptyString;
     Config.plex_token := EmptyString;
     Config.webhook_url := "http://example.com/webhook";
     Config.webhook_mode := "default";
     Config.webhook_message_template := Base.default_message_template;
     Config.webhook_on_empty := false;
     Config.webhook_payload_template := "default";
     Config.signal_number := "+1234567890";
     Config.signal_recipients := "+0987654321,+1122334455";
     Config.signal_text_mode := "styled";
     Config.signal_include_covers := true;
     Config.lookback_days := 7;
     Config.debug := false |}.

Definition with_mode (mode : string) (c : Config.Config) : Config.Config :=
  {| Config.tautulli_url := Config.tautulli_url c;
     Config.tautulli_apikey := Config.tautulli_apikey c;
     Config.plex_url := Config.plex_url c;
     Config.plex_token := Config.plex_token c;
     Config.webhook_url := Config.webhook_url c;
     Config.webhook_mode := mode;
     Config.webhook_message_template := Config.webhook_message_template c;
     Config.webhook_on_empty := Config.webhook_on_empty c;
     Config.webhook_payload_template := Config.webhook_payload_template c;
     Config.signal_number := Config.signal_number c;
     Config.signal_recipients := Config.signal_recipients c;
     Config.signal_text_mode := Config.signal_text_mode c;
     Config.signal_include_covers := Config.signal_include_covers c;
     Config.lookback_days := Config.lookback_days c;
     Config.debug := Config.debug c |}.

Definition with_message_template (t : string) (c : Config.Config) : Config.Config :=
  {| Config.tautulli_url := Config.tautulli_url c;
     Config.tautulli_apikey := Config.tautulli_apikey c;
     Config.plex_url := Config.plex_url c;
     Config.plex_token := Config.plex_token c;
     Config.webhook_url := Config.webhook_url c;
     Config.webhook_mode := Config.webhook_mode c;
     Config.webhook_message_template := t;
     Config.webhook_on_empty := Config.webhook_on_empty c;
     Config.webhook_payload_template := Config.webhook_payload_template c;
     Config.signal_number := Config.signal_number c;
     Config.signal_recipients := Config.signal_recipients c;
     Config.signal_text_mode := Config.signal_text_mode c;
     Config.signal_include_covers := Config.signal_include_covers c;
     Config.lookback_days := Config.lookback_days c;
     Config.debug := Config.debug c |}.

(** The template of the round-trip example: an object whose [count] is
    the [season_count] token. *)
Definition count_template : string :=
  "{" ++ Str.dq ++ "count" ++ Str.dq ++ ":{season_count}}".

Definition new_show : dict :=
  [ ("rating_key", VStr "11111"); ("added_at", VStr "1770000000") ].

Definition movie_item : dict :=
  [ ("rating_key", VStr "movie123");
    ("title", VStr "A Movie");
    ("media_type", VStr "movie");
    ("added_at", VStr "1770100000") ].

(** The season added exactly seven days before [now]. *)
Definition boundary_item : dict := season_item "12345" "11111" 1769596200.

Definition recently_added : string -> Z -> St (list dict) :=
  fun _ _ => answer [movie_item; boundary_item].

Definition only_boundary_item : string -> Z -> St (list dict) :=
  fun _ _ => answer [boundary_item].

(** A season whose timestamp is in the year 318857, and one whose
    timestamp the C library does not convert. *)
Definition late_item : dict := season_item "77777" "11111" (10 ^ 13).

Definition far_item : dict := season_item "99999" "11111" (10 ^ 18).

Definition boundary_then_far : string -> Z -> St (list dict) :=
  fun _ _ => answer [boundary_item; far_item].

Definition boundary_then_late : string -> Z -> St (list dict) :=
  fun _ _ => answer [late_item; boundary_item].

(** Shows with such timestamps. *)
Definition late_show : dict :=
  [ ("rating_key", VStr "11111"); ("added_at", VStr "10000000000000") ].

Definition far_show : dict :=
  [ ("rating_key", VStr "11111"); ("added_at", VStr "1000000000000000000") ].

Definition metadata_of (show : dict) : string -> St (option dict) :=
  fun _ => answer (Some show).

Definition children_of (children : list dict) : string -> St (list dict) :=
  fun _ => answer children.

Definition no_cover : string -> St (option string) :=
  fun _ => answer None.

Definition one_real_one_stub : list dict :=
  [episode "/tv/s03e01.mkv"; episode "/tv/s03e02.strm"].

Definition only_stubs : list dict :=
  [episode "/tv/s03e01.strm"; episode "/tv/s03e02.strm"].

Definition boundary_record : NewFinishedSeason :=
  {| show := VStr "Breaking Bad";
     season := VInt 3;
     season_title := VStr "Season 3";
     added_at := "2026-01-28T10:30:00";
     episode_count := 2;
     rating_key := VStr "12345";
     cover_url := None |}.

(** A config dict with the round-trip template. *)
Definition count_config : dict :=
  [ ("message_template", VStr "Found {season_count} new seasons");
    ("webhook_payload_template", VStr count_template);
    ("lookback_days", VInt 7) ].

(** A config dict whose template is not JSON. *)
Definition broken_template_config : dict :=
  [ ("message_template", VStr "Found {season_count} new seasons");
    ("webhook_payload_template", VStr "default");
    ("lookback_days", VInt 7) ].

End Sample.

(** ** config.py: the environment *)

Module Environ.
Import Config.
Section Environ.
Context `{Runtime}.

(** [os.environ.get(name, default)] on the variables of the process. *)
Definition getenv (environ : list (string * string)) (name default : string)
    : string :=
  get_default name default environ.

(** [os.environ.get(name, "false").lower() == "true"] *)
Definition flag (environ : list (string * string)) (name : string) : bool :=
  String.eqb (Str.lower (getenv environ name "false")) "true".

(** config.py, [Config._get_lookback_days]: the ValueError of [int] and
    the one raised for a value out of range end in the same handler. *)
Definition _get_lookback_days (environ : list (string * string)) : St Z :=
  match Py.int (VStr (getenv environ "LOOKBACK_DAYS" "7")) with
  | Ok days =>
      if (days <? 1) || (365 <? days) then
        log WARNING ("Invalid LOOKBACK_DAYS: "
                       ++ "LOOKBACK_DAYS must be between 1 and 365"
                       ++ ". Using default of 7.") ;;;
        ret 7
      else ret days
  | Raise e =>
      log WARNING ("Invalid LOOKBACK_DAYS: " ++ exn_msg e
                     ++ ". Using default of 7.") ;;;
      ret 7
  end.

(** config.py, [Config.from_env]. *)
Definition from_env (environ : list (string * string)) : St Config :=
  lookback <- _get_lookback_days environ ;;
  ret {| tautulli_url := getenv environ "TAUTULLI_URL" EmptyString;
         tautulli_apikey := getenv environ "TAUTULLI_APIKEY" EmptyString;
         plex_url := getenv environ "PLEX_URL" EmptyString;
         plex_token := getenv environ "PLEX_TOKEN" EmptyString;
         webhook_url := getenv environ "WEBHOOK_URL" EmptyString;
         webhook_mode := getenv environ "WEBHOOK_MODE" "default";
         webhook_message_template :=
           getenv environ "WEBHOOK_MESSAGE_TEMPLATE" Base.default_message_template;
         webhook_on_empty := flag environ "WEBHOOK_ON_EMPTY";
         webhook_payload_template :=
           getenv environ "WEBHOOK_PAYLOAD_TEMPLATE" "default";
         signal_number := getenv environ "SIGNAL_NUMBER" EmptyString;
         signal_recipients := getenv environ "SIGNAL_RECIPIENTS" EmptyString;
         signal_text_mode := getenv environ "SIGNAL_TEXT_MODE" "styled";
         signal_include_covers := flag environ "SIGNAL_INCLUDE_COVERS";
         lookback_days := lookback;
         debug := flag environ "DEBUG" |}.

End Environ.
End Environ.

(** ** api.py *)

Module Api.
Section Api.
Context `{Runtime}.

(** The [try] statement of [make_tautulli_request], for a URL and a
    command: the command is logged, the URL is opened and its body
    decoded; the data of a successful answer come back, and [None] after
    an error, which is logged.  Its last handler catches every
    exception, so nothing is raised to the caller. *)
Variable request : string -> string -> St (option pyval).

(** [urllib.parse.urljoin]; it raises ValueError on a base that does not
    parse, such as one with an unpaired bracket in its host. *)
Variable urljoin : string -> string -> result string.

(** [urllib.parse.urlencode]; it raises on a str that has no UTF-8
    encoding. *)
Variable urlencode : dict -> result string.

Definition is_slash (c : ascii) : bool := Ascii.eqb c "/".

(** [s.rstrip("/")] *)
Definition rstrip_slash (s : string) : string :=
  Str.rev (Str.lstrip_by is_slash (Str.rev s)).

(** [base.update(params)]: a key that is there keeps its place and takes
    the new value, a new key goes to the end. *)
Definition update (base params : dict) : dict :=
  fold_left (fun d kv => set (fst kv) (snd kv) d) params base.

(** The URL of a command: [urljoin] and [urlencode] are called outside
    the [try] statement, what they raise goes to the caller. *)
Definition request_url (cmd : string) (params : dict)
    (tautulli_url tautulli_apikey : string) : result string :=
  let base_params :=
    update [("apikey", VStr tautulli_apikey); ("cmd", VStr cmd)] params in
  match urljoin (rstrip_slash tautulli_url ++ "/") "api/v2" with
  | Raise e => Raise e
  | Ok endpoint =>
      match urlencode base_params with
      | Raise e => Raise e
      | Ok query => Ok (endpoint ++ "?" ++ query)
      end
  end.

(** api.py, [make_tautulli_request]. *)
Definition make_tautulli_request (cmd : string) (params : dict)
    (tautulli_url tautulli_apikey : string) : St (result (option pyval)) :=
  if String.eqb tautulli_url EmptyString || String.eqb tautulli_apikey EmptyString
  then
    log ERROR "tautulli_url or tautulli_apikey not set" ;;;
    ret (Ok None)
  else
    match request_url cmd params tautulli_url tautulli_apikey with
    | Raise e => ret (Raise e)
    | Ok url =>
        data <- request url cmd ;;
        ret (Ok data)
    end.

(** api.py, [get_recently_added]. *)
Definition get_recently_added (media_type : string) (count : Z)
    (tautulli_url tautulli_apikey : string) : St (result (list pyval)) :=
  let params := [("media_type", VStr media_type); ("count", VInt count)] in
  data <-! make_tautulli_request "get_recently_added" params
             tautulli_url tautulli_apikey ;;
  match data with
  | Some data =>
      if truthy data then
        ret (Ok match data with
                | VList l => l
                | _ => []
                end)
      else ret (Ok [])
  | None => ret (Ok [])
  end.

(** api.py, [get_metadata]. *)
Definition get_metadata (rating_key tautulli_url tautulli_apikey : string)
    : St (result (option dict)) :=
  let params := [("rating_key", VStr rating_key)] in
  result <-! make_tautulli_request "get_metadata" params
               tautulli_url tautulli_apikey ;;
  ret (Ok match result with
          | Some (VDict d) => Some d
          | _ => None
          end).

(** The comprehension of [get_children_metadata]: [child.get] raises on
    a child that is not a dict. *)
Fixpoint with_rating_key (children : list pyval) : result (list dict) :=
  match children with
  | [] => Ok []
  | VDict child :: rest =>
      match with_rating_key rest with
      | Ok kept =>
          Ok (if truthy (get_or_none "rating_key" child) then child :: kept
              else kept)
      | Raise e =>
          (* the children before the faulty one were looked at first *)
          Raise e
      end
  | child :: _ =>
      Raise (Exn AttributeError
               (Str.sq ++ type_name child ++ Str.sq
                  ++ " object has no attribute 'get'"))
  end.

(** api.py, [get_children_metadata]. *)
Definition get_children_metadata (rating_key tautulli_url tautulli_apikey : string)
    : St (result (list dict)) :=
  let params := [("rating_key", VStr rating_key)] in
  data <-! make_tautulli_request "get_children_metadata" params
             tautulli_url tautulli_apikey ;;
  match data with
  | Some data =>
      if truthy data then
        ret (with_rating_key match data with
                             | VList l => l
                             | _ => []
                             end)
      else ret (Ok [])
  | None => ret (Ok [])
  end.

(** api.py, [get_cover_url]; the thumb path is whatever the metadata
    hold, and [lstrip] is there for a str only.  [urljoin] is called
    outside any [try] statement: what it raises goes to the caller. *)
Definition get_cover_url (thumb_path : pyval) (plex_url plex_token : string)
    : St (result (option string)) :=
  if negb (truthy thumb_path) then ret (Ok None)
  else if String.eqb plex_url EmptyString || String.eqb plex_token EmptyString
  then
    log DEBUG "plex_url or plex_token not set, cannot build cover URL" ;;;
    ret (Ok None)
  else
    match thumb_path with
    | VStr thumb_path =>
        match urljoin (rstrip_slash plex_url ++ "/")
                (Str.lstrip_by is_slash thumb_path) with
        | Raise e => ret (Raise e)
        | Ok full_url =>
            let separator :=
              if Str.contains_char "?" full_url then "&" else "?" in
            ret (Ok (Some (full_url ++ separator ++ "X-Plex-Token="
                             ++ plex_token)))
        end
    | _ =>
        ret (Raise (Exn AttributeError
                      (Str.sq ++ type_name thumb_path ++ Str.sq
                         ++ " object has no attribute 'lstrip'")))
    end.

(** [a or b] *)
Definition py_or (a b : pyval) : pyval := if truthy a then a else b.

(** api.py, [get_show_cover]. *)
Definition get_show_cover (rating_key plex_url plex_token
                             tautulli_url tautulli_apikey : string)
    : St (result (option string)) :=
  metadata <-! get_metadata rating_key tautulli_url tautulli_apikey ;;
  match metadata with
  | None | Some [] => ret (Ok None)
  | Some metadata =>
      let thumb :=
        py_or (py_or (get_or_none "thumb" metadata) (get_or_none "art" metadata))
          (get_or_none "poster_thumb" metadata) in
      if truthy thumb then get_cover_url thumb plex_url plex_token
      else ret (Ok None)
  end.

(** api.py, [download_cover_as_base64]. *)
Definition download_cover_as_base64 (cover_url : string) : St (option string) :=
  if String.eqb cover_url EmptyString then ret None
  else
    r <- SignalCli.urlopen cover_url ;;
    match r with
    | Ok image_data => ret (Some (SignalCli.b64encode image_data))
    | Raise e =>
        log WARNING ("Failed to download cover: " ++ exn_msg e) ;;;
        ret None
    end.

End Api.
End Api.

(** ** main.py: sending *)

Module Send.
Import Logic Config Main.
Section Send.
Context `{Runtime}.

(** The POST of [send_webhook]: the payload is serialized, the request is
    built with the headers and opened with a timeout of 30; the status of
    the response comes back, or what [urlopen] raised. *)
Variable post : string -> jdict -> list (string * string) -> St (result Z).

(** Both providers take [get_headers] from the base class. *)
Definition get_headers (p : WebhookProvider) : list (string * string) :=
  Base.get_headers.

Definition success_status (status : Z) : bool :=
  (status =? 200) || (status =? 201) || (status =? 202) || (status =? 204).

(** main.py, [send_webhook]. *)
Definition send_webhook (seasons : list NewFinishedSeason)
    (provider : WebhookProvider) (config : Config) : St bool :=
  if match seasons with [] => true | _ => false end
     && negb (should_send_on_empty provider)
  then
    log INFO "No new seasons found, skipping webhook" ;;;
    ret true
  else if String.eqb (webhook_url config) EmptyString then
    log WARNING "WEBHOOK_URL not set, skipping webhook send" ;;;
    ret false
  else
    built <- build_payload provider seasons ;;
    match built with
    | Raise e =>
        log ERROR ("Failed to send webhook: " ++ exn_msg e) ;;;
        ret false
    | Ok payload =>
        let headers := get_headers provider in
        response <- post (webhook_url config) payload headers ;;
        match response with
        | Ok status =>
            if success_status status then
              log INFO ("Webhook sent successfully to " ++ webhook_url config) ;;;
              ret true
            else
              log WARNING ("Webhook returned status " ++ Str.of_Z status) ;;;
              ret false
        | Raise e =>
            log ERROR ("Failed to send webhook: " ++ exn_msg e) ;;;
            ret false
        end
    end.

End Send.
End Send.

(** ** More words of the specification *)

Module SpecMore.
Import Logic.

(** The first value of a list that is not empty, [None] when all are. *)
Fixpoint first_truthy (candidates : list pyval) : option pyval :=
  match candidates with
  | [] => None
  | v :: rest => if truthy v then Some v else first_truthy rest
  end.

(** The child has an identifier. *)
Definition has_rating_key (child : dict) : bool :=
  truthy (get_or_none "rating_key" child).

(** [old in s] *)
Fixpoint occurs (old s : string) : bool :=
  Str.startswith old s
  || match s with
     | EmptyString => false
     | String _ s' => occurs old s'
     end.

(** The six tokens of a payload template. *)
Definition tokens : list string :=
  ["{timestamp}"; "{period_days}"; "{season_count}"; "{message}";
   "{show_list}"; "{seasons}"].

(** [sub] is [l] with some of its elements left out, the others in
    their order. *)
Inductive subsequence {A : Type} : list A -> list A -> Prop :=
| subsequence_nil : subsequence [] []
| subsequence_skip (x : A) (sub l : list A) :
    subsequence sub l -> subsequence sub (x :: l)
| subsequence_take (x : A) (sub l : list A) :
    subsequence sub l -> subsequence (x :: sub) (x :: l).

Definition is_dict (v : pyval) : bool :=
  match v with VDict _ => true | _ => false end.

(** The value at the end of a path of keys through nested dicts, when
    every key is there. *)
Fixpoint path (current : pyval) (keys : list string) : option pyval :=
  match keys with
  | [] => Some current
  | key :: rest =>
      match current with
      | VDict d =>
          match get key d with
          | Some v => path v rest
          | None => None
          end
      | _ => None
      end
  end.

(** A Unicode scalar value: a code point that is no surrogate. *)
Definition scalar (cp : Z) : bool :=
  (0 <=? cp) && (cp <? 1114112) && negb ((55296 <=? cp) && (cp <=? 57343)).

(** The str of a list of code points, in UTF-8. *)
Fixpoint encode (cps : list Z) : string :=
  match cps with
  | [] => EmptyString
  | cp :: rest => Json.utf8 cp ++ encode rest
  end.

(** What [json.dumps] writes for one code point inside a string. *)
Definition escape_cp (cp : Z) : string :=
  if cp <? 128 then Json.escape_ascii (Json.byte cp) else Json.escape_point cp.

(** The payload template whose only member is the message. *)
Definition message_only_template : string :=
  "{" ++ Str.dq ++ "message" ++ Str.dq ++ ": {message}}".

(** Every character of [s] satisfies [p]. *)
Fixpoint all_chars (p : ascii -> bool) (s : string) : bool :=
  match s with
  | EmptyString => true
  | String c s' => p c && all_chars p s'
  end.

(** [s] is the UTF-8 form of a text. *)
Definition text (s : string) : Prop :=
  exists cps, forallb scalar cps = true /\ s = encode cps.

(** A value whose strs are texts and whose dicts have no key twice. *)
Fixpoint wf (v : pyval) : Prop :=
  match v with
  | VStr s => text s
  | VList l => fold_right (fun x rest => wf x /\ rest) True l
  | VDict d =>
      NoDup (map fst d)
      /\ fold_right (fun '(k, x) rest => text k /\ wf x /\ rest) True d
  | VFloat f => match f with end
  | _ => True
  end.

(** Items between commas, up to the closing token. *)
Fixpoint separated (close : Json.token) (items : list (list Json.token))
    : list Json.token :=
  match items with
  | [] => [close]
  | item :: rest =>
      (item ++ match rest with
               | [] => separated close rest
               | _ => Json.TComma :: separated close rest
               end)%list
  end.

(** The tokens of the JSON text of a value. *)
Fixpoint json_tokens (v : pyval) : list Json.token :=
  match v with
  | VList l => Json.TLBrack :: separated Json.TRBrack (map json_tokens l)
  | VDict d =>
      Json.TLBrace
        :: separated Json.TRBrace
             (map (fun '(k, x) =>
                     Json.TAtom (VStr k) :: Json.TColon :: json_tokens x) d)
  | VFloat f => match f with end
  | _ => [Json.TAtom (Json.lift v)]
  end.

(** The text goes on with a character that ends a word, or ends. *)
Definition closes (rest : string) : bool :=
  match rest with
  | EmptyString => true
  | String c _ => Json.ends_word c
  end.

(** Scanning goes through the text of a value and leaves its tokens. *)
Definition scans (v : pyval) : Prop :=
  forall (rest : string) (out : list Json.token),
    closes rest = true ->
    Json.scan Json.STop (Json.dumps v ++ rest) out
    = Json.scan Json.STop rest (List.rev (json_tokens v) ++ out)%list.

(** Parsing goes through the tokens of a value and completes it. *)
Definition parses (v : pyval) : Prop :=
  forall (e : Json.expect) (st : list Json.frame) (ts : list Json.token),
    e = Json.EValue \/ e = Json.EFirst ->
    Json.parse e st (json_tokens v ++ ts)%list
    = match Json.complete (Json.lift v) st with
      | Some (e', st') => Json.parse e' st' ts
      | None => None
      end.

(** The payload template whose only member is the list of seasons. *)
Definition seasons_only_template : string :=
  "{" ++ Str.dq ++ "seasons" ++ Str.dq ++ ": {seasons}}".

(** A printable ASCII character other than the quote, the backslash and
    the opening brace. *)
Definition plain (c : ascii) : bool :=
  let n := Str.code c in
  (32 <=? n) && (n <? 127) && negb (n =? 34) && negb (n =? 92) && negb (n =? 123).

(** The payload template that spells out the default payload. *)
Definition default_shaped_template : string :=
  "{" ++ Str.dq ++ "timestamp" ++ Str.dq ++ ": {timestamp}, "
    ++ Str.dq ++ "period_days" ++ Str.dq ++ ": {period_days}, "
    ++ Str.dq ++ "season_count" ++ Str.dq ++ ": {season_count}, "
    ++ Str.dq ++ "seasons" ++ Str.dq ++ ": {seasons}, "
    ++ Str.dq ++ "message" ++ Str.dq ++ ": {message}}".

End SpecMore.

(** ** More sample data *)

Module SampleMore.
Import Logic.

#[local] Existing Instance Sample.runtime.

(** A server that answers every POST with the same status. *)
Definition post_status (status : Z)
    : string -> jdict -> list (string * string) -> St (result Z) :=
  fun _ _ _ => Sample.answer (Ok status).

(** A server that answers every command with the same data. *)
Definition api_data (data : option pyval) : string -> string -> St (option pyval) :=
  fun _ cmd =>
    log DEBUG ("Making request to Tautulli API: " ++ cmd) ;;;
    ret data.

(** A join for a base of the form [scheme://host/] and a plain relative
    path: the path goes after the base, where [urljoin] puts it, and a
    host with one bracket and not the other is refused, as [urljoin]
    refuses it. *)
Definition join_plain (base path : string) : result string :=
  if xorb (Str.contains_char "[" base) (Str.contains_char "]" base)
  then Raise (Exn ValueError "Invalid IPv6 URL")
  else Ok (base ++ path).

(** [urlencode] for keys and values without reserved characters. *)
Definition encode_plain (params : dict) : result string :=
  Ok (Str.join "&" (map (fun kv => fst kv ++ "=" ++ Py.str (snd kv)) params)).

Definition child (rating_key : pyval) : dict :=
  [("rating_key", rating_key); ("media_type", VStr "episode")].

Definition signal_config : Config.Config :=
  Sample.with_mode "signal-cli" Sample.base_config.

(** A Signal configuration whose recipients are a comma between blanks. *)
Definition blank_recipients_config : Config.Config :=
  {| Config.tautulli_url := "http://localhost:8181";
     Config.tautulli_apikey := "test";
     Config.plex_url := EmptyString;
     Config.plex_token := EmptyString;
     Config.webhook_url := "http://example.com/webhook";
     Config.webhook_mode := "Signal-CLI";
     Config.webhook_message_template := Base.default_message_template;
     Config.webhook_on_empty := false;
     Config.webhook_payload_template := EmptyString;
     Config.signal_number := "+1234567890";
     Config.signal_recipients := " , ";
     Config.signal_text_mode := "styled";
     Config.signal_include_covers := false;
     Config.lookback_days := 7;
     Config.debug := false |}.

(** A payload template without a token. *)
Definition fixed_template : string :=
  "{" ++ Str.dq ++ "text" ++ Str.dq ++ ": 1}".

Definition fixed_config : dict :=
  [ ("message_template", VStr "Found {season_count} new seasons");
    ("webhook_payload_template", VStr fixed_template) ].

Definition only_movie : string -> Z -> St (list dict) :=
  fun _ _ => Sample.answer [Sample.movie_item].

(** A config dict with the template whose only member is the message;
    the message template is the default one. *)
Definition message_only_config : dict :=
  [ ("webhook_payload_template", VStr SpecMore.message_only_template) ].

(** Config dicts with the templates of the seasons alone and of the
    default payload. *)
Definition seasons_only_config : dict :=
  [ ("webhook_payload_template", VStr SpecMore.seasons_only_template) ].

Definition default_shaped_config : dict :=
  [ ("webhook_payload_template", VStr SpecMore.default_shaped_template) ].

(** The code points of the default message for one season. *)
Definition one_season_text : list Z :=
  [128250; 32; 49; 32; 110; 101; 119; 32; 115; 101; 97; 115; 111; 110; 40;
   115; 41; 32; 99; 111; 109; 112; 108; 101; 116; 101; 100; 32; 116; 104;
   105; 115; 32; 119; 101; 101; 107; 33].

End SampleMore.

Example repr_nested :
  Py.repr (Py.VDict [("a", Py.VList [Py.VInt (-12); Py.VStr "x"; Py.VNone])])
  = "{'a': [-12, 'x', None]}".
Proof. reflexivity. Qed.

Example replace_twice : Str.replace "a{x}b{x}{x" "{x}" "12" = "a12b12{x".
Proof. reflexivity. Qed.

Example int_of_string_ok : Py.int_of_string "  -1_000 " = Some (-1000).
Proof. reflexivity. Qed.

Example int_of_string_bad : Py.int_of_string "1__0" = None.
Proof. reflexivity. Qed.

Example split_strip :
  map Str.strip (Str.split " +123 , +456 ,, +789 " ",") = ["+123"; "+456"; ""; "+789"].
Proof. reflexivity. Qed.

Example dumps_nested :
  Json.dumps (Py.VDict [("a", Py.VList [Py.VInt 1; Py.VStr ("x" ++ Str.nl); Py.VBool true]);
                        ("b", Py.VDict [])])
  = "{" ++ Str.dq ++ "a" ++ Str.dq ++ ": [1, " ++ Str.dq ++ "x" ++ Str.bs ++ "n" ++ Str.dq
        ++ ", true], " ++ Str.dq ++ "b" ++ Str.dq ++ ": {}}".
Proof. reflexivity. Qed.

Example loads_nested :
  Json.loads ("{" ++ Str.dq ++ "a" ++ Str.dq ++ ": [1, -2.5e3, " ++ Str.dq ++ "x"
                  ++ Str.bs ++ "u00e9" ++ Str.dq ++ ", null], " ++ Str.dq ++ "a" ++ Str.dq ++ ":{} } ")
  = Some (Py.VDict [("a", Py.VDict [])]).
Proof. reflexivity. Qed.

Example loads_list :
  Json.loads "[1, -2.5e3, [], [true,false], 0]"
  = Some (Py.VList [Py.VInt 1; Py.VFloat "-2.5e3"; Py.VList [];
                    Py.VList [Py.VBool true; Py.VBool false]; Py.VInt 0]).
Proof. reflexivity. Qed.

Example loads_bad1 : Json.loads "[1,]" = None. Proof. reflexivity. Qed.
Example loads_bad2 : Json.loads "01" = None. Proof. reflexivity. Qed.
Example loads_bad3 : Json.loads "default" = None. Proof. reflexivity. Qed.
Example loads_bad4 : Json.loads "{} x" = None. Proof. reflexivity. Qed.
Example loads_bad5 : Json.loads "" = None. Proof. reflexivity. Qed.
Example loads_bad6 : Json.loads "[1 2]" = None. Proof. reflexivity. Qed.

Example isoformat_sample :
  DateTime.isoformat (1769596200 * 1000000) = "2026-01-28T10:30:00".
Proof. reflexivity. Qed.

Example str_sample :
  DateTime.str (951782400 * 1000000 + 5) = "2000-02-29 00:00:00.000005".
Proof. reflexivity. Qed.

Example str_before_epoch :
  DateTime.str (-1) = "1969-12-31 23:59:59.999999".
Proof. reflexivity. Qed.

Example b64_sample : SignalCli.b64encode "fake_image_data" = "ZmFrZV9pbWFnZV9kYXRh".
Proof. reflexivity. Qed.

Example b64_pad : SignalCli.b64encode "ab" = "YWI=" /\ SignalCli.b64encode "a" = "YQ==".
Proof. split; reflexivity. Qed.

Example format_named_sample :
  Sample.format_named "{season_count} new: {show_list} {{x}}"
    [("season_count", VInt 2); ("show_list", VStr "A S1, B S2")]
  = Ok "2 new: A S1, B S2 {x}".
Proof. reflexivity. Qed.

Example format_named_unknown :
  Sample.format_named "{oops}" [("season_count", VInt 2)]
  = Raise (Exn KeyError "'oops'").
Proof. reflexivity. Qed.

(** * Properties *)

(** ** Computations on the state *)

Section StateFacts.
Context `{Runtime}.

Lemma state_of (s : state) (w : World) (r : list log_record) :
  world s = w -> records s = r -> s = {| world := w; records := r |}.
Proof. destruct s; simpl; intros; subst; reflexivity. Qed.

Lemma bind_run {A B : Type} (c : St A) (k : A -> St B) (s : state) :
  bind c k s = k (fst (c s)) (snd (c s)).
Proof. unfold bind. destruct (c s); reflexivity. Qed.

Lemma log_run (l : level) (msg : string) (s : state) :
  log l msg s
  = (tt, {| world := world s; records := (records s ++ [LogRecord l msg])%list |}).
Proof. reflexivity. Qed.

End StateFacts.

(** Unfolds the monad's operations where they are applied to a state. *)
Ltac st_run :=
  repeat (rewrite bind_run || rewrite log_run); unfold ret; cbn [fst snd].

(** ** The loop of [get_new_finished_seasons] *)

Section LoopFacts.
Import Logic Spec.
Context `{Runtime}.

Variable cutoff_date : DateTime.datetime.
Variable is_new_show_func : string -> DateTime.datetime -> St (result bool).
Variable is_season_finished_func : string -> St bool.
Variable get_show_cover_func : string -> St (option string).
Variable get_children_func : string -> St (list dict).

Local Abbreviation body :=
  (loop_body cutoff_date is_new_show_func is_season_finished_func
     get_show_cover_func get_children_func).
Local Abbreviation loop :=
  (for_items cutoff_date is_new_show_func is_season_finished_func
     get_show_cover_func get_children_func).
Local Abbreviation spec :=
  (survivors cutoff_date is_new_show_func is_season_finished_func
     get_show_cover_func get_children_func).

(** The accumulating loop appends the survivors, in order, to what it
    started with, and fails where the survivors fail. *)
Lemma for_items_survivors (items : list dict) :
  forall (acc : list NewFinishedSeason) (s : state),
    loop items acc s
    = (match fst (spec items s) with
       | Ok out => Ok (acc ++ out)%list
       | Raise e => Raise e
       end, snd (spec items s)).
Proof.
  induction items as [|item rest IH]; intros acc s.
  - simpl. unfold ret. simpl. rewrite app_nil_r. reflexivity.
  - simpl. st_run.
    destruct (fst (loop_body _ _ _ _ _ item s)) as [k|record].
    + destruct k; try (rewrite IH; st_run;
        destruct (fst (survivors _ _ _ _ _ rest _)); reflexivity).
      reflexivity.
    + rewrite IH. st_run.
      destruct (fst (survivors _ _ _ _ _ rest _)); [|reflexivity].
      rewrite <- app_assoc. reflexivity.
Qed.

(** An item that is not a season leaves the body at once: nothing is
    fetched, nothing is logged. *)
Lemma loop_body_not_season (item : dict) (s : state) :
  is_season_item item = false -> body item s = (inl NotSeason, s).
Proof.
  intros Hn. unfold loop_body.
  unfold is_season_item in Hn. rewrite Hn. reflexivity.
Qed.

Lemma survivors_cons (item : dict) (rest : list dict) (s : state) :
  spec (item :: rest) s
  = match fst (body item s) with
    | inl (Raised e) => (Raise e, snd (body item s))
    | inl _ => spec rest (snd (body item s))
    | inr record =>
        (match fst (spec rest (snd (body item s))) with
         | Ok out => Ok (record :: out)
         | Raise e => Raise e
         end,
         snd (spec rest (snd (body item s))))
    end.
Proof.
  simpl. st_run.
  destruct (fst (body item s)) as [k|record]; [destruct k|]; st_run;
    try reflexivity; destruct (spec rest (snd (body item s))); reflexivity.
Qed.

(** Items that are not seasons can be taken out of the list. *)
Lemma survivors_filter (items : list dict) :
  forall s : state, spec items s = spec (filter is_season_item items) s.
Proof.
  induction items as [|item rest IH]; intros s; [reflexivity|].
  simpl filter. destruct (is_season_item item) eqn:E.
  - rewrite !survivors_cons. rewrite IH. reflexivity.
  - rewrite survivors_cons. rewrite (loop_body_not_season item s E). cbn [fst snd].
    rewrite IH.
    destruct (spec (filter is_season_item rest) s) as [[out|e] s']; reflexivity.
Qed.

Lemma survivors_app (pre post : list dict) :
  forall s : state,
    spec (pre ++ post) s
    = match fst (spec pre s) with
      | Ok kept =>
          (match fst (spec post (snd (spec pre s))) with
           | Ok out => Ok (kept ++ out)%list
           | Raise e => Raise e
           end,
           snd (spec post (snd (spec pre s))))
      | Raise e => (Raise e, snd (spec pre s))
      end.
Proof.
  induction pre as [|item rest IH]; intros s.
  - simpl. unfold ret. simpl. destruct (spec post s) as [[out|e] s']; reflexivity.
  - rewrite <- app_comm_cons. rewrite !survivors_cons. 
    destruct (fst (body item s)) as [k|record]; [destruct k|];
      cbn [fst snd]; try reflexivity;
      rewrite IH;
      destruct (fst (spec rest (snd (body item s)))) as [kept|e]; cbn [fst snd];
      try reflexivity;
      destruct (fst (spec post _)); reflexivity.
Qed.

(** The body keeps a season item exactly when the item passes the
    gates. *)
Lemma loop_body_keeps_iff (item : dict) (s : state) :
  is_season_item item = true ->
  (exists record s', body item s = (inr record, s'))
  <-> passes_gates cutoff_date is_new_show_func is_season_finished_func item s.
Proof.
  intros Hs. unfold loop_body, passes_gates, from_unix.
  unfold is_season_item in Hs. rewrite Hs. cbn [negb].
  destruct (truthy (get_or_none "added_at" item)) eqn:Ea; cbn [negb].
  2:{ st_run. split.
      - intros (r & s' & E). discriminate.
      - intros (n & t & s1 & s2 & s3 & E & _). discriminate. }
  destruct (Py.int (get_or_none "added_at" item)) as [n|e] eqn:Ei.
  2:{ split.
      - intros (r & s' & E). revert E.
        destruct (is_value_or_type_error e); st_run; discriminate.
      - intros (n & t & s1 & s2 & s3 & _ & E & _). discriminate. }
  destruct (fromtimestamp n) as [t|e] eqn:Et.
  2:{ split.
      - intros (r & s' & E). revert E.
        destruct (is_value_or_type_error e); st_run; discriminate.
      - intros (n' & t & s1 & s2 & s3 & _ & E & E' & _).
        inversion E; subst n'. rewrite Et in E'. discriminate. }
  destruct (t <? cutoff_date) eqn:Ec.
  { st_run. split.
    - intros (r & s' & E). discriminate.
    - intros (n' & t' & s1 & s2 & s3 & _ & E & E' & Hc & _).
      inversion E; subst n'. rewrite Et in E'. inversion E'; subst t'.
      apply Z.ltb_lt in Ec. lia. }
  apply Z.ltb_ge in Ec.
  st_run.
  destruct (truthy (get_or_none "grandparent_rating_key" item)) eqn:Eg;
    cbn [negb].
  2:{ st_run. split.
      - intros (r & s' & E). discriminate.
      - intros (n' & t' & s1 & s2 & s3 & _ & _ & _ & _ & E & _). discriminate. }
  st_run.
  match goal with
  | |- context [is_new_show_func ?k ?c ?st] =>
      destruct (is_new_show_func k c st) as [new_show s2] eqn:En
  end.
  cbn [fst snd].
  destruct new_show as [[|]|e].
  { st_run. split.
    - intros (r & s' & E). discriminate.
    - intros (n' & t' & s1 & s2' & s3 & _ & E & E' & _ & _ & Hr & Hw & Hn & _).
      inversion E; subst n'. rewrite Et in E'. inversion E'; subst t'.
      rewrite (state_of s1 _ _ Hw Hr) in Hn.
      rewrite En in Hn. discriminate. }
  2:{ st_run. split.
    - intros (r & s' & E). discriminate.
    - intros (n' & t' & s1 & s2' & s3 & _ & E & E' & _ & _ & Hr & Hw & Hn & _).
      inversion E; subst n'. rewrite Et in E'. inversion E'; subst t'.
      rewrite (state_of s1 _ _ Hw Hr) in Hn.
      rewrite En in Hn. discriminate. }
  destruct (truthy (get_or_none "rating_key" item)) eqn:Er; cbn [negb].
  2:{ st_run. split.
      - intros (r & s' & E). discriminate.
      - intros (n' & t' & s1 & s2' & s3 & _ & _ & _ & _ & _ & _ & _ & _ & E & _).
        discriminate. }
  st_run.
  destruct (is_season_finished_func (Py.str (get_or_none "rating_key" item)) s2)
    as [finished s3] eqn:Ef.
  cbn [fst snd].
  destruct finished; cbn [negb].
  2:{ st_run. split.
      - intros (r & s' & E). discriminate.
      - intros (n' & t' & s1 & s2' & s3' & _ & E & E' & _ & _ & Hr & Hw & Hn & _ & Hf).
        inversion E; subst n'. rewrite Et in E'. inversion E'; subst t'.
        rewrite (state_of s1 _ _ Hw Hr) in Hn.
        rewrite En in Hn. inversion Hn; subst s2'.
        rewrite Ef in Hf. discriminate. }
  st_run. split.
  - intros _. exists n, t.
    match type of En with _ _ _ ?st = _ => exists st end.
    exists s2, s3.
    repeat split; try reflexivity; try assumption.
  - intros _. eexists. eexists. reflexivity.
Qed.



(** Every record of the output is the record the body built for one of
    the items. *)
Lemma survivors_in (items : list dict) :
  forall (s : state) (records : list NewFinishedSeason)
         (record : NewFinishedSeason),
    fst (spec items s) = Ok records ->
    In record records ->
    exists item s0 s0', In item items /\ body item s0 = (inr record, s0').
Proof.
  induction items as [|item rest IH]; intros s records record E I.
  - inversion E; subst records. destruct I.
  - rewrite survivors_cons in E.
    destruct (body item s) as [[k|r] s1] eqn:B; cbn [fst snd] in E.
    + assert (E' : fst (spec rest s1) = Ok records) by (destruct k; first [exact E | discriminate E]).
      destruct (IH _ _ _ E' I) as (item' & s0 & s0' & I' & B').
      exists item', s0, s0'. split; [right; exact I'|exact B'].
    + destruct (fst (spec rest s1)) as [out|e] eqn:O; [|discriminate E].
      inversion E; subst records. destruct I as [<- | I].
      * exists item, s, s1. split; [left; reflexivity|exact B].
      * destruct (IH _ _ _ O I) as (item' & s0 & s0' & I' & B').
        exists item', s0, s0'. split; [right; exact I'|exact B'].
Qed.

(** What a kept record holds, and where the run stands afterwards. *)
Lemma loop_body_inr (item : dict) (s : state) (record : NewFinishedSeason)
    (s' : state) :
  body item s = (inr record, s') ->
  is_season_item item = true
  /\ exists n t s1 s2 s3,
       Py.int (get_or_none "added_at" item) = Ok n
       /\ fromtimestamp n = Ok t
       /\ cutoff_date <= t
       /\ world s1 = world s
       /\ is_new_show_func (Py.str (get_or_none "grandparent_rating_key" item))
            cutoff_date s1 = (Ok false, s2)
       /\ is_season_finished_func (Py.str (get_or_none "rating_key" item)) s2
          = (true, s3)
       /\ let children := get_children_func (Py.str (get_or_none "rating_key" item)) s3 in
          let cover := get_show_cover_func
                         (Py.str (get_or_none "grandparent_rating_key" item))
                         (snd children) in
          record = {| show := get_default "parent_title" (VStr "Unknown") item;
                      season := get_default "parent_index" (VInt 0) item;
                      season_title := get_default "title" (VStr "Unknown") item;
                      added_at := DateTime.isoformat t;
                      episode_count :=
                        Z.of_nat (List.length (filter is_episode (fst children)));
                      rating_key := get_or_none "rating_key" item;
                      cover_url := fst cover |}
          /\ s' = snd cover.
Proof.
  intros E.
  assert (Hs : is_season_item item = true).
  { destruct (is_season_item item) eqn:Hs; [reflexivity|].
    rewrite (loop_body_not_season item s Hs) in E. discriminate. }
  split; [exact Hs|].
  destruct (proj1 (loop_body_keeps_iff item s Hs)) as
    (n & t & s1 & s2 & s3 & Ha & Hi & Ht & Hc & Hg & Hr & Hw & Hn & Hk & Hf).
  { exists record, s'. exact E. }
  exists n, t, s1, s2, s3. repeat (split; [assumption|]).
  rewrite (state_of s1 _ _ Hw Hr) in Hn.
  unfold loop_body, from_unix in E. unfold is_season_item in Hs.
  rewrite Hs, Ha, Hi, Ht in E. cbn [negb] in E.
  apply Z.ltb_ge in Hc. rewrite Hc in E. rewrite Hg, Hk in E. cbn [negb] in E.
  revert E. st_run. rewrite Hn. cbn [fst snd]. st_run. rewrite Hf.
  cbn [fst snd negb]. st_run. intros E. inversion E; subst. split; reflexivity.
Qed.

End LoopFacts.

(** ** Classification *)

Section Classification.
Import Logic Spec.
Context `{Runtime}.


End Classification.

(** ** The gates *)

Section Gates.
Import Logic Spec.
Context `{Runtime}.

Lemma eq_str_true (v : pyval) (t : string) :
  eq_str v t = true <-> v = VStr t.
Proof.
  destruct v; simpl; try (split; [discriminate | intros E; discriminate E]).
  rewrite String.eqb_eq. split; [intros ->; reflexivity | intros E].
  inversion E; reflexivity.
Qed.

Lemma is_new_show_true_iff (grandparent_rating_key : string)
    (cutoff_date : DateTime.datetime)
    (get_metadata_func : string -> St (option dict)) (s : state) :
  fst (is_new_show grandparent_rating_key cutoff_date get_metadata_func s)
  = Ok true
  <-> show_is_new cutoff_date (fst (get_metadata_func grandparent_rating_key s)).
Proof.
  unfold is_new_show, show_is_new, from_unix. st_run.
  destruct (get_metadata_func grandparent_rating_key s) as [[md|] s1]; cbn [fst snd].
  2:{ st_run. split; [intros X; discriminate X|].
      intros (d & v & n & t & E & _). discriminate. }
  destruct md as [|kv md'].
  { st_run. split; [intros X; discriminate X|].
    intros (d & v & n & t & E & G & _). inversion E; subst d. discriminate. }
  set (md := kv :: md').
  unfold get_or_none, get_default.
  destruct (get "added_at" md) as [v|] eqn:G.
  2:{ cbn. split; [intros X; discriminate X|].
      intros (d & v & n & t & E & G' & _). inversion E; subst d.
      rewrite G in G'. discriminate. }
  destruct (truthy v) eqn:T; cbn [negb].
  2:{ cbn. split; [intros X; discriminate X|].
      intros (d & v' & n & t & E & G' & T' & _). inversion E; subst d.
      rewrite G in G'. inversion G'; subst v'. rewrite T in T'. discriminate. }
  destruct (Py.int v) as [n|e] eqn:I.
  2:{ split.
      - destruct (is_value_or_type_error e); st_run; intros X; discriminate X.
      - intros (d & v' & n & t & E & G' & _ & I' & _). inversion E; subst d.
        rewrite G in G'. inversion G'; subst v'. rewrite I in I'. discriminate. }
  destruct (fromtimestamp n) as [t|e] eqn:F.
  2:{ split.
      - destruct (is_value_or_type_error e); st_run; intros X; discriminate X.
      - intros (d & v' & n' & t & E & G' & _ & I' & F' & _). inversion E; subst d.
        rewrite G in G'. inversion G'; subst v'. rewrite I in I'.
        inversion I'; subst n'. rewrite F in F'. discriminate. }
  destruct (cutoff_date <=? t) eqn:C.
  - st_run. split; [|reflexivity]. intros _.
    exists md, v, n, t. apply Z.leb_le in C. repeat split; assumption.
  - cbn. split; [intros X; discriminate X|].
    intros (d & v' & n' & t' & E & G' & _ & I' & F' & C'). inversion E; subst d.
    rewrite G in G'. inversion G'; subst v'. rewrite I in I'.
    inversion I'; subst n'. rewrite F in F'. inversion F'; subst t'.
    apply Z.leb_gt in C. lia.
Qed.

Lemma is_new_show_no_metadata (grandparent_rating_key : string)
    (cutoff_date : DateTime.datetime)
    (get_metadata_func : string -> St (option dict)) (s : state) :
  fst (get_metadata_func grandparent_rating_key s) = None
  \/ fst (get_metadata_func grandparent_rating_key s) = Some [] ->
  is_new_show grandparent_rating_key cutoff_date get_metadata_func s
  = (Ok false,
     {| world := world (snd (get_metadata_func grandparent_rating_key s));
        records :=
          (records (snd (get_metadata_func grandparent_rating_key s))
             ++ [LogRecord WARNING
                   ("Could not get metadata for show " ++ grandparent_rating_key)])%list |}).
Proof.
  unfold is_new_show. st_run.
  destruct (get_metadata_func grandparent_rating_key s) as [md s1]; cbn [fst snd].
  intros [-> | ->]; st_run; reflexivity.
Qed.

(** What [is_new_show] does with a timestamp whose conversion raises. *)
Lemma is_new_show_conversion_raises (grandparent_rating_key : string)
    (cutoff_date : DateTime.datetime)
    (get_metadata_func : string -> St (option dict)) (s : state)
    (metadata : dict) (v : pyval) (e : exn) :
  fst (get_metadata_func grandparent_rating_key s) = Some metadata ->
  get "added_at" metadata = Some v ->
  truthy v = true ->
  from_unix v = Raise e ->
  let fetched := snd (get_metadata_func grandparent_rating_key s) in
  is_new_show grandparent_rating_key cutoff_date get_metadata_func s
  = if is_value_or_type_error e
    then (Ok false,
          {| world := world fetched;
             records :=
               (records fetched
                  ++ [LogRecord WARNING
                        ("Error parsing added_at for show: " ++ exn_msg e)])%list |})
    else (Raise e, fetched).
Proof.
  intros M G T F fetched. subst fetched. unfold is_new_show. st_run.
  destruct (get_metadata_func grandparent_rating_key s) as [md s1].
  cbn [fst snd] in *. subst md.
  destruct metadata as [|kv md']; [discriminate G|].
  unfold get_or_none, get_default. rewrite G, T, F. cbn [negb].
  destruct (is_value_or_type_error e); st_run; reflexivity.
Qed.

(** An item the body drops adds nothing to the output of the loop:
    the records are those of the items before it and of the items after
    it. *)
Lemma dropped_item_leaves_no_record
    (cutoff_date : DateTime.datetime)
    (is_new_show_func : string -> DateTime.datetime -> St (result bool))
    (is_season_finished_func : string -> St bool)
    (get_show_cover_func : string -> St (option string))
    (get_children_func : string -> St (list dict))
    (pre post : list dict) (item : dict) (s : state) :
  let body := loop_body cutoff_date is_new_show_func is_season_finished_func
                get_show_cover_func get_children_func in
  let loop := for_items cutoff_date is_new_show_func is_season_finished_func
                get_show_cover_func get_children_func in
  let before := loop pre [] s in
  (exists k, fst (body item (snd before)) = inl k) ->
  fst (loop (pre ++ item :: post)%list [] s)
  = without_item (fst before) (fst (body item (snd before)))
      (fst (loop post [] (snd (body item (snd before))))).
Proof.
  intros body loop before [k E]. subst before loop.
  rewrite for_items_survivors in E. cbn [snd] in E.
  rewrite !for_items_survivors. cbn [fst snd app].
  rewrite survivors_app, E.
  destruct (fst (survivors _ _ _ _ _ pre s)) as [kept|e]; [|reflexivity].
  cbn [fst snd without_item].
  rewrite survivors_cons. fold body. rewrite E.
  destruct k; cbn [fst snd];
    try (destruct (fst (survivors _ _ _ _ _ post _)); reflexivity).
  reflexivity.
Qed.

(** C2.  [is_new_show] answers true exactly when the metadata fetch
    yields a record whose [added_at] is there and parses to a time at or
    after the cutoff; when the fetch yields nothing it answers false and
    logs a warning; and a season whose show was added at or after the
    cutoff leaves no record, whatever its finished check says.  A
    timestamp that parses to no time answers false with a warning when
    the conversion raises a ValueError or a TypeError, and makes
    [is_new_show] raise what the conversion raises otherwise. *)
Theorem is_new_show_gate
    (cutoff_date : DateTime.datetime)
    (get_metadata_func : string -> St (option dict)) :
  (forall grandparent_rating_key s,
      fst (is_new_show grandparent_rating_key cutoff_date get_metadata_func s)
      = Ok true
      <-> show_is_new cutoff_date
            (fst (get_metadata_func grandparent_rating_key s)))
  /\ (forall grandparent_rating_key s,
        fst (get_metadata_func grandparent_rating_key s) = None ->
        let fetched := snd (get_metadata_func grandparent_rating_key s) in
        is_new_show grandparent_rating_key cutoff_date get_metadata_func s
        = (Ok false,
           {| world := world fetched;
              records :=
                (records fetched
                   ++ [LogRecord WARNING
                         ("Could not get metadata for show "
                            ++ grandparent_rating_key)])%list |}))
  /\ (forall (is_season_finished_func : string -> St bool)
             (get_show_cover_func : string -> St (option string))
             (get_children_func : string -> St (list dict))
             (item : dict),
        let is_new_show_func :=
          fun key cutoff => is_new_show key cutoff get_metadata_func in
        let body := loop_body cutoff_date is_new_show_func is_season_finished_func
                      get_show_cover_func get_children_func in
        let loop := for_items cutoff_date is_new_show_func is_season_finished_func
                      get_show_cover_func get_children_func in
        (forall s,
            show_is_new cutoff_date
              (fst (get_metadata_func
                      (Py.str (get_or_none "grandparent_rating_key" item)) s))) ->
        (forall s, exists k, fst (body item s) = inl k)
        /\ (forall pre post s,
               fst (loop (pre ++ item :: post)%list [] s)
               = without_item (fst (loop pre [] s))
                   (fst (body item (snd (loop pre [] s))))
                   (fst (loop post [] (snd (body item (snd (loop pre [] s))))))))
  /\ (forall grandparent_rating_key s metadata v e,
        fst (get_metadata_func grandparent_rating_key s) = Some metadata ->
        get "added_at" metadata = Some v ->
        truthy v = true ->
        from_unix v = Raise e ->
        let fetched := snd (get_metadata_func grandparent_rating_key s) in
        is_new_show grandparent_rating_key cutoff_date get_metadata_func s
        = if is_value_or_type_error e
          then (Ok false,
                {| world := world fetched;
                   records :=
                     (records fetched
                        ++ [LogRecord WARNING
                              ("Error parsing added_at for show: "
                                 ++ exn_msg e)])%list |})
          else (Raise e, fetched)).
Proof.
  split; [|split; [|split]].
  - intros. apply is_new_show_true_iff.
  - intros key s E. apply is_new_show_no_metadata. left. exact E.
  - intros fin cover children item is_new_show_func body loop Hnew.
    assert (D : forall s, exists k, fst (body item s) = inl k).
    { intros s. destruct (body item s) as [[k|record] s'] eqn:E.
      - exists k. reflexivity.
      - exfalso. apply loop_body_inr in E.
        destruct E as (_ & n & t & s1 & s2 & s3 & _ & _ & _ & _ & En & _).
        subst is_new_show_func. cbv beta in En.
        pose proof (proj2 (is_new_show_true_iff _ cutoff_date get_metadata_func s1)
                      (Hnew s1)) as T.
        rewrite En in T. discriminate. }
    split; [exact D|].
    intros pre post s.
    apply (dropped_item_leaves_no_record cutoff_date is_new_show_func fin cover
             children pre post item s).
    apply D.
  - intros key s metadata v e. apply is_new_show_conversion_raises.
Qed.

Lemma get_or_none_str (k t : string) (d : dict) :
  get_or_none k d = VStr t <-> get k d = Some (VStr t).
Proof.
  unfold get_or_none, get_default. destruct (get k d) as [v|].
  - split; [intros ->; reflexivity | intros E; inversion E; reflexivity].
  - split; intros E; discriminate E.
Qed.

Lemma safe_get_nested_file (child : dict) :
  _safe_get_nested child ["media_info"; "parts"; "file"] (VStr EmptyString)
  = file_path child.
Proof.
  unfold _safe_get_nested, file_path, get_default. cbn [safe_get_from].
  unfold get_default.
  destruct (get "media_info" child) as [[| | | | |l|media_info]|]; try reflexivity.
  destruct (get "parts" media_info) as [[| | | | |l|parts]|]; try reflexivity.
Qed.

Lemma is_available_iff (child : dict) :
  is_available child = true <-> materialized_episode child.
Proof.
  unfold is_available, materialized_episode. rewrite safe_get_nested_file.
  destruct (eq_str (get_or_none "media_type" child) "episode") eqn:E; cbn [negb].
  - apply eq_str_true, get_or_none_str in E.
    rewrite andb_true_iff, negb_true_iff. tauto.
  - split; [intros X; discriminate X|]. intros (M & _).
    apply get_or_none_str, eq_str_true in M. rewrite M in E. discriminate.
Qed.

(** The counting loop of [is_season_finished]. *)
Lemma available_count (episodes : list dict) :
  forall n : Z,
    fold_left (fun n ep => if is_available ep then n + 1 else n) episodes n
    = n + Z.of_nat (List.length (filter is_available episodes)).
Proof.
  induction episodes as [|ep rest IH]; intros n; cbn [fold_left filter].
  - cbn. lia.
  - rewrite IH. destruct (is_available ep); cbn [List.length]; lia.
Qed.

Lemma is_season_finished_true_iff (season_rating_key : string)
    (get_children_func : string -> St (list dict)) (s : state) :
  fst (is_season_finished season_rating_key get_children_func s) = true
  <-> exists child,
        In child (fst (get_children_func season_rating_key s))
        /\ materialized_episode child.
Proof.
  unfold is_season_finished. st_run.
  destruct (get_children_func season_rating_key s) as [[|ep rest] s1]; cbn [fst snd].
  - split; [intros X; discriminate X|]. intros (child & [] & _).
  - st_run. rewrite available_count. rewrite Z.ltb_lt.
    set (episodes := ep :: rest). split.
    + intros P.
      destruct (filter is_available episodes) as [|child l] eqn:F.
      { cbn in P. lia. }
      assert (I : In child (filter is_available episodes)) by (rewrite F; left; reflexivity).
      apply filter_In in I. destruct I as [I A].
      exists child. split; [exact I|]. apply is_available_iff, A.
    + intros (child & I & M). apply is_available_iff in M.
      assert (I' : In child (filter is_available episodes))
        by (apply filter_In; split; assumption).
      destruct (filter is_available episodes); [destruct I'|]. cbn [List.length]. lia.
Qed.

(** C3.  [is_season_finished] answers true if and only if one of the
    fetched children is an episode whose nested file path is not empty
    and does not end in [.strm]; so a season with no child, or whose
    children all lack such a file, leaves no record. *)
Theorem is_season_finished_gate
    (get_children_func : string -> St (list dict)) :
  (forall season_rating_key s,
      fst (is_season_finished season_rating_key get_children_func s) = true
      <-> exists child,
            In child (fst (get_children_func season_rating_key s))
            /\ materialized_episode child)
  /\ (forall season_rating_key s,
        fst (get_children_func season_rating_key s) = [] ->
        is_season_finished season_rating_key get_children_func s
        = (false, snd (get_children_func season_rating_key s)))
  /\ (forall (cutoff_date : DateTime.datetime)
             (is_new_show_func : string -> DateTime.datetime -> St (result bool))
             (get_show_cover_func : string -> St (option string))
             (get_children_again : string -> St (list dict))
             (item : dict),
        let is_season_finished_func :=
          fun key => is_season_finished key get_children_func in
        let body := loop_body cutoff_date is_new_show_func is_season_finished_func
                      get_show_cover_func get_children_again in
        let loop := for_items cutoff_date is_new_show_func is_season_finished_func
                      get_show_cover_func get_children_again in
        (forall s child,
            In child (fst (get_children_func
                             (Py.str (get_or_none "rating_key" item)) s)) ->
            ~ materialized_episode child) ->
        (forall s, exists k, fst (body item s) = inl k)
        /\ (forall pre post s,
               fst (loop (pre ++ item :: post)%list [] s)
               = without_item (fst (loop pre [] s))
                   (fst (body item (snd (loop pre [] s))))
                   (fst (loop post [] (snd (body item (snd (loop pre [] s)))))))).
Proof.
  split; [|split].
  - intros. apply is_season_finished_true_iff.
  - intros key s E. unfold is_season_finished. st_run.
    destruct (get_children_func key s) as [eps s1]. cbn [fst snd] in *.
    subst eps. reflexivity.
  - intros cutoff_date is_new cover again item fin body loop Hnone.
    assert (D : forall s, exists k, fst (body item s) = inl k).
    { intros s. destruct (body item s) as [[k|record] s'] eqn:E.
      - exists k. reflexivity.
      - exfalso. apply loop_body_inr in E.
        destruct E as (_ & n & t & s1 & s2 & s3 & _ & _ & _ & _ & _ & Ef & _).
        subst fin. cbv beta in Ef.
        assert (T : fst (is_season_finished (Py.str (get_or_none "rating_key" item))
                           get_children_func s2) = true) by (rewrite Ef; reflexivity).
        apply is_season_finished_true_iff in T.
        destruct T as (child & I & M). exact (Hnone s2 child I M). }
    split; [exact D|].
    intros pre post s.
    apply (dropped_item_leaves_no_record cutoff_date is_new fin cover again
             pre post item s).
    apply D.
Qed.

(** C4.  The recency gate drops a season item exactly when its parsed
    [added_at] is strictly before the cutoff; an item added exactly at
    the cutoff goes on to the next gates, and when it passes them a run
    whose cutoff is [now - lookback_days] returns its record. *)
Theorem recency_gate_is_boundary_inclusive
    (is_new_show_func : string -> DateTime.datetime -> St (result bool))
    (is_season_finished_func : string -> St bool)
    (get_show_cover_func : string -> St (option string))
    (get_children_func : string -> St (list dict)) :
  (forall cutoff_date item s,
      let body := loop_body cutoff_date is_new_show_func is_season_finished_func
                    get_show_cover_func get_children_func in
      (fst (body item s) = inl BeforeCutoff
       <-> is_season_item item = true
           /\ truthy (get_or_none "added_at" item) = true
           /\ exists n t, Py.int (get_or_none "added_at" item) = Ok n
                          /\ fromtimestamp n = Ok t
                          /\ t < cutoff_date)
      /\ (forall n, Py.int (get_or_none "added_at" item) = Ok n ->
                    fromtimestamp n = Ok cutoff_date ->
                    fst (body item s) <> inl BeforeCutoff))
  /\ (forall lookback_days get_recently_added_func item n s,
        let now := fst (datetime_now s) in
        let cutoff_date := now - DateTime.timedelta lookback_days in
        (forall st, fst (get_recently_added_func "season" 100 st) = [item]) ->
        is_season_item item = true ->
        truthy (get_or_none "added_at" item) = true ->
        Py.int (get_or_none "added_at" item) = Ok n ->
        fromtimestamp n = Ok cutoff_date ->
        truthy (get_or_none "grandparent_rating_key" item) = true ->
        truthy (get_or_none "rating_key" item) = true ->
        (forall key cutoff st, fst (is_new_show_func key cutoff st) = Ok false) ->
        (forall key st, fst (is_season_finished_func key st) = true) ->
        exists record,
          fst (get_new_finished_seasons lookback_days get_recently_added_func
                 is_new_show_func is_season_finished_func get_show_cover_func
                 get_children_func s) = Ok [record]
          /\ added_at record = DateTime.isoformat cutoff_date
          /\ rating_key record = get_or_none "rating_key" item).
Proof.
  split.
  - intros cutoff_date item s body.
    assert (Iff : fst (body item s) = inl BeforeCutoff
                  <-> is_season_item item = true
                      /\ truthy (get_or_none "added_at" item) = true
                      /\ exists n t, Py.int (get_or_none "added_at" item) = Ok n
                                     /\ fromtimestamp n = Ok t
                                     /\ t < cutoff_date).
    { subst body. unfold loop_body, is_season_item, from_unix.
      destruct (eq_str (get_or_none "media_type" item) "season"); cbn [negb].
      2:{ cbn. split; [intros X; discriminate X|]. intros (X & _). discriminate X. }
      destruct (truthy (get_or_none "added_at" item)); cbn [negb].
      2:{ st_run. split; [intros X; discriminate X|]. intros (_ & X & _). discriminate X. }
      destruct (Py.int (get_or_none "added_at" item)) as [n|e].
      2:{ split.
          - destruct (is_value_or_type_error e); st_run; intros X; discriminate X.
          - intros (_ & _ & n & t & X & _). discriminate X. }
      destruct (fromtimestamp n) as [t|e] eqn:F.
      2:{ split.
          - destruct (is_value_or_type_error e); st_run; intros X; discriminate X.
          - intros (_ & _ & n' & t & X & F' & _). inversion X; subst n'.
            rewrite F in F'. discriminate F'. }
      destruct (t <? cutoff_date) eqn:C.
      - st_run. split; [|reflexivity]. intros _.
        repeat split. exists n, t. split; [reflexivity|].
        split; [exact F|]. apply Z.ltb_lt, C.
      - apply Z.ltb_ge in C. split.
        + intros X. exfalso. revert X. st_run.
          destruct (truthy (get_or_none "grandparent_rating_key" item)); cbn [negb].
          2:{ st_run. discriminate. }
          st_run.
          match goal with
          | |- context [is_new_show_func ?k ?c ?st] =>
              destruct (is_new_show_func k c st) as [[[|]|e] s2]
          end; cbn [fst snd].
          { st_run. discriminate. }
          2:{ st_run. discriminate. }
          destruct (truthy (get_or_none "rating_key" item)); cbn [negb].
          2:{ st_run. discriminate. }
          st_run.
          match goal with
          | |- context [is_season_finished_func ?k ?st] =>
              destruct (is_season_finished_func k st) as [[|] s3]
          end; cbn [fst snd negb]; st_run; discriminate.
        + intros (_ & _ & n' & t' & X & F' & L). inversion X; subst n'.
          rewrite F in F'. inversion F'; subst t'. lia. }
    split; [exact Iff|].
    intros n I E X. apply Iff in X.
    destruct X as (_ & _ & n' & t' & I' & F' & L). rewrite I in I'.
    inversion I'; subst n'. rewrite E in F'. inversion F'; subst t'. lia.
  - intros lookback_days fetch item n s now cutoff_date
           Hfetch Hseason Hts Hint Hat Hgk Hrk Hnew Hfin.
    unfold get_new_finished_seasons. st_run. fold now. fold cutoff_date.
    match goal with
    | |- context [fetch ?m ?c ?st] =>
        pose proof (Hfetch st) as F; destruct (fetch m c st) as [items s2]
    end.
    cbn [fst snd] in *. subst items.
    cbn [for_items]. st_run. cbn [app].
    unfold loop_body, from_unix. unfold is_season_item in Hseason.
    rewrite Hseason, Hts, Hint. cbn [negb].
    rewrite Hat, Z.ltb_irrefl, Hgk, Hrk. cbn [negb]. st_run.
    match goal with
    | |- context [is_new_show_func ?k ?c ?st] =>
        pose proof (Hnew k c st) as N; destruct (is_new_show_func k c st) as [b s3]
    end.
    cbn [fst snd] in *. subst b. st_run.
    match goal with
    | |- context [is_season_finished_func ?k ?st] =>
        pose proof (Hfin k st) as N; destruct (is_season_finished_func k st) as [b s4]
    end.
    cbn [fst snd] in *. subst b. cbn [negb]. st_run.
    eexists. split; [reflexivity|]. split; reflexivity.
Qed.

End Gates.

(** ** The episode count *)

Section EpisodeCount.
Import Logic Spec.


End EpisodeCount.

(** ** The generic provider *)

Section GenericFacts.
Import Logic Spec.
Context `{Runtime}.

(** The default template has its five keys, whatever the state. *)
Lemma default_payload_run (config : dict) (seasons : list NewFinishedSeason)
    (message : string) (s : state) :
  Generic.default_payload config seasons message s
  = (Ok [ ("timestamp", VStr (DateTime.isoformat (fst (datetime_now s))));
          ("period_days",
           Json.lift (get_default "lookback_days" (VInt 7) config));
          ("season_count", VInt (Z.of_nat (List.length seasons)));
          ("seasons", Json.lift (Generic.seasons_value seasons));
          ("message", VStr message) ],
     snd (datetime_now s)).
Proof. unfold Generic.default_payload. st_run. reflexivity. Qed.

Lemma truthy_str (t : string) : t <> EmptyString -> truthy (VStr t) = true.
Proof.
  intros N. cbn. destruct (String.eqb t EmptyString) eqn:E; [|reflexivity].
  apply String.eqb_eq in E. contradiction.
Qed.

(** C6.  With a payload template string in the config, [build_payload]
    replaces the six tokens by the JSON text of their values and decodes
    the result; when the decoding fails it returns the default payload,
    with its five keys, and does not raise. *)
Theorem generic_build_payload_template
    (config : dict) (seasons : list NewFinishedSeason)
    (template_str message : string) (s rendered : state) :
  get "webhook_payload_template" config = Some (VStr template_str) ->
  template_str <> EmptyString ->
  Base.format_message config seasons s = (Ok message, rendered) ->
  let now := fst (datetime_now rendered) in
  let text :=
    Str.replace
      (Str.replace
         (Str.replace
            (Str.replace
               (Str.replace
                  (Str.replace template_str "{timestamp}"
                     (Json.dumps (VStr (DateTime.isoformat now))))
                  "{period_days}"
                  (Json.dumps (get_default "lookback_days" (VInt 7) config)))
               "{season_count}"
               (Json.dumps (VInt (Z.of_nat (List.length seasons)))))
            "{message}" (Json.dumps (VStr message)))
         "{show_list}" (Json.dumps (VStr (Base.show_list seasons))))
      "{seasons}" (Json.dumps (Generic.seasons_value seasons)) in
  (forall v,
      Json.loads text = Some v ->
      Generic.build_payload config seasons s
      = (Generic.py_dict v, snd (datetime_now rendered)))
  /\ (Json.loads text = None ->
      exists payload final,
        Generic.build_payload config seasons s = (Ok payload, final)
        /\ keys payload = default_keys
        /\ get "message" payload = Some (VStr message)
        /\ get "season_count" payload
           = Some (VInt (Z.of_nat (List.length seasons)))
        /\ get "seasons" payload
           = Some (Json.lift (Generic.seasons_value seasons))
        /\ get "period_days" payload
           = Some (Json.lift (get_default "lookback_days" (VInt 7) config))
        /\ exists read_at,
             get "timestamp" payload
             = Some (VStr (DateTime.isoformat (fst (datetime_now read_at))))).
Proof.
  intros Ht Hne Hm now text.
  assert (Run : Generic.build_payload config seasons s
                = match Json.loads text with
                  | Some v => (Generic.py_dict v, snd (datetime_now rendered))
                  | None =>
                      Generic.default_payload config seasons message
                        (snd (log ERROR "Failed to parse custom payload template: "
                                (snd (datetime_now rendered))))
                  end).
  { unfold Generic.build_payload, bindR. st_run. rewrite Hm. cbn [fst snd].
    unfold get_or_none, get_default. rewrite Ht. rewrite (truthy_str _ Hne).
    st_run. unfold Generic.substitute. fold now. fold text.
    destruct (Json.loads text); st_run; reflexivity. }
  split.
  - intros v E. rewrite Run, E. reflexivity.
  - intros E. rewrite Run, E. rewrite default_payload_run.
    eexists. eexists. split; [reflexivity|].
    repeat (split; [reflexivity|]). eexists. reflexivity.
Qed.

(** C7.  With the template whose only member is [count], bound to the
    [season_count] token, and two seasons, the text after the
    replacements is the object whose [count] is the bare number 2, and
    the payload is its decoding. *)
Theorem count_template_round_trips
    (config : dict) (first second : NewFinishedSeason)
    (message : string) (s rendered : state) :
  get "webhook_payload_template" config = Some (VStr Sample.count_template) ->
  Base.format_message config [first; second] s = (Ok message, rendered) ->
  Generic.substitute Sample.count_template (fst (datetime_now rendered)) config
    [first; second] message (Base.show_list [first; second])
  = "{" ++ Str.dq ++ "count" ++ Str.dq ++ ":2}"
  /\ Generic.build_payload config [first; second] s
     = (Ok [("count", VInt 2)], snd (datetime_now rendered)).
Proof.
  intros Ht Hm.
  assert (T : Generic.substitute Sample.count_template (fst (datetime_now rendered))
                config [first; second] message (Base.show_list [first; second])
              = "{" ++ Str.dq ++ "count" ++ Str.dq ++ ":2}").
  { unfold Generic.substitute.
    generalize (Json.dumps (VStr (DateTime.isoformat (fst (datetime_now rendered))))).
    generalize (Json.dumps (get_default "lookback_days" (VInt 7) config)).
    generalize (Json.dumps (VStr message)).
    generalize (Json.dumps (VStr (Base.show_list [first; second]))).
    generalize (Json.dumps (Generic.seasons_value [first; second])).
    intros x1 x2 x3 x4 x5. vm_compute. reflexivity. }
  split; [exact T|].
  unfold Generic.build_payload, bindR. st_run. rewrite Hm. cbn [fst snd].
  unfold get_or_none, get_default. rewrite Ht.
  rewrite truthy_str by (vm_compute; discriminate).
  st_run. rewrite T. vm_compute Json.loads. reflexivity.
Qed.

(** C10, as amended.  The dict of [get_provider_config] holds the
    template under [payload_template] and [build_payload] reads
    [webhook_payload_template]; so a generic provider built from that
    dict never takes the template branch: it returns the default
    payload, with its five keys, whenever [format_message] returns the
    message, and raises what [format_message] raises otherwise. *)
Theorem provider_config_never_reaches_template
    (config : Config.Config) (seasons : list NewFinishedSeason) (s : state) :
  let provider_config := Config.get_provider_config config in
  get "webhook_payload_template" provider_config = None
  /\ get "payload_template" provider_config
     = Some (VStr (Config.webhook_payload_template config))
  /\ Generic.build_payload provider_config seasons s
     = match Base.format_message provider_config seasons s with
       | (Ok message, rendered) =>
           (Ok [ ("timestamp",
                  VStr (DateTime.isoformat (fst (datetime_now rendered))));
                 ("period_days", VInt (Config.lookback_days config));
                 ("season_count", VInt (Z.of_nat (List.length seasons)));
                 ("seasons", Json.lift (Generic.seasons_value seasons));
                 ("message", VStr message) ],
            snd (datetime_now rendered))
       | (Raise e, rendered) => (Raise e, rendered)
       end.
Proof.
  intros provider_config. split; [reflexivity|]. split; [reflexivity|].
  unfold Generic.build_payload, bindR. st_run.
  destruct (Base.format_message provider_config seasons s) as [[message|e] rendered];
    cbn [fst snd]; [|reflexivity].
  cbn [get_or_none get_default get provider_config Config.get_provider_config
         String.eqb Ascii.eqb Bool.eqb truthy].
  rewrite default_payload_run. reflexivity.
Qed.

End GenericFacts.

(** ** The Signal provider *)

Section SignalFacts.
Import Logic Spec.
Context `{Runtime}.

(** Without a cover URL nothing is downloaded. *)
Lemma covers_loop_no_cover (seasons : list NewFinishedSeason) :
  forall (base64_covers : list string) (s : state),
    forallb (fun season => negb (has_cover season)) seasons = true ->
    SignalCli.covers_loop seasons base64_covers s = (base64_covers, s).
Proof.
  induction seasons as [|season rest IH]; intros acc s A; [reflexivity|].
  cbn [forallb] in A. apply andb_true_iff in A. destruct A as [A B].
  cbn [SignalCli.covers_loop]. unfold has_cover in A.
  destruct (cover_url season) as [[|c u]|]; try discriminate A; apply IH, B.
Qed.

(** C8.  Covers asked for, at least one season, no season with a cover
    URL: the payload has the keys [message], [number], [recipients] and
    [text_mode] and no other, so no [base64_attachments]. *)
Theorem signal_build_payload_without_covers
    (config : dict) (seasons : list NewFinishedSeason) (number : pyval)
    (recipients : list string) (s : state) :
  seasons <> [] ->
  forallb (fun season => negb (has_cover season)) seasons = true ->
  get "signal_include_covers" config = Some (VBool true) ->
  get "signal_number" config = Some number ->
  SignalCli._parse_recipients config = Ok recipients ->
  exists payload final,
    SignalCli.build_payload config seasons s = (Ok payload, final)
    /\ keys payload = ["message"; "number"; "recipients"; "text_mode"]
    /\ get "base64_attachments" payload = None
    /\ get "number" payload = Some (Json.lift number)
    /\ get "recipients" payload = Some (VList (map VStr recipients)).
Proof.
  intros Hne Hcov Hinc Hnum Hrec.
  unfold SignalCli.build_payload. st_run. rewrite Hrec, Hnum.
  unfold get_default. rewrite Hinc. cbn [truthy andb].
  destruct seasons as [|season rest]; [contradiction|].
  st_run. unfold SignalCli._get_covers_as_base64.
  rewrite covers_loop_no_cover by exact Hcov. cbn [fst snd].
  eexists. eexists. split; [reflexivity|]. repeat split; reflexivity.
Qed.

End SignalFacts.

(** ** The choice of the provider *)

Section Selection.
Import Logic Config Main.
Context `{Runtime}.

Lemma invalid_is_not_unsupported (mode given : string) :
  "Invalid configuration for " ++ mode ++ " provider"
  <> "Unsupported webhook_mode: " ++ given.
Proof. cbn. intros E. discriminate E. Qed.

(** C9, as amended.  The mode is compared after lower-casing: a mode
    whose lower case is [signal-cli] gives the Signal provider, provided
    its config is valid, and one whose lower case is [default] or
    [custom] gives the generic provider; any other mode raises a
    ValueError whose message ends with the mode as configured; an
    invalid Signal config raises a ValueError with another message. *)
Theorem get_webhook_provider_selection (config : Config) (s : state) :
  let mode := Str.lower (webhook_mode config) in
  let provider_config := get_provider_config config in
  (mode = "signal-cli" ->
   let checked := SignalCli.validate_config provider_config s in
   get_webhook_provider config s
   = (if fst checked then Ok (SignalCliProvider provider_config)
      else Raise (Exn ValueError "Invalid configuration for signal-cli provider"),
      snd checked))
  /\ (mode = "default" \/ mode = "custom" ->
      get_webhook_provider config s = (Ok (GenericProvider provider_config), s))
  /\ (mode <> "signal-cli" -> mode <> "default" -> mode <> "custom" ->
      get_webhook_provider config s
      = (Raise (Exn ValueError ("Unsupported webhook_mode: " ++ webhook_mode config)),
         s))
  /\ (forall given,
         "Invalid configuration for signal-cli provider"
         <> "Unsupported webhook_mode: " ++ given)
  /\ fst (SignalCli.validate_config provider_config s)
     = negb (String.eqb (signal_number config) EmptyString)
       && negb (String.eqb (signal_recipients config) EmptyString).
Proof.
  intros mode provider_config. unfold get_webhook_provider. fold mode.
  fold provider_config.
  split; [|split; [|split; [|split]]].
  - intros E. cbv zeta. rewrite E. cbn [String.eqb Ascii.eqb Bool.eqb andb].
    cbn [validate_config]. st_run.
    destruct (fst (SignalCli.validate_config provider_config s)); reflexivity.
  - intros [E | E]; rewrite E; reflexivity.
  - intros N1 N2 N3.
    apply String.eqb_neq in N1, N2, N3. rewrite N1, N2, N3. reflexivity.
  - intros given. apply (invalid_is_not_unsupported "signal-cli").
  - unfold SignalCli.validate_config, SignalCli.check_required.
    cbn [provider_config get_provider_config get_or_none get_default get
           String.eqb Ascii.eqb Bool.eqb truthy].
    destruct (String.eqb (signal_number config) EmptyString); cbn [negb andb].
    + st_run. reflexivity.
    + destruct (String.eqb (signal_recipients config) EmptyString); cbn [negb];
        st_run; reflexivity.
Qed.

End Selection.

(** ** The theorems at work on the sample runtime *)

Section Witnesses.
Import Logic Spec Config Main.

#[local] Existing Instance Sample.runtime.

Local Abbreviation s0 := (Sample.start Sample.now).
Local Abbreviation cutoff := (Sample.now - DateTime.timedelta 7).


(** C2 at work: the season of a show added after the cutoff is dropped
    although its finished check answers true. *)
Lemma season_of_new_show_is_dropped :
  exists k,
    fst (loop_body cutoff
           (fun key c => is_new_show key c (Sample.metadata_of Sample.new_show))
           (fun _ => ret true) Sample.no_cover
           (Sample.children_of Sample.one_real_one_stub)
           Sample.boundary_item s0)
    = inl k.
Proof.
  refine (proj1 (proj1 (proj2 (proj2
            (is_new_show_gate cutoff (Sample.metadata_of Sample.new_show))))
            (fun _ => ret true) Sample.no_cover
            (Sample.children_of Sample.one_real_one_stub) Sample.boundary_item _) s0).
  intros s.
  exists Sample.new_show, (VStr "1770000000"), 1770000000, 1770000000000000.
  do 5 (split; [reflexivity|]). vm_compute. discriminate.
Defined.

(** C3 at work: a season whose episodes are all placeholders is
    dropped. *)
Lemma season_of_placeholders_is_dropped :
  exists k,
    fst (loop_body cutoff (fun _ _ => ret (Ok false))
           (fun key => is_season_finished key (Sample.children_of Sample.only_stubs))
           Sample.no_cover (Sample.children_of Sample.only_stubs)
           Sample.boundary_item s0)
    = inl k.
Proof.
  refine (proj1 (proj2 (proj2
            (is_season_finished_gate (Sample.children_of Sample.only_stubs)))
            cutoff (fun _ _ => ret (Ok false)) Sample.no_cover
            (Sample.children_of Sample.only_stubs) Sample.boundary_item _) s0).
  intros s child I (_ & _ & E).
  destruct I as [<- | [<- | []]]; vm_compute in E; discriminate E.
Defined.

(** C4 at work: the season added exactly seven days before now is
    returned by a run that looks seven days back. *)
Lemma boundary_season_is_returned :
  exists record,
    fst (get_new_finished_seasons 7 Sample.only_boundary_item
           (fun _ _ => ret (Ok false)) (fun _ => ret true) Sample.no_cover
           (Sample.children_of Sample.one_real_one_stub) s0)
    = Ok [record]
    /\ added_at record = "2026-01-28T10:30:00"
    /\ rating_key record = VStr "12345".
Proof.
  refine (proj2
            (recency_gate_is_boundary_inclusive (fun _ _ => ret (Ok false))
               (fun _ => ret true) Sample.no_cover
               (Sample.children_of Sample.one_real_one_stub))
            7 Sample.only_boundary_item Sample.boundary_item 1769596200 s0
            _ _ _ _ _ _ _ _ _);
    try reflexivity; intros; reflexivity.
Defined.


(** C6 at work: the template [default] is not JSON, so the default
    payload comes back. *)
Lemma broken_template_falls_back :
  exists payload final,
    Generic.build_payload Sample.broken_template_config
      [Sample.breaking_bad; Sample.the_office] s0
    = (Ok payload, final)
    /\ keys payload = default_keys
    /\ get "message" payload = Some (VStr "Found 2 new seasons")
    /\ get "season_count" payload = Some (VInt 2)
    /\ get "seasons" payload
       = Some (Json.lift
                 (Generic.seasons_value [Sample.breaking_bad; Sample.the_office]))
    /\ get "period_days" payload = Some (VInt 7)
    /\ exists read_at,
         get "timestamp" payload
         = Some (VStr (DateTime.isoformat (fst (datetime_now read_at)))).
Proof.
  refine (proj2
            (generic_build_payload_template Sample.broken_template_config
               [Sample.breaking_bad; Sample.the_office] "default"
               "Found 2 new seasons" s0
               {| world := Sample.now + 1; records := [] |} _ _ _) _).
  - reflexivity.
  - discriminate.
  - reflexivity.
  - reflexivity.
Defined.

(** C7 at work: the two sample seasons and the [count] template. *)
Lemma two_seasons_count_two :
  Generic.substitute Sample.count_template
    (fst (datetime_now {| world := Sample.now + 1; records := [] |}))
    Sample.count_config [Sample.breaking_bad; Sample.the_office]
    "Found 2 new seasons"
    (Base.show_list [Sample.breaking_bad; Sample.the_office])
  = "{" ++ Str.dq ++ "count" ++ Str.dq ++ ":2}"
  /\ Generic.build_payload Sample.count_config
       [Sample.breaking_bad; Sample.the_office] s0
     = (Ok [("count", VInt 2)],
        snd (datetime_now {| world := Sample.now + 1; records := [] |})).
Proof.
  refine (count_template_round_trips Sample.count_config Sample.breaking_bad
            Sample.the_office "Found 2 new seasons" s0
            {| world := Sample.now + 1; records := [] |} _ _);
    reflexivity.
Defined.

(** C8 at work: covers are asked for and the only season has none. *)
Lemma no_cover_no_attachments :
  exists payload final,
    SignalCli.build_payload (get_provider_config Sample.base_config)
      [Sample.the_office] s0
    = (Ok payload, final)
    /\ keys payload = ["message"; "number"; "recipients"; "text_mode"]
    /\ get "base64_attachments" payload = None
    /\ get "number" payload = Some (VStr "+1234567890")
    /\ get "recipients" payload
       = Some (VList [VStr "+0987654321"; VStr "+1122334455"]).
Proof.
  refine (signal_build_payload_without_covers
            (get_provider_config Sample.base_config) [Sample.the_office]
            (VStr "+1234567890") ["+0987654321"; "+1122334455"] s0 _ _ _ _ _);
    try reflexivity.
  discriminate.
Defined.


(** C9 at work: an unknown mode is named in the error. *)
Lemma unknown_mode_is_named :
  get_webhook_provider (Sample.with_mode "unknown" Sample.base_config) s0
  = (Raise (Exn ValueError "Unsupported webhook_mode: unknown"), s0).
Proof.
  refine (proj1 (proj2 (proj2
            (get_webhook_provider_selection
               (Sample.with_mode "unknown" Sample.base_config) s0))) _ _ _);
    discriminate.
Defined.

(** C9: the claim as stated fails.  The mode [DEFAULT] is none of the
    three names, and the generic provider comes back. *)
Lemma uppercase_mode_is_accepted : ~ every_other_mode_fails.
Proof.
  intros C.
  destruct (C (Sample.with_mode "DEFAULT" Sample.base_config) s0) as [e E];
    try discriminate.
Qed.

(** C10: the claim as stated fails.  A message template with an unknown
    field makes [format_message] raise, and [build_payload] with it. *)
Lemma unknown_message_field_raises : ~ always_default_payload.
Proof.
  intros C.
  destruct (C (Sample.with_message_template "{oops}" Sample.base_config) [] s0)
    as (payload & E & _).
  discriminate E.
Qed.

End Witnesses.

Example uppercase_mode_run :
  fst (Main.get_webhook_provider (Sample.with_mode "DEFAULT" Sample.base_config)
         (Sample.start Sample.now))
  = Ok (Main.GenericProvider (Config.get_provider_config Sample.base_config)).
Proof. reflexivity. Qed.

Example unknown_message_field_run :
  fst (Generic.build_payload
         (Config.get_provider_config
            (Sample.with_message_template "{oops}" Sample.base_config))
         [] (Sample.start Sample.now))
  = Raise (Exn KeyError "'oops'").
Proof. reflexivity. Qed.

Example sample_run :
  fst (Logic.get_new_finished_seasons 7 Sample.recently_added
         (fun key c => Logic.is_new_show key c (Sample.metadata_of Sample.old_show))
         (fun key => Logic.is_season_finished key
                       (Sample.children_of Sample.one_real_one_stub))
         Sample.no_cover (Sample.children_of Sample.one_real_one_stub)
         (Sample.start Sample.now))
  = Ok [Sample.boundary_record].
Proof. reflexivity. Qed.

(** A timestamp in the year 318857: the conversion raises ValueError,
    the item is dropped with a warning and the next item is kept. *)
Example late_timestamp_run :
  Logic.get_new_finished_seasons 7 Sample.boundary_then_late
    (fun key c => Logic.is_new_show key c (Sample.metadata_of Sample.old_show))
    (fun key => Logic.is_season_finished key
                  (Sample.children_of Sample.one_real_one_stub))
    Sample.no_cover (Sample.children_of Sample.one_real_one_stub)
    (Sample.start Sample.now)
  = (Ok [Sample.boundary_record],
     @State Sample.runtime (Sample.now + 1)
       [ LogRecord INFO "Looking for seasons added since 2026-01-28 10:30:00";
         LogRecord WARNING
           "Error parsing added_at for Season 3: year 318857 is out of range";
         LogRecord INFO
           "Processing: Breaking Bad - Season 3 (added 2026-01-28 10:30:00)";
         LogRecord DEBUG "Season has 1/2 episodes available" ]).
Proof. reflexivity. Qed.

(** A timestamp in the year -3166904 is no time before the cutoff: the
    item leaves by the handler of the conversion, with its warning. *)
Example early_timestamp_run :
  Logic.loop_body (Sample.now - DateTime.timedelta 7)
    (fun key c => Logic.is_new_show key c (Sample.metadata_of Sample.old_show))
    (fun key => Logic.is_season_finished key
                  (Sample.children_of Sample.one_real_one_stub))
    Sample.no_cover (Sample.children_of Sample.one_real_one_stub)
    (Sample.season_item "55555" "11111" (- 10 ^ 14)) (Sample.start Sample.now)
  = (inl Logic.BadAddedAt,
     @State Sample.runtime Sample.now
       [ LogRecord WARNING
           "Error parsing added_at for Season 3: year -3166904 is out of range" ]).
Proof. reflexivity. Qed.

(** A timestamp that the C library does not convert: the OSError ends
    the run, the record of the season before it is lost. *)
Example far_timestamp_run :
  fst (Logic.get_new_finished_seasons 7 Sample.boundary_then_far
         (fun key c => Logic.is_new_show key c (Sample.metadata_of Sample.old_show))
         (fun key => Logic.is_season_finished key
                       (Sample.children_of Sample.one_real_one_stub))
         Sample.no_cover (Sample.children_of Sample.one_real_one_stub)
         (Sample.start Sample.now))
  = Raise (Exn OSError "[Errno 75] Value too large for defined data type").
Proof. reflexivity. Qed.

(** The same timestamps on a show: no new show with a warning, and an
    OSError. *)
Example late_show_run :
  Logic.is_new_show "11111" (Sample.now - DateTime.timedelta 7)
    (Sample.metadata_of Sample.late_show) (Sample.start Sample.now)
  = (Ok false,
     @State Sample.runtime Sample.now
       [ LogRecord WARNING
           "Error parsing added_at for show: year 318857 is out of range" ]).
Proof. reflexivity. Qed.

Example far_show_run :
  fst (Logic.is_new_show "11111" (Sample.now - DateTime.timedelta 7)
         (Sample.metadata_of Sample.far_show) (Sample.start Sample.now))
  = Raise (Exn OSError "[Errno 75] Value too large for defined data type").
Proof. reflexivity. Qed.

(** * Further properties *)

(** ** The environment *)

Section EnvironFacts.
Import Config Environ.
Context `{Runtime}.

(** X1.  Whatever the environment holds, [_get_lookback_days] returns a
    number of days from 1 to 365: the value of LOOKBACK_DAYS when it
    parses to such a number, and then nothing is logged, and 7 with one
    warning otherwise; without the variable it is 7 and nothing is
    logged. *)
Theorem lookback_days_in_range (environ : list (string * string)) (s : state) :
  let value := getenv environ "LOOKBACK_DAYS" "7" in
  let run := _get_lookback_days environ s in
  1 <= fst run <= 365
  /\ (forall n, Py.int_of_string value = Some n -> 1 <= n <= 365 -> run = (n, s))
  /\ ((forall n, Py.int_of_string value = Some n -> n < 1 \/ 365 < n) ->
      fst run = 7
      /\ world (snd run) = world s
      /\ exists msg, records (snd run) = (records s ++ [LogRecord WARNING msg])%list)
  /\ (get "LOOKBACK_DAYS" environ = None -> run = (7, s)).
Proof.
  intros value run. subst run. unfold _get_lookback_days. fold value.
  cbn [Py.int].
  assert (D : get "LOOKBACK_DAYS" environ = None -> value = "7").
  { intros E. subst value. unfold getenv, get_default. rewrite E. reflexivity. }
  destruct (Py.int_of_string value) as [n|] eqn:P.
  - destruct ((n <? 1) || (365 <? n)) eqn:R.
    + st_run. split; [lia|]. split; [|split].
      * intros n' E' B. inversion E'; subst n'.
        apply orb_true_iff in R. rewrite !Z.ltb_lt in R. lia.
      * intros _. split; [reflexivity|]. split; [reflexivity|]. eexists. reflexivity.
      * intros E. rewrite (D E) in P. vm_compute in P. inversion P; subst n.
        discriminate R.
    + apply orb_false_iff in R. rewrite !Z.ltb_ge in R. cbn [fst snd]. unfold ret.
      split; [cbn; lia|]. split; [|split].
      * intros n' E' _. inversion E'; reflexivity.
      * intros A. destruct (A n eq_refl); lia.
      * intros E. rewrite (D E) in P. vm_compute in P. inversion P; reflexivity.
  - st_run. split; [lia|]. split; [|split].
    + intros n E. discriminate E.
    + intros _. split; [reflexivity|]. split; [reflexivity|]. eexists. reflexivity.
    + intros E. rewrite (D E) in P. vm_compute in P. discriminate P.
Qed.

Lemma flag_iff (environ : list (string * string)) (name : string) :
  flag environ name = true
  <-> exists v, get name environ = Some v /\ Str.lower v = "true".
Proof.
  unfold flag, getenv, get_default. rewrite String.eqb_eq.
  destruct (get name environ) as [v|].
  - split.
    + intros E. exists v. split; [reflexivity|exact E].
    + intros (v' & E & L). inversion E; subst v'. exact L.
  - split.
    + intros E. vm_compute in E. discriminate E.
    + intros (v & E & _). discriminate E.
Qed.

(** X2.  [from_env] gives a configuration for every environment: its
    [lookback_days] is from 1 to 365, each of its three flags is on
    exactly when the variable is set to a spelling of [true] in any case,
    the mode is [default] when WEBHOOK_MODE is not set, and nothing but
    the log is touched, which grows by one warning at most. *)
Theorem from_env_always_configures (environ : list (string * string)) (s : state) :
  let run := from_env environ s in
  let config := fst run in
  1 <= lookback_days config <= 365
  /\ (webhook_on_empty config = true
      <-> exists v, get "WEBHOOK_ON_EMPTY" environ = Some v /\ Str.lower v = "true")
  /\ (signal_include_covers config = true
      <-> exists v, get "SIGNAL_INCLUDE_COVERS" environ = Some v
                    /\ Str.lower v = "true")
  /\ (debug config = true
      <-> exists v, get "DEBUG" environ = Some v /\ Str.lower v = "true")
  /\ (get "WEBHOOK_MODE" environ = None -> webhook_mode config = "default")
  /\ world (snd run) = world s
  /\ (records (snd run) = records s
      \/ exists msg, records (snd run) = (records s ++ [LogRecord WARNING msg])%list).
Proof.
  intros run config. subst config run. unfold from_env. st_run.
  cbn [lookback_days webhook_on_empty signal_include_covers debug webhook_mode].
  pose proof (lookback_days_in_range environ s) as L. cbv zeta in L.
  destruct L as (R & _ & _ & _).
  split; [exact R|].
  split; [apply flag_iff|]. split; [apply flag_iff|]. split; [apply flag_iff|].
  split.
  { intros E. unfold getenv, get_default. rewrite E. reflexivity. }
  unfold _get_lookback_days. cbn [Py.int].
  destruct (Py.int_of_string (getenv environ "LOOKBACK_DAYS" "7")) as [n|].
  - destruct ((n <? 1) || (365 <? n)); st_run.
    + split; [reflexivity|]. right. eexists. reflexivity.
    + split; [reflexivity|]. left. reflexivity.
  - st_run. split; [reflexivity|]. right. eexists. reflexivity.
Qed.

End EnvironFacts.

(** ** The API functions *)

Section ApiFacts.
Import Logic SpecMore Api.
Context `{Runtime}.

Variable request : string -> string -> St (option pyval).
Variable urljoin : string -> string -> result string.
Variable urlencode : dict -> result string.

(** Without the URL or the key no request is made. *)
Lemma make_tautulli_request_unset (cmd : string) (params : dict)
    (tautulli_url tautulli_apikey : string) (s : state) :
  tautulli_url = EmptyString \/ tautulli_apikey = EmptyString ->
  make_tautulli_request request urljoin urlencode cmd params tautulli_url
    tautulli_apikey s
  = (Ok None,
     {| world := world s;
        records := (records s
                      ++ [LogRecord ERROR "tautulli_url or tautulli_apikey not set"])%list |}).
Proof.
  intros E. unfold make_tautulli_request.
  assert (T : String.eqb tautulli_url EmptyString
              || String.eqb tautulli_apikey EmptyString = true).
  { apply orb_true_iff. rewrite !String.eqb_eq. exact E. }
  rewrite T. st_run. reflexivity.
Qed.

(** With both, the URL is built first: what building it raises is
    raised before any request; the request is made otherwise. *)
Lemma make_tautulli_request_set (cmd : string) (params : dict)
    (tautulli_url tautulli_apikey : string) (s : state) :
  tautulli_url <> EmptyString -> tautulli_apikey <> EmptyString ->
  make_tautulli_request request urljoin urlencode cmd params tautulli_url
    tautulli_apikey s
  = match request_url urljoin urlencode cmd params tautulli_url
            tautulli_apikey with
    | Raise e => (Raise e, s)
    | Ok url => (Ok (fst (request url cmd s)), snd (request url cmd s))
    end.
Proof.
  intros U K. unfold make_tautulli_request.
  apply String.eqb_neq in U, K. rewrite U, K. cbn [orb].
  destruct (request_url _ _ _ _ _ _); [|reflexivity].
  st_run. reflexivity.
Qed.

Lemma with_rating_key_dicts (children : list dict) :
  with_rating_key (map VDict children) = Ok (filter has_rating_key children).
Proof.
  induction children as [|child rest IH]; [reflexivity|].
  cbn [map with_rating_key filter]. rewrite IH. unfold has_rating_key.
  destruct (truthy (get_or_none "rating_key" child)); reflexivity.
Qed.

Lemma with_rating_key_kept (children : list pyval) :
  forall kept, with_rating_key children = Ok kept ->
               Forall (fun child => has_rating_key child = true) kept
               /\ children = map VDict
                               (fold_right
                                  (fun v acc => match v with
                                                | VDict d => d :: acc
                                                | _ => acc
                                                end) [] children).
Proof.
  induction children as [|v rest IH]; intros kept E.
  - inversion E. split; [constructor|reflexivity].
  - destruct v; try discriminate E. cbn [with_rating_key] in E.
    destruct (with_rating_key rest) as [kept'|e]; [|discriminate E].
    destruct (IH kept' eq_refl) as [F M]. inversion E; subst kept. split.
    + destruct (truthy (get_or_none "rating_key" d)) eqn:T; [|exact F].
      constructor; [exact T|exact F].
    + cbn [fold_right map]. rewrite <- M. reflexivity.
Qed.

(** The comprehension raises on the first child that is not a dict. *)
Lemma with_rating_key_raises (before : list dict) (child : pyval)
    (after : list pyval) :
  (forall d, child <> VDict d) ->
  with_rating_key (map VDict before ++ child :: after)
  = Raise (Exn AttributeError
             (Str.sq ++ type_name child ++ Str.sq
                ++ " object has no attribute 'get'")).
Proof.
  intros N. induction before as [|d rest IH].
  - cbn [map app]. destruct child; try reflexivity. exfalso. exact (N d eq_refl).
  - cbn [map app with_rating_key]. rewrite IH. reflexivity.
Qed.

(** A list holds dicts only, or has a first element that is none. *)
Lemma dicts_or_first_other (l : list pyval) :
  (exists children, l = map VDict children)
  \/ exists before child after,
       l = (map VDict before ++ child :: after)%list
       /\ forall d, child <> VDict d.
Proof.
  induction l as [|v rest IH].
  - left. exists []. reflexivity.
  - assert (D : (exists d, v = VDict d) \/ forall d, v <> VDict d).
    { destruct v; try (right; intros d' E; discriminate E).
      left. exists d. reflexivity. }
    destruct D as [[d ->] | N].
    + destruct IH as [[children ->] | (before & child & after & -> & N)].
      * left. exists (d :: children). reflexivity.
      * right. exists (d :: before), child, after. split; [reflexivity|exact N].
    + right. exists [], v, rest. split; [reflexivity|exact N].
Qed.

(** X3.  [get_children_metadata] returns children that all have a
    non-empty [rating_key]: from a list of dicts it keeps exactly those,
    in their order; it returns the empty list, and asks nothing, without
    the URL or the key, and the empty list too when the answer is missing
    or is not a list.  It raises in two cases and no other: when the URL
    of the request cannot be built it raises what [urljoin] or
    [urlencode] raises, before any request; when the answer is a list
    with a child that is not a dict it raises an AttributeError that
    names the type of the first such child. *)
Theorem children_have_rating_keys
    (rating_key tautulli_url tautulli_apikey : string) (s : state) :
  let run := get_children_metadata request urljoin urlencode rating_key
               tautulli_url tautulli_apikey s in
  let built := request_url urljoin urlencode "get_children_metadata"
                 [("rating_key", VStr rating_key)] tautulli_url
                 tautulli_apikey in
  (forall children,
      fst run = Ok children ->
      Forall (fun child => has_rating_key child = true) children)
  /\ (tautulli_url = EmptyString \/ tautulli_apikey = EmptyString ->
      run = (Ok [],
             {| world := world s;
                records :=
                  (records s
                     ++ [LogRecord ERROR "tautulli_url or tautulli_apikey not set"])%list |}))
  /\ (tautulli_url <> EmptyString -> tautulli_apikey <> EmptyString ->
      (forall e, built = Raise e -> run = (Raise e, s))
      /\ (forall url,
             built = Ok url ->
             let asked := request url "get_children_metadata" s in
             (forall children,
                 fst asked = Some (VList (map VDict children)) ->
                 run = (Ok (filter has_rating_key children), snd asked))
             /\ (fst asked = None \/ (forall l, fst asked <> Some (VList l)) ->
                 run = (Ok [], snd asked))
             /\ (forall before child after,
                    fst asked
                    = Some (VList (map VDict before ++ child :: after)) ->
                    (forall d, child <> VDict d) ->
                    run = (Raise (Exn AttributeError
                                    (Str.sq ++ type_name child ++ Str.sq
                                       ++ " object has no attribute 'get'")),
                           snd asked))))
  /\ (forall e,
         fst run = Raise e ->
         tautulli_url <> EmptyString /\ tautulli_apikey <> EmptyString
         /\ (built = Raise e
             \/ exists url before child after,
                  built = Ok url
                  /\ fst (request url "get_children_metadata" s)
                     = Some (VList (map VDict before ++ child :: after))
                  /\ (forall d, child <> VDict d)
                  /\ e = Exn AttributeError
                           (Str.sq ++ type_name child ++ Str.sq
                              ++ " object has no attribute 'get'"))).
Proof.
  intros run built.
  assert (Unset : tautulli_url = EmptyString \/ tautulli_apikey = EmptyString ->
                  run = (Ok [],
                         {| world := world s;
                            records :=
                              (records s
                                 ++ [LogRecord ERROR
                                       "tautulli_url or tautulli_apikey not set"])%list |})).
  { intros E. subst run. unfold get_children_metadata, bindR. st_run.
    rewrite (make_tautulli_request_unset _ _ _ _ s E). reflexivity. }
  assert (Set_ : tautulli_url <> EmptyString -> tautulli_apikey <> EmptyString ->
                 run = match built with
                       | Raise e => (Raise e, s)
                       | Ok url =>
                           let asked := request url "get_children_metadata" s in
                           match fst asked with
                           | Some (VList (v :: l)) =>
                               (with_rating_key (v :: l), snd asked)
                           | _ => (Ok [], snd asked)
                           end
                       end).
  { intros U K. subst run. unfold get_children_metadata, bindR. st_run.
    rewrite (make_tautulli_request_set _ _ _ _ s U K). fold built.
    destruct built as [url|e]; [|reflexivity]. cbn [fst snd]. cbv zeta.
    destruct (request url "get_children_metadata" s) as [[data|] s1];
      cbn [fst snd]; [|reflexivity].
    destruct data as [|b|n|f|t|l|d]; try reflexivity.
    - destruct b; reflexivity.
    - cbn [truthy]. destruct (n =? 0); reflexivity.
    - destruct f.
    - cbn [truthy]. destruct (String.eqb t EmptyString); reflexivity.
    - destruct l; reflexivity.
    - destruct d; reflexivity. }
  assert (Cases : (tautulli_url = EmptyString \/ tautulli_apikey = EmptyString)
                  \/ (tautulli_url <> EmptyString /\ tautulli_apikey <> EmptyString)).
  { destruct (String.eqb tautulli_url EmptyString) eqn:U.
    - apply String.eqb_eq in U. left. left. exact U.
    - destruct (String.eqb tautulli_apikey EmptyString) eqn:K.
      + apply String.eqb_eq in K. left. right. exact K.
      + apply String.eqb_neq in U, K. right. split; assumption. }
  split; [|split; [exact Unset|split]].
  - intros children E. destruct Cases as [C | [U K]].
    + rewrite (Unset C) in E. inversion E. constructor.
    + rewrite (Set_ U K) in E. destruct built as [url|e]; [|discriminate E].
      cbv zeta in E.
      destruct (fst (request url "get_children_metadata" s))
        as [[|b|n|f|t|[|v l]|d]|]; cbn [fst] in E;
        try (inversion E; constructor).
      apply with_rating_key_kept in E. apply E.
  - intros U K. rewrite (Set_ U K). split.
    + intros e ->. reflexivity.
    + intros url ->. cbv zeta. split; [|split].
      * intros children ->. destruct children as [|child rest]; [reflexivity|].
        cbn [map]. rewrite <- with_rating_key_dicts. reflexivity.
      * intros [-> | N]; [reflexivity|].
        destruct (fst (request url "get_children_metadata" s))
          as [[|b|n|f|t|[|v l]|d]|]; try reflexivity.
        exfalso. exact (N (v :: l) eq_refl).
      * intros before child after -> N.
        rewrite <- (with_rating_key_raises before child after N).
        destruct before; reflexivity.
  - intros e E. destruct Cases as [C | [U K]].
    { rewrite (Unset C) in E. discriminate E. }
    split; [exact U|]. split; [exact K|].
    rewrite (Set_ U K) in E. destruct built as [url|e'].
    2:{ left. inversion E. reflexivity. }
    right. cbv zeta in E.
    destruct (fst (request url "get_children_metadata" s))
      as [[|b|n|f|t|[|v l]|d]|] eqn:A; cbn [fst] in E; try discriminate E.
    destruct (dicts_or_first_other (v :: l))
      as [[children L] | (before & child & after & L & N)].
    + rewrite L, with_rating_key_dicts in E. discriminate E.
    + exists url, before, child, after. rewrite <- L.
      split; [reflexivity|]. split; [exact A|]. split; [exact N|].
      rewrite L, (with_rating_key_raises before child after N) in E.
      inversion E. reflexivity.
Qed.

Lemma length_append (a b : string) :
  String.length (a ++ b) = (String.length a + String.length b)%nat.
Proof. induction a as [|c a IH]; [reflexivity|]. cbn. rewrite IH. reflexivity. Qed.

Lemma drop_append (a b : string) : Str.drop (String.length a) (a ++ b) = b.
Proof. induction a as [|c a IH]; [destruct b; reflexivity|]. exact IH. Qed.

Lemma endswith_append (a b : string) : Str.endswith (a ++ b) b = true.
Proof.
  unfold Str.endswith. rewrite length_append. apply andb_true_iff. split.
  - apply Nat.leb_le. lia.
  - replace (String.length a + String.length b - String.length b)%nat
      with (String.length a) by lia.
    rewrite drop_append. apply String.eqb_refl.
Qed.

Lemma contains_char_append (c : ascii) (a b : string) :
  Str.contains_char c (a ++ b) = Str.contains_char c a || Str.contains_char c b.
Proof.
  induction a as [|x a IH]; [reflexivity|]. cbn. rewrite IH.
  rewrite orb_assoc. reflexivity.
Qed.

Lemma append_assoc (a b c : string) : (a ++ b) ++ c = a ++ (b ++ c).
Proof. induction a as [|x a IH]; [reflexivity|]. cbn. rewrite IH. reflexivity. Qed.

(** X4.  For a thumb path that is a str, [get_cover_url] opens no
    connection; it gives no URL exactly when the path, the Plex URL or
    the token is empty; a URL it gives is what [urljoin] made of the
    Plex URL and the path, has a query and ends with the token as
    [X-Plex-Token]; and it raises exactly when none of the three is
    empty and [urljoin] raises, with the exception of [urljoin]. *)
Theorem cover_url_carries_token (thumb_path plex_url plex_token : string)
    (s : state) :
  let run := get_cover_url urljoin (VStr thumb_path) plex_url plex_token s in
  let joined := urljoin (rstrip_slash plex_url ++ "/")
                  (Str.lstrip_by is_slash thumb_path) in
  world (snd run) = world s
  /\ (fst run = Ok None
      <-> thumb_path = EmptyString \/ plex_url = EmptyString
          \/ plex_token = EmptyString)
  /\ (forall url,
         fst run = Ok (Some url) ->
         Str.endswith url ("X-Plex-Token=" ++ plex_token) = true
         /\ Str.contains_char "?" url = true
         /\ snd run = s
         /\ exists full_url,
              joined = Ok full_url
              /\ url = full_url
                         ++ (if Str.contains_char "?" full_url then "&" else "?")
                         ++ "X-Plex-Token=" ++ plex_token)
  /\ (forall e,
         fst run = Raise e
         <-> thumb_path <> EmptyString /\ plex_url <> EmptyString
             /\ plex_token <> EmptyString /\ joined = Raise e).
Proof.
  clear request urlencode.
  intros run joined. subst run. unfold get_cover_url. cbn [truthy].
  destruct (String.eqb thumb_path EmptyString) eqn:T; cbn [negb].
  { apply String.eqb_eq in T. unfold ret. cbn [fst snd].
    split; [reflexivity|]. split; [tauto|]. split.
    - intros url E. discriminate E.
    - intros e. split; [intros E; discriminate E|]. intros (N & _). contradiction. }
  apply String.eqb_neq in T.
  destruct (String.eqb plex_url EmptyString) eqn:U.
  { apply String.eqb_eq in U. cbn [orb]. st_run.
    split; [reflexivity|]. split; [tauto|]. split.
    - intros url E. discriminate E.
    - intros e. split; [intros E; discriminate E|]. intros (_ & N & _). contradiction. }
  destruct (String.eqb plex_token EmptyString) eqn:K.
  { apply String.eqb_eq in K. cbn [orb]. st_run.
    split; [reflexivity|]. split; [tauto|]. split.
    - intros url E. discriminate E.
    - intros e. split; [intros E; discriminate E|].
      intros (_ & _ & N & _). contradiction. }
  apply String.eqb_neq in U, K. cbn [orb]. fold joined.
  destruct joined as [full_url|e0]; unfold ret; cbn [fst snd].
  - split; [reflexivity|]. split; [|split].
    + split; [intros E; discriminate E|]. intros [E | [E | E]]; contradiction.
    + intros url E. inversion E; subst url. clear E.
      split; [|split; [|split; [reflexivity|]]].
      * rewrite <- append_assoc. apply endswith_append.
      * rewrite contains_char_append.
        destruct (Str.contains_char "?" full_url); reflexivity.
      * exists full_url. split; reflexivity.
    + intros e. split; [intros E; discriminate E|].
      intros (_ & _ & _ & E). discriminate E.
  - split; [reflexivity|]. split; [|split].
    + split; [intros E; discriminate E|]. intros [E | [E | E]]; contradiction.
    + intros url E. discriminate E.
    + intros e. split.
      * intros E. inversion E; subst e0. repeat split; assumption.
      * intros (_ & _ & _ & E). inversion E. reflexivity.
Qed.

(** X5.  [get_show_cover] builds the cover from the first of [thumb],
    [art] and [poster_thumb] that is not empty, in this order, and gives
    no URL when the metadata are missing, are empty or hold none of the
    three; what the fetch of the metadata raises, it raises. *)
Theorem show_cover_takes_first_image
    (rating_key plex_url plex_token tautulli_url tautulli_apikey : string)
    (s : state) :
  let fetched := get_metadata request urljoin urlencode rating_key tautulli_url
                   tautulli_apikey s in
  get_show_cover request urljoin urlencode rating_key plex_url plex_token
    tautulli_url tautulli_apikey s
  = match fst fetched with
    | Raise e => (Raise e, snd fetched)
    | Ok None => (Ok None, snd fetched)
    | Ok (Some metadata) =>
        match first_truthy [get_or_none "thumb" metadata;
                            get_or_none "art" metadata;
                            get_or_none "poster_thumb" metadata] with
        | Some image => get_cover_url urljoin image plex_url plex_token (snd fetched)
        | None => (Ok None, snd fetched)
        end
    end.
Proof.
  intros fetched. unfold get_show_cover, bindR. st_run. fold fetched.
  destruct (fst fetched) as [[[|kv metadata]|]|e]; try reflexivity.
  generalize (kv :: metadata). intros md. unfold py_or. cbn [first_truthy].
  destruct (truthy (get_or_none "thumb" md)) eqn:A.
  { repeat rewrite A. reflexivity. }
  destruct (truthy (get_or_none "art" md)) eqn:B.
  { repeat rewrite B. reflexivity. }
  destruct (truthy (get_or_none "poster_thumb" md)) eqn:C;
    repeat rewrite C; reflexivity.
Qed.

End ApiFacts.

(** ** Sending *)

Section SendFacts.
Import Logic Config Main Send.
Context `{Runtime}.

Variable post : string -> jdict -> list (string * string) -> St (result Z).

(** X6.  What happens to an empty result is settled by the provider
    [get_webhook_provider] handed out: it is sent only by the generic
    provider with [webhook_on_empty] on.  In every other case, the
    Signal provider whatever its config, [send_webhook] returns true at
    once: no payload is built and nothing is posted, whatever the URL. *)
Theorem empty_result_policy (c : Config) (provider : WebhookProvider)
    (s s' : state) :
  get_webhook_provider c s = (Ok provider, s') ->
  should_send_on_empty provider
  = negb (String.eqb (Str.lower (webhook_mode c)) "signal-cli")
    && webhook_on_empty c
  /\ forall (config : Config) (st : state),
       should_send_on_empty provider = false ->
       send_webhook post [] provider config st
       = (true,
          {| world := world st;
             records :=
               (records st
                  ++ [LogRecord INFO "No new seasons found, skipping webhook"])%list |}).
Proof.
  intros E. split.
  - unfold get_webhook_provider in E.
    destruct (String.eqb (Str.lower (webhook_mode c)) "signal-cli").
    + revert E. st_run.
      destruct (fst (validate_config (SignalCliProvider (get_provider_config c)) s));
        cbn [negb]; intros E; inversion E. reflexivity.
    + destruct (String.eqb (Str.lower (webhook_mode c)) "default"
                || String.eqb (Str.lower (webhook_mode c)) "custom").
      * revert E. st_run. cbn [validate_config Base.validate_config].
        unfold ret. cbn [fst snd negb]. intros E. inversion E.
        reflexivity.
      * inversion E.
  - intros config st E0. unfold send_webhook. rewrite E0. cbn [andb negb].
    st_run. reflexivity.
Qed.

(** X7.  What [send_webhook] answers.  An empty result that the provider
    does not send gives true without a POST, even when no URL is set;
    otherwise a missing URL gives false before the payload is built; an
    error raised while the payload is built gives false, is logged, and
    nothing is posted; and with a URL the answer is true exactly when the
    payload was built and the POST came back with status 200, 201, 202 or
    204. *)
Theorem send_webhook_outcome (seasons : list NewFinishedSeason)
    (provider : WebhookProvider) (config : Config) (s : state) :
  let run := send_webhook post seasons provider config s in
  let skipped :=
    match seasons with [] => negb (should_send_on_empty provider) | _ => false end in
  let built := build_payload provider seasons s in
  (skipped = true ->
   run = (true,
          {| world := world s;
             records := (records s
                           ++ [LogRecord INFO "No new seasons found, skipping webhook"])%list |}))
  /\ (skipped = false -> webhook_url config = EmptyString ->
      run = (false,
             {| world := world s;
                records := (records s
                              ++ [LogRecord WARNING
                                    "WEBHOOK_URL not set, skipping webhook send"])%list |}))
  /\ (skipped = false -> webhook_url config <> EmptyString ->
      (forall e,
          fst built = Raise e ->
          run = (false,
                 {| world := world (snd built);
                    records := (records (snd built)
                                  ++ [LogRecord ERROR
                                        ("Failed to send webhook: " ++ exn_msg e)])%list |}))
      /\ (fst run = true
          <-> exists payload status,
                fst built = Ok payload
                /\ fst (post (webhook_url config) payload Base.get_headers (snd built))
                   = Ok status
                /\ (status = 200 \/ status = 201 \/ status = 202 \/ status = 204))).
Proof.
  intros run skipped built.
  assert (Sk : match seasons with [] => true | _ => false end
               && negb (should_send_on_empty provider) = skipped).
  { subst skipped. destruct seasons; reflexivity. }
  subst run. unfold send_webhook. rewrite Sk.
  split; [|split].
  - intros ->. st_run. reflexivity.
  - intros -> U. rewrite U. st_run. reflexivity.
  - intros -> U. apply String.eqb_neq in U. rewrite U. st_run. fold built.
    split.
    + intros e E. rewrite E. st_run. reflexivity.
    + destruct (fst built) as [payload|e].
      2:{ st_run. split; [intros X; discriminate X|].
          intros (p & st & X & _). discriminate X. }
      st_run. unfold get_headers.
      destruct (post (webhook_url config) payload Base.get_headers (snd built))
        as [[status|e] posted] eqn:P; cbn [fst snd].
      2:{ st_run. split; [intros X; discriminate X|].
          intros (p & st & X & Y & _). inversion X; subst p.
          rewrite P in Y. discriminate Y. }
      destruct (success_status status) eqn:S; st_run.
      * split; [|reflexivity]. intros _. exists payload, status.
        split; [reflexivity|]. split; [rewrite P; reflexivity|].
        unfold success_status in S. rewrite !orb_true_iff, !Z.eqb_eq in S. tauto.
      * split; [intros X; discriminate X|].
        intros (p & st & X & Y & C). inversion X; subst p.
        rewrite P in Y. inversion Y; subst st.
        unfold success_status in S. rewrite !orb_false_iff, !Z.eqb_neq in S. lia.
Qed.

End SendFacts.

(** ** More on the Signal provider *)

Section SignalMore.
Import Logic Spec Config Main.
Context `{Runtime}.

(** X8.  [validate_config] of the Signal provider accepts a config
    exactly when [signal_number] and [signal_recipients] are both there
    and not empty; a refusal logs the first missing key, and only that
    one; nothing else is touched. *)
Theorem signal_validate_config_fails_closed (config : dict) (s : state) :
  let run := SignalCli.validate_config config s in
  let number := truthy (get_or_none "signal_number" config) in
  let recipients := truthy (get_or_none "signal_recipients" config) in
  fst run = number && recipients
  /\ world (snd run) = world s
  /\ (number = true -> recipients = true -> snd run = s)
  /\ (number = false ->
      records (snd run)
      = (records s ++ [LogRecord ERROR "Missing required config: signal_number"])%list)
  /\ (number = true -> recipients = false ->
      records (snd run)
      = (records s
           ++ [LogRecord ERROR "Missing required config: signal_recipients"])%list).
Proof.
  intros run number recipients. subst run number recipients.
  unfold SignalCli.validate_config. cbn [SignalCli.check_required].
  destruct (truthy (get_or_none "signal_number" config)); cbn [negb andb].
  - destruct (truthy (get_or_none "signal_recipients" config)); cbn [negb]; st_run;
      repeat split; try reflexivity; intros; discriminate.
  - st_run. repeat split; try reflexivity; intros; discriminate.
Qed.

(** *** Stripping twice *)

Lemma append_nil_r (a : string) : a ++ EmptyString = a.
Proof. induction a as [|c a IH]; [reflexivity|]. cbn. rewrite IH. reflexivity. Qed.

Lemma rev_onto_append (s : string) :
  forall acc, Str.rev_onto s acc = Str.rev s ++ acc.
Proof.
  unfold Str.rev. induction s as [|c s IH]; intros acc; [reflexivity|].
  cbn [Str.rev_onto]. rewrite IH. rewrite (IH (String c EmptyString)).
  rewrite append_assoc. reflexivity.
Qed.

Lemma rev_cons (c : ascii) (s : string) :
  Str.rev (String c s) = Str.rev s ++ String c EmptyString.
Proof. unfold Str.rev at 1. cbn [Str.rev_onto]. apply rev_onto_append. Qed.

Lemma rev_append (a b : string) : Str.rev (a ++ b) = Str.rev b ++ Str.rev a.
Proof.
  induction a as [|c a IH].
  - cbn [append]. change (Str.rev EmptyString) with EmptyString.
    rewrite append_nil_r. reflexivity.
  - cbn [append]. rewrite !rev_cons, IH. apply append_assoc.
Qed.

Lemma rev_rev (s : string) : Str.rev (Str.rev s) = s.
Proof.
  induction s as [|c s IH]; [reflexivity|].
  rewrite rev_cons, rev_append, IH. reflexivity.
Qed.

Lemma lstrip_by_idem (space : ascii -> bool) (s : string) :
  Str.lstrip_by space (Str.lstrip_by space s) = Str.lstrip_by space s.
Proof.
  induction s as [|c s IH]; [reflexivity|]. cbn [Str.lstrip_by].
  destruct (space c) eqn:E; [exact IH|]. cbn [Str.lstrip_by]. rewrite E. reflexivity.
Qed.

Lemma lstrip_by_append (space : ascii -> bool) (c : ascii) (u v : string) :
  space c = false ->
  Str.lstrip_by space (u ++ String c v) = Str.lstrip_by space u ++ String c v.
Proof.
  intros E. induction u as [|x u IH]; cbn [append Str.lstrip_by].
  - rewrite E. reflexivity.
  - destruct (space x); [exact IH|reflexivity].
Qed.

(** Stripping a stripped str changes nothing. *)
Lemma strip_by_idem (space : ascii -> bool) (s : string) :
  Str.strip_by space (Str.strip_by space s) = Str.strip_by space s.
Proof.
  unfold Str.strip_by.
  set (a := Str.lstrip_by space s).
  assert (A : Str.lstrip_by space a = a) by apply lstrip_by_idem.
  set (b := Str.lstrip_by space (Str.rev a)).
  assert (B : Str.lstrip_by space b = b) by apply lstrip_by_idem.
  assert (R : Str.lstrip_by space (Str.rev b) = Str.rev b).
  { destruct a as [|x a'].
    - reflexivity.
    - assert (X : space x = false).
      { cbn [Str.lstrip_by] in A. destruct (space x) eqn:E; [|reflexivity].
        exfalso. clear - A.
        assert (L : forall t, (String.length (Str.lstrip_by space t)
                               <= String.length t)%nat).
        { induction t as [|c t IH]; [cbn; lia|]. cbn [Str.lstrip_by].
          destruct (space c); cbn [String.length]; lia. }
        specialize (L a'). rewrite A in L. cbn [String.length] in L. lia. }
      subst b. rewrite rev_cons. rewrite (lstrip_by_append space x _ _ X).
      rewrite rev_append. cbn [Str.rev Str.rev_onto append Str.lstrip_by].
      rewrite X. reflexivity. }
  rewrite R, rev_rev, B. reflexivity.
Qed.

Lemma contains_char_rev (c : ascii) (s : string) :
  Str.contains_char c (Str.rev s) = Str.contains_char c s.
Proof.
  induction s as [|x s IH]; [reflexivity|].
  rewrite rev_cons. rewrite (contains_char_append c). rewrite IH. cbn.
  rewrite orb_false_r. apply orb_comm.
Qed.

Lemma contains_char_lstrip (space : ascii -> bool) (c : ascii) (s : string) :
  Str.contains_char c s = false ->
  Str.contains_char c (Str.lstrip_by space s) = false.
Proof.
  induction s as [|x s IH]; intros E; [reflexivity|]. cbn [Str.lstrip_by].
  destruct (space x); [|exact E]. apply IH. cbn in E.
  apply orb_false_iff in E. apply E.
Qed.

Lemma contains_char_strip (space : ascii -> bool) (c : ascii) (s : string) :
  Str.contains_char c s = false ->
  Str.contains_char c (Str.strip_by space s) = false.
Proof.
  intros E. unfold Str.strip_by. rewrite contains_char_rev.
  apply contains_char_lstrip. rewrite contains_char_rev.
  apply contains_char_lstrip. exact E.
Qed.

Lemma split_from_fields (sep : ascii) (s : string) :
  forall cur field,
    Str.contains_char sep cur = false ->
    In field (Str.split_from sep cur s) ->
    Str.contains_char sep field = false.
Proof.
  induction s as [|c s IH]; intros cur field C I; cbn [Str.split_from] in I.
  - destruct I as [<- | []]. rewrite contains_char_rev. exact C.
  - destruct (Ascii.eqb c sep) eqn:E.
    + destruct I as [<- | I].
      * rewrite contains_char_rev. exact C.
      * apply (IH EmptyString); [reflexivity|exact I].
    + apply (IH (String c cur)); [|exact I]. cbn. rewrite E. exact C.
Qed.

(** X9.  The recipients [_parse_recipients] returns for a str are clean:
    none is empty, none begins or ends with white space, none holds a
    comma; and without the key, or with an empty str, there is none. *)
Theorem parsed_recipients_are_clean (config : dict) :
  (forall text,
      get "signal_recipients" config = Some (VStr text) ->
      exists recipients,
        SignalCli._parse_recipients config = Ok recipients
        /\ Forall (fun r => r <> EmptyString
                            /\ Str.strip r = r
                            /\ Str.contains_char "," r = false) recipients)
  /\ (get "signal_recipients" config = None
      \/ get "signal_recipients" config = Some (VStr EmptyString) ->
      SignalCli._parse_recipients config = Ok []).
Proof.
  split.
  - intros text G. unfold SignalCli._parse_recipients, get_default. rewrite G.
    destruct (truthy (VStr text)); cbn [negb].
    2:{ exists []. split; [reflexivity|constructor]. }
    eexists. split; [reflexivity|].
    apply Forall_forall. intros r I. apply filter_In in I. destruct I as [I N].
    apply in_map_iff in I. destruct I as (field & <- & I).
    split; [|split].
    + unfold SignalCli.nonempty in N. apply negb_true_iff in N.
      apply String.eqb_neq in N. exact N.
    + apply strip_by_idem.
    + apply contains_char_strip.
      apply (split_from_fields _ text EmptyString); [reflexivity|exact I].
  - unfold SignalCli._parse_recipients, get_default. intros [-> | ->]; reflexivity.
Qed.

(** Every season with a cover URL leaves an attachment or a warning. *)
Lemma covers_loop_accounts (seasons : list NewFinishedSeason) :
  forall (base64_covers : list string) (s : state),
    let run := SignalCli.covers_loop seasons base64_covers s in
    (List.length (fst run) + List.length (records (snd run))
     = List.length base64_covers + List.length (records s)
       + List.length (filter has_cover seasons))%nat
    /\ (List.length (records s) <= List.length (records (snd run)))%nat.
Proof.
  induction seasons as [|season rest IH]; intros acc s; cbn zeta.
  - cbn. split; lia.
  - cbn [SignalCli.covers_loop filter]. unfold has_cover at 1.
    destruct (cover_url season) as [[|c u]|].
    + specialize (IH acc s). cbn zeta in IH. exact IH.
    + st_run. unfold SignalCli.urlopen at 1 2 3 4 5 6.
      destruct (urlopen_read (String c u) (world s)) as [[image|e] w]; cbn [fst snd].
      * match goal with
        | |- context [SignalCli.covers_loop rest ?a ?st] =>
            specialize (IH a st); cbn zeta in IH; destruct IH as [IH1 IH2]
        end.
        rewrite length_app in IH1. cbn [List.length records world] in *.
        split; lia.
      * st_run.
        match goal with
        | |- context [SignalCli.covers_loop rest ?a ?st] =>
            specialize (IH a st); cbn zeta in IH; destruct IH as [IH1 IH2]
        end.
        cbn [records world] in *. rewrite length_app in IH1, IH2.
        cbn [List.length] in *. split; lia.
    + specialize (IH acc s). cbn zeta in IH. exact IH.
Qed.

(** X10.  [_get_covers_as_base64] goes through every season: each season
    with a cover URL leaves either an attachment or a warning in the log,
    so a failed download does not stop the others. *)
Theorem every_cover_is_attached_or_logged (seasons : list NewFinishedSeason)
    (s : state) :
  let run := SignalCli._get_covers_as_base64 seasons s in
  (List.length (fst run) + List.length (records (snd run))
   = List.length (records s) + List.length (filter has_cover seasons))%nat
  /\ (List.length (fst run) <= List.length (filter has_cover seasons))%nat.
Proof.
  intros run. subst run. unfold SignalCli._get_covers_as_base64.
  pose proof (covers_loop_accounts seasons [] s) as A. cbn zeta in A.
  destruct A as [A1 A2]. cbn [List.length] in A1.
  split; lia.
Qed.

End SignalMore.

(** ** More on the classification *)

Section LogicMore.
Import Logic Spec SpecMore.
Context `{Runtime}.

Lemma safe_get_from_not_dict (v : pyval) (keys : list string) (default : pyval) :
  is_dict v = false -> keys <> [] -> safe_get_from v keys default = default.
Proof.
  intros D N. destruct keys as [|key rest]; [contradiction|].
  destruct v; try reflexivity. discriminate D.
Qed.

(** X11.  With a default that is not a dict, [_safe_get_nested] is the
    lookup along the path: the value at its end when every key is there
    in a dict, the default otherwise, also when a list or a str stands
    where a dict is looked for.  A value that is there is returned as it
    is, also [None]. *)
Theorem safe_get_nested_is_path_lookup (d : dict) (keys : list string)
    (default : pyval) :
  is_dict default = false ->
  _safe_get_nested d keys default
  = match path (VDict d) keys with
    | Some v => v
    | None => default
    end.
Proof.
  intros D. unfold _safe_get_nested. generalize (VDict d). intros current.
  revert current. induction keys as [|key rest IH]; intros current; [reflexivity|].
  destruct current as [|b|n|f|t|l|dd]; try reflexivity.
  cbn [safe_get_from path]. unfold get_default.
  destruct (get key dd) as [v|]; [apply IH|].
  destruct rest as [|k rest]; [reflexivity|].
  apply safe_get_from_not_dict; [exact D|discriminate].
Qed.

Section Run.

Variable lookback_days : Z.
Variable get_recently_added_func : string -> Z -> St (list dict).
Variable is_new_show_func : string -> DateTime.datetime -> St (result bool).
Variable is_season_finished_func : string -> St bool.
Variable get_show_cover_func : string -> St (option string).
Variable get_children_func : string -> St (list dict).

Local Abbreviation run :=
  (get_new_finished_seasons lookback_days get_recently_added_func
     is_new_show_func is_season_finished_func get_show_cover_func
     get_children_func).

Lemma survivors_subsequence (cutoff_date : DateTime.datetime) (items : list dict) :
  forall (s : state) (records : list NewFinishedSeason),
    fst (survivors cutoff_date is_new_show_func is_season_finished_func
           get_show_cover_func get_children_func items s) = Ok records ->
    subsequence (map rating_key records) (map (get_or_none "rating_key") items).
Proof.
  induction items as [|item rest IH]; intros s records R.
  - inversion R. constructor.
  - rewrite survivors_cons in R. cbn [map].
    destruct (loop_body _ _ _ _ _ item s) as [[k|record] s'] eqn:E; cbn [fst snd] in R.
    + apply subsequence_skip. apply (IH s').
      destruct k; first [exact R | discriminate R].
    + destruct (fst (survivors _ _ _ _ _ rest s')) as [out|e] eqn:O;
        [|discriminate R].
      inversion R; subst records.
      apply loop_body_inr in E.
      destruct E as (_ & n & t & s1 & s2 & s3 & _ & _ & _ & _ & _ & _ & -> & _).
      cbn [map rating_key]. apply subsequence_take, (IH s'), O.
Qed.

Lemma subsequence_length {A : Type} (sub l : list A) :
  subsequence sub l -> (List.length sub <= List.length l)%nat.
Proof. induction 1; cbn [List.length]; lia. Qed.

Lemma run_is_survivors (s : state) :
  let started := datetime_now s in
  let cutoff_date := fst started - DateTime.timedelta lookback_days in
  let logged :=
    log INFO ("Looking for seasons added since " ++ DateTime.str cutoff_date)
      (snd started) in
  let fetched := get_recently_added_func "season" 100 (snd logged) in
  fst (run s)
  = fst (survivors cutoff_date is_new_show_func is_season_finished_func
           get_show_cover_func get_children_func
           (filter is_season_item (fst fetched)) (snd fetched)).
Proof.
  intros started cutoff_date logged fetched.
  subst started cutoff_date logged fetched.
  unfold get_new_finished_seasons. st_run.
  rewrite <- survivors_filter.
  match goal with
  | |- context [get_recently_added_func ?m ?c ?st] =>
      destruct (get_recently_added_func m c st) as [[|item rest] s2]
  end; cbn [fst snd].
  - st_run. reflexivity.
  - rewrite for_items_survivors. cbn [fst app].
    destruct (fst (survivors _ _ _ _ _ _ _)); reflexivity.
Qed.

(** X12.  The records [get_new_finished_seasons] returns follow the
    fetched list: their rating keys are the rating keys of the fetched
    season items with some left out, in the same order, so there is at
    most one record for each season item and none when the list holds no
    season item. *)
Theorem records_follow_the_fetched_list (s : state) :
  let started := datetime_now s in
  let cutoff_date := fst started - DateTime.timedelta lookback_days in
  let logged :=
    log INFO ("Looking for seasons added since " ++ DateTime.str cutoff_date)
      (snd started) in
  let fetched := get_recently_added_func "season" 100 (snd logged) in
  let season_items := filter is_season_item (fst fetched) in
  (forall records,
      fst (run s) = Ok records ->
      subsequence (map rating_key records)
        (map (get_or_none "rating_key") season_items)
      /\ (List.length records <= List.length season_items)%nat)
  /\ (season_items = [] -> fst (run s) = Ok []).
Proof.
  intros started cutoff_date logged fetched season_items.
  pose proof (run_is_survivors s) as R. cbn zeta in R.
  fold started cutoff_date logged fetched season_items in R.
  split.
  - intros records E. rewrite R in E.
    pose proof (survivors_subsequence cutoff_date season_items (snd fetched)
                  records E) as S.
    split; [exact S|].
    apply subsequence_length in S. rewrite !length_map in S. exact S.
  - intros E. rewrite R, E. reflexivity.
Qed.

(** X13.  Every record [get_new_finished_seasons] returns was built from
    a fetched item whose media type is season, whose [rating_key] and
    [grandparent_rating_key] are there and whose [added_at] is a number
    of a time not before the cutoff; the record's [added_at] is that
    time in ISO form, its titles and keys are the item's, and its episode
    count is not negative. *)
Theorem every_record_is_recent_and_keyed (s : state)
    (records : list NewFinishedSeason) (record : NewFinishedSeason) :
  let started := datetime_now s in
  let cutoff_date := fst started - DateTime.timedelta lookback_days in
  let logged :=
    log INFO ("Looking for seasons added since " ++ DateTime.str cutoff_date)
      (snd started) in
  let fetched := get_recently_added_func "season" 100 (snd logged) in
  fst (run s) = Ok records ->
  In record records ->
  exists item n t,
    In item (fst fetched)
    /\ get "media_type" item = Some (VStr "season")
    /\ truthy (get_or_none "rating_key" item) = true
    /\ truthy (get_or_none "grandparent_rating_key" item) = true
    /\ Py.int (get_or_none "added_at" item) = Ok n
    /\ fromtimestamp n = Ok t
    /\ cutoff_date <= t
    /\ added_at record = DateTime.isoformat t
    /\ rating_key record = get_or_none "rating_key" item
    /\ show record = get_default "parent_title" (VStr "Unknown") item
    /\ season record = get_default "parent_index" (VInt 0) item
    /\ season_title record = get_default "title" (VStr "Unknown") item
    /\ 0 <= episode_count record.
Proof.
  intros started cutoff_date logged fetched O I.
  pose proof (run_is_survivors s) as R. cbn zeta in R.
  fold started cutoff_date logged fetched in R. rewrite R in O.
  destruct (survivors_in _ _ _ _ _ _ _ _ _ O I) as (item & s0 & s0' & I' & E).
  apply filter_In in I'. destruct I' as [I' S].
  pose proof (proj1 (loop_body_keeps_iff cutoff_date is_new_show_func
                      is_season_finished_func get_show_cover_func
                      get_children_func item s0 S)) as G.
  destruct G as (n & t & s1 & s2 & s3 & Ha & Hi & Ht & Hc & Hg & _ & _ & _ & Hk & _).
  { exists record, s0'. exact E. }
  apply loop_body_inr in E.
  destruct E as (_ & n' & t' & t1 & t2 & t3 & Hi' & Ht' & _ & _ & _ & _ & -> & _).
  rewrite Hi in Hi'. inversion Hi'; subst n'.
  rewrite Ht in Ht'. inversion Ht'; subst t'.
  exists item, n, t. split; [exact I'|].
  split.
  { unfold is_season_item, eq_str, get_or_none, get_default in S.
    destruct (get "media_type" item) as [[| | | |x| |]|]; try discriminate S.
    apply String.eqb_eq in S. rewrite S. reflexivity. }
  repeat (split; [first [assumption|reflexivity]|]).
  cbn [episode_count]. lia.
Qed.

End Run.

End LogicMore.

(** ** A chosen provider at work *)

Section ProviderMore.
Import Logic Spec Config Main SpecMore.
Context `{Runtime}.

Lemma provider_config_signal (c : Config) :
  get "signal_number" (get_provider_config c) = Some (VStr (signal_number c))
  /\ get "signal_recipients" (get_provider_config c)
     = Some (VStr (signal_recipients c))
  /\ get "signal_text_mode" (get_provider_config c)
     = Some (VStr (signal_text_mode c))
  /\ get "signal_include_covers" (get_provider_config c)
     = Some (VBool (signal_include_covers c)).
Proof. repeat split; reflexivity. Qed.

Lemma signal_validate_run (c : Config) (s : state) :
  signal_number c <> EmptyString ->
  signal_recipients c <> EmptyString ->
  SignalCli.validate_config (get_provider_config c) s = (true, s).
Proof.
  intros N R. destruct (provider_config_signal c) as (Gn & Gr & _).
  unfold SignalCli.validate_config. cbn [SignalCli.check_required].
  unfold get_or_none, get_default. rewrite Gn, Gr.
  rewrite (truthy_str _ N), (truthy_str _ R). reflexivity.
Qed.

Lemma signal_validate_refuses (c : Config) (s : state) :
  signal_number c = EmptyString \/ signal_recipients c = EmptyString ->
  fst (SignalCli.validate_config (get_provider_config c) s) = false.
Proof.
  intros E. destruct (provider_config_signal c) as (Gn & Gr & _).
  unfold SignalCli.validate_config. cbn [SignalCli.check_required].
  unfold get_or_none, get_default. rewrite Gn, Gr.
  destruct (truthy (VStr (signal_number c))) eqn:Tn; cbn [negb]; [|reflexivity].
  destruct E as [E | E].
  - rewrite E in Tn. discriminate Tn.
  - rewrite E. reflexivity.
Qed.

(** What the Signal provider builds from the provider config. *)
Lemma signal_payload_of_config (c : Config) (seasons : list NewFinishedSeason)
    (st : state) :
  signal_recipients c <> EmptyString ->
  exists payload,
    fst (SignalCli.build_payload (get_provider_config c) seasons st) = Ok payload
    /\ get "number" payload = Some (VStr (signal_number c))
    /\ get "recipients" payload
       = Some (VList (map VStr (filter SignalCli.nonempty
                                  (map Str.strip
                                     (Str.split (signal_recipients c) ",")))))
    /\ get "text_mode" payload = Some (VStr (signal_text_mode c))
    /\ (exists message, get "message" payload = Some (VStr message))
    /\ match get "base64_attachments" payload with
       | None => True
       | Some (VList (_ :: _)) => signal_include_covers c = true
       | Some _ => False
       end.
Proof.
  intros R. destruct (provider_config_signal c) as (Gn & Gr & Gt & Gc).
  unfold SignalCli.build_payload. st_run.
  unfold SignalCli._parse_recipients, get_default. rewrite Gr.
  rewrite (truthy_str _ R). cbn [negb]. rewrite Gn, Gt, Gc. cbn [truthy].
  destruct (signal_include_covers c); cbn [andb].
  2:{ st_run. eexists. split; [reflexivity|].
      repeat split; try reflexivity. eexists. reflexivity. }
  destruct seasons as [|season rest].
  { st_run. eexists. split; [reflexivity|].
    repeat split; try reflexivity. eexists. reflexivity. }
  st_run.
  match goal with
  | |- context [SignalCli._get_covers_as_base64 ?l ?x] =>
      destruct (SignalCli._get_covers_as_base64 l x) as [[|cover covers] final]
  end; cbn [fst snd]; st_run.
  - eexists. split; [reflexivity|].
    repeat split; try reflexivity. eexists. reflexivity.
  - eexists. split; [reflexivity|].
    repeat split; try reflexivity. eexists. reflexivity.
Qed.

(** X14.  A Signal provider that [get_webhook_provider] hands out always
    builds a payload: the number and the recipients were found not
    empty, nothing was logged, and for every list of seasons
    [build_payload] returns a payload with the configured number and
    text mode, the recipients split at the commas, a message, and
    attachments only when covers are asked for, never an empty list of
    them. *)
Theorem validated_signal_provider_builds (c : Config) (config : dict)
    (s s' : state) :
  get_webhook_provider c s = (Ok (SignalCliProvider config), s') ->
  s' = s
  /\ config = get_provider_config c
  /\ signal_number c <> EmptyString
  /\ signal_recipients c <> EmptyString
  /\ forall (seasons : list NewFinishedSeason) (st : state),
       exists payload,
         fst (build_payload (SignalCliProvider config) seasons st) = Ok payload
         /\ get "number" payload = Some (VStr (signal_number c))
         /\ get "recipients" payload
            = Some (VList (map VStr (filter SignalCli.nonempty
                                       (map Str.strip
                                          (Str.split (signal_recipients c) ",")))))
         /\ get "text_mode" payload = Some (VStr (signal_text_mode c))
         /\ (exists message, get "message" payload = Some (VStr message))
         /\ match get "base64_attachments" payload with
            | None => True
            | Some (VList (_ :: _)) => signal_include_covers c = true
            | Some _ => False
            end.
Proof.
  intros E. unfold get_webhook_provider in E.
  destruct (String.eqb (Str.lower (webhook_mode c)) "signal-cli").
  2:{ destruct (String.eqb (Str.lower (webhook_mode c)) "default"
                || String.eqb (Str.lower (webhook_mode c)) "custom");
        revert E; st_run; intros E; inversion E. }
  revert E. cbn [validate_config]. st_run.
  destruct (String.eqb (signal_number c) EmptyString) eqn:N.
  { apply String.eqb_eq in N.
    rewrite (signal_validate_refuses c s (or_introl N)). cbn [negb].
    intros E. inversion E. }
  destruct (String.eqb (signal_recipients c) EmptyString) eqn:R.
  { apply String.eqb_eq in R.
    rewrite (signal_validate_refuses c s (or_intror R)). cbn [negb].
    intros E. inversion E. }
  apply String.eqb_neq in N, R.
  rewrite (signal_validate_run c s N R). cbn [fst snd negb].
  intros E. inversion E; subst.
  repeat (split; [first [reflexivity|assumption]|]).
  intros seasons st. cbn [build_payload].
  apply signal_payload_of_config, R.
Qed.

(** X15.  The check of the Signal config does not look inside the
    recipients: when the str is not empty but every field between its
    commas is blank, the provider is handed out all the same, and every
    payload it builds has an empty list of recipients. *)
Theorem blank_recipients_pass_validation (c : Config) (s : state) :
  Str.lower (webhook_mode c) = "signal-cli" ->
  signal_number c <> EmptyString ->
  signal_recipients c <> EmptyString ->
  Forall (fun field => Str.strip field = EmptyString)
    (Str.split (signal_recipients c) ",") ->
  get_webhook_provider c s = (Ok (SignalCliProvider (get_provider_config c)), s)
  /\ forall (seasons : list NewFinishedSeason) (st : state),
       exists payload,
         fst (build_payload (SignalCliProvider (get_provider_config c)) seasons st)
         = Ok payload
         /\ get "recipients" payload = Some (VList []).
Proof.
  intros M N R B. split.
  - unfold get_webhook_provider. rewrite M.
    cbn [String.eqb Ascii.eqb Bool.eqb andb validate_config]. st_run.
    rewrite (signal_validate_run c s N R). reflexivity.
  - intros seasons st. cbn [build_payload].
    destruct (signal_payload_of_config c seasons st R)
      as (payload & E & _ & Rc & _).
    exists payload. split; [exact E|]. rewrite Rc. clear - B.
    assert (F : filter SignalCli.nonempty
                  (map Str.strip (Str.split (signal_recipients c) ",")) = []).
    { induction B as [|field fields Bf _ IH]; [reflexivity|].
      cbn [map filter]. rewrite Bf. exact IH. }
    rewrite F. reflexivity.
Qed.

End ProviderMore.

(** ** More on the generic provider and the API *)

Section GenericMore.
Import Logic Spec SpecMore.
Context `{Runtime}.

Lemma replace_absent (old new s : string) :
  old <> EmptyString -> occurs old s = false -> Str.replace s old new = s.
Proof.
  intros N. unfold Str.replace. destruct old as [|o old']; [contradiction|].
  clear N. induction s as [|c s IH]; intros O; [reflexivity|].
  cbn [occurs] in O. apply orb_false_iff in O. destruct O as [O1 O2].
  cbn [Str.replace_from]. rewrite O1. rewrite (IH O2). reflexivity.
Qed.

(** X16.  A payload template in which none of the six tokens occurs is
    taken as it stands: the replacements leave it unchanged, and the
    payload is the decoding of the template itself, the same for every
    list of seasons and every message. *)
Theorem template_without_token_is_verbatim
    (config : dict) (seasons : list NewFinishedSeason)
    (template_str message : string) (s rendered : state) :
  get "webhook_payload_template" config = Some (VStr template_str) ->
  template_str <> EmptyString ->
  Forall (fun token => occurs token template_str = false) tokens ->
  Base.format_message config seasons s = (Ok message, rendered) ->
  (forall now show_list,
      Generic.substitute template_str now config seasons message show_list
      = template_str)
  /\ (forall v,
         Json.loads template_str = Some v ->
         Generic.build_payload config seasons s
         = (Generic.py_dict v, snd (datetime_now rendered))).
Proof.
  intros Ht Hne Hno Hm.
  assert (S : forall now show_list,
             Generic.substitute template_str now config seasons message show_list
             = template_str).
  { intros now show_list. unfold Generic.substitute, tokens in *.
    repeat match goal with
           | F : Forall _ (_ :: _) |- _ => inversion F; subst; clear F
           end.
    repeat match goal with
           | O : occurs ?token template_str = false |- _ =>
               rewrite (replace_absent token _ template_str); [|discriminate|exact O];
               clear O
           end.
    reflexivity. }
  split; [exact S|].
  intros v L. unfold Generic.build_payload, bindR. st_run. rewrite Hm.
  cbn [fst snd]. unfold get_or_none, get_default. rewrite Ht.
  rewrite (truthy_str _ Hne). st_run. rewrite S, L. st_run. reflexivity.
Qed.

End GenericMore.

Section ApiMore.
Import Logic SpecMore Api.
Context `{Runtime}.

Variable request : string -> string -> St (option pyval).
Variable urljoin : string -> string -> result string.
Variable urlencode : dict -> result string.

(** X17.  When the URL of the request is built, [get_recently_added]
    returns a list and [get_metadata] a dict or nothing: the data of the
    answer when they are a list, a dict, and the empty list, nothing,
    for any other answer; without the URL or the key they ask nothing
    and log one error.  When [urljoin] or [urlencode] raises they raise
    the same exception, before any request. *)
Theorem api_answers_are_typed
    (media_type rating_key : string) (count : Z)
    (tautulli_url tautulli_apikey : string) (s : state) :
  let added := get_recently_added request urljoin urlencode media_type count
                 tautulli_url tautulli_apikey s in
  let metadata := get_metadata request urljoin urlencode rating_key tautulli_url
                    tautulli_apikey s in
  let built_added :=
    request_url urljoin urlencode "get_recently_added"
      [("media_type", VStr media_type); ("count", VInt count)]
      tautulli_url tautulli_apikey in
  let built_metadata :=
    request_url urljoin urlencode "get_metadata" [("rating_key", VStr rating_key)]
      tautulli_url tautulli_apikey in
  let refused :=
    {| world := world s;
       records :=
         (records s
            ++ [LogRecord ERROR "tautulli_url or tautulli_apikey not set"])%list |} in
  (tautulli_url = EmptyString \/ tautulli_apikey = EmptyString ->
   added = (Ok [], refused) /\ metadata = (Ok None, refused))
  /\ (tautulli_url <> EmptyString -> tautulli_apikey <> EmptyString ->
      added = match built_added with
              | Raise e => (Raise e, s)
              | Ok url =>
                  let asked := request url "get_recently_added" s in
                  (Ok match fst asked with
                      | Some (VList l) => l
                      | _ => []
                      end, snd asked)
              end
      /\ metadata = match built_metadata with
                    | Raise e => (Raise e, s)
                    | Ok url =>
                        let asked := request url "get_metadata" s in
                        (Ok match fst asked with
                            | Some (VDict d) => Some d
                            | _ => None
                            end, snd asked)
                    end).
Proof.
  intros added metadata built_added built_metadata refused.
  subst added metadata. unfold get_recently_added, get_metadata, bindR.
  split.
  - intros U. st_run.
    rewrite !(make_tautulli_request_unset request urljoin urlencode _ _ _ _ s U).
    split; reflexivity.
  - intros U K. st_run.
    rewrite !(make_tautulli_request_set request urljoin urlencode _ _ _ _ s U K).
    fold built_added built_metadata. split.
    + destruct built_added as [url|e]; [|reflexivity]. cbn [fst snd]. cbv zeta.
      destruct (fst (request url "get_recently_added" s))
        as [[|b|n|f|t|l|d]|]; try reflexivity.
      * destruct b; reflexivity.
      * cbn [truthy]. destruct (n =? 0); reflexivity.
      * destruct f.
      * cbn [truthy]. destruct (String.eqb t EmptyString); reflexivity.
      * destruct l; reflexivity.
      * destruct d; reflexivity.
    + destruct built_metadata as [url|e]; reflexivity.
Qed.

End ApiMore.

(** ** Text through a payload template *)

Section JsonFacts.
Import Logic Spec SpecMore.
Context `{Runtime}.

Lemma scalar_bounds (cp : Z) :
  scalar cp = true -> 0 <= cp < 1114112 /\ ~ (55296 <= cp <= 57343).
Proof.
  unfold scalar. rewrite !andb_true_iff, negb_true_iff, andb_false_iff.
  rewrite !Z.leb_le, Z.ltb_lt, !Z.leb_gt. lia.
Qed.

Lemma code_byte (n : Z) : 0 <= n < 256 -> Str.code (Json.byte n) = n.
Proof.
  intros B. unfold Str.code, Json.byte.
  rewrite nat_ascii_embedding; lia.
Qed.

Lemma hex_value_hex_char (d : Z) :
  0 <= d < 16 -> Json.hex_value (Str.hex_char d) = Some d.
Proof.
  intros B.
  assert (C : d = 0 \/ d = 1 \/ d = 2 \/ d = 3 \/ d = 4 \/ d = 5 \/ d = 6 \/ d = 7
              \/ d = 8 \/ d = 9 \/ d = 10 \/ d = 11 \/ d = 12 \/ d = 13
              \/ d = 14 \/ d = 15) by lia.
  repeat (destruct C as [-> | C]; [reflexivity|]). subst d. reflexivity.
Qed.

Lemma scan_hex4 (acc : string) (hi : option Z) (cp : Z) (rest : string)
    (out : list Json.token) :
  0 <= cp < 65536 ->
  Json.scan (Json.SHex acc hi 4 0) (Str.hex4 cp ++ rest) out
  = match hi with
    | Some h =>
        if Json.is_low cp
        then Json.scan
               (Json.SStr (Str.rev_onto
                             (Json.utf8 (65536 + (h - 55296) * 1024 + (cp - 56320)))
                             acc) None) rest out
        else if Json.is_high cp
        then Json.scan (Json.SStr (Json.flush acc hi) (Some cp)) rest out
        else Json.scan (Json.SStr (Str.rev_onto (Json.utf8 cp) (Json.flush acc hi))
                          None) rest out
    | None =>
        if Json.is_high cp
        then Json.scan (Json.SStr acc (Some cp)) rest out
        else Json.scan (Json.SStr (Str.rev_onto (Json.utf8 cp) acc) None) rest out
    end.
Proof.
  intros B. unfold Str.hex4, Str.hex2. cbn [append Json.scan].
  rewrite !hex_value_hex_char by (apply Z.mod_pos_bound; lia).
  match goal with
  | |- context [Json.is_high ?e] =>
      assert (E : e = cp) by (Z.to_euclidean_division_equations; lia);
      rewrite !E
  end.
  reflexivity.
Qed.

(** A code point of the basic plane that is no surrogate, written as an
    escape, is read back as its bytes. *)
Lemma scan_escape_bmp (acc : string) (cp : Z) (rest : string)
    (out : list Json.token) :
  0 <= cp < 65536 -> Json.is_high cp = false ->
  Json.scan (Json.SStr acc None) (Str.bs ++ "u" ++ Str.hex4 cp ++ rest) out
  = Json.scan (Json.SStr (Str.rev_onto (Json.utf8 cp) acc) None) rest out.
Proof.
  intros B Hh. cbn [Str.bs Str.chr append].
  change (Json.scan (Json.SStr acc None)
            (String (ascii_of_nat 92) (String "u" (Str.hex4 cp ++ rest))) out)
    with (Json.scan (Json.SHex acc None 4 0) (Str.hex4 cp ++ rest) out).
  rewrite scan_hex4 by exact B. rewrite Hh. reflexivity.
Qed.

(** A code point above the basic plane, written as a pair of escapes. *)
Lemma scan_escape_pair (acc : string) (cp : Z) (rest : string)
    (out : list Json.token) :
  65536 <= cp < 1114112 ->
  Json.scan (Json.SStr acc None) (Json.escape_point cp ++ rest) out
  = Json.scan (Json.SStr (Str.rev_onto (Json.utf8 cp) acc) None) rest out.
Proof.
  intros B. unfold Json.escape_point.
  destruct (cp <? 65536) eqn:L; [apply Z.ltb_lt in L; lia|]. cbv zeta.
  set (h := 55296 + (cp - 65536) / 1024).
  set (l := 56320 + (cp - 65536) mod 1024).
  assert (Bh : 55296 <= h <= 56319)
    by (subst h; Z.to_euclidean_division_equations; lia).
  assert (Bl : 56320 <= l <= 57343)
    by (subst l; Z.to_euclidean_division_equations; lia).
  rewrite !append_assoc. cbn [Str.bs Str.chr append].
  change (Json.scan (Json.SStr acc None)
            (String (ascii_of_nat 92)
               (String "u"
                  (Str.hex4 h
                     ++ String (ascii_of_nat 92) (String "u" (Str.hex4 l ++ rest)))))
            out)
    with (Json.scan (Json.SHex acc None 4 0)
            (Str.hex4 h
               ++ String (ascii_of_nat 92) (String "u" (Str.hex4 l ++ rest))) out).
  rewrite scan_hex4 by lia.
  assert (Hh : Json.is_high h = true).
  { unfold Json.is_high. apply andb_true_iff. split; apply Z.leb_le; lia. }
  rewrite Hh.
  change (Json.scan (Json.SStr acc (Some h))
            (String (ascii_of_nat 92) (String "u" (Str.hex4 l ++ rest))) out)
    with (Json.scan (Json.SHex acc (Some h) 4 0) (Str.hex4 l ++ rest) out).
  rewrite scan_hex4 by lia.
  assert (Hl : Json.is_low l = true).
  { unfold Json.is_low. apply andb_true_iff. split; apply Z.leb_le; lia. }
  rewrite Hl. do 3 f_equal. f_equal.
  subst h l. Z.to_euclidean_division_equations. lia.
Qed.

(** An ASCII character as [escape_ascii] writes it is read back. *)
Lemma scan_escape_ascii (c : ascii) (acc rest : string) (out : list Json.token) :
  Str.code c < 128 ->
  Json.scan (Json.SStr acc None) (Json.escape_ascii c ++ rest) out
  = Json.scan (Json.SStr (String c acc) None) rest out.
Proof.
  destruct c as [[] [] [] [] [] [] [] []]; intros B;
    first [reflexivity | exfalso; vm_compute in B; discriminate B].
Qed.

Lemma escape_ascii_brace (c : ascii) :
  Str.contains_char "{" (Json.escape_ascii c) = Ascii.eqb c "{".
Proof. destruct c as [[] [] [] [] [] [] [] []]; reflexivity. Qed.

Lemma hex_char_brace (d : Z) :
  0 <= d < 16 -> Ascii.eqb (Str.hex_char d) "{" = false.
Proof.
  intros B.
  assert (C : d = 0 \/ d = 1 \/ d = 2 \/ d = 3 \/ d = 4 \/ d = 5 \/ d = 6 \/ d = 7
              \/ d = 8 \/ d = 9 \/ d = 10 \/ d = 11 \/ d = 12 \/ d = 13
              \/ d = 14 \/ d = 15) by lia.
  repeat (destruct C as [-> | C]; [reflexivity|]). subst d. reflexivity.
Qed.

Lemma hex4_brace (n : Z) : Str.contains_char "{" (Str.hex4 n) = false.
Proof.
  unfold Str.hex4, Str.hex2. cbn [append Str.contains_char].
  rewrite !hex_char_brace by (apply Z.mod_pos_bound; lia). reflexivity.
Qed.

Lemma escape_point_brace (cp : Z) :
  Str.contains_char "{" (Json.escape_point cp) = false.
Proof.
  unfold Json.escape_point. destruct (cp <? 65536); cbv zeta;
    rewrite !contains_char_append, !hex4_brace; reflexivity.
Qed.

Lemma escape_utf8 (cp : Z) (rest : string) :
  scalar cp = true ->
  Json.escape (Json.utf8 cp ++ rest) O 0 = escape_cp cp ++ Json.escape rest O 0.
Proof.
  intros S. apply scalar_bounds in S. destruct S as [B N].
  unfold Json.utf8, escape_cp.
  destruct (cp <? 128) eqn:L1.
  { apply Z.ltb_lt in L1. cbn [append Json.escape].
    rewrite code_byte by lia. apply Z.ltb_lt in L1. rewrite L1. reflexivity. }
  apply Z.ltb_ge in L1.
  destruct (cp <? 2048) eqn:L2.
  { apply Z.ltb_lt in L2. cbn [append Json.escape].
    rewrite !code_byte by (Z.to_euclidean_division_equations; lia).
    destruct (192 + cp / 64 <? 128) eqn:A;
      [apply Z.ltb_lt in A; Z.to_euclidean_division_equations; lia|].
    destruct (192 + cp / 64 <? 224) eqn:A2;
      [|apply Z.ltb_ge in A2; Z.to_euclidean_division_equations; lia].
    f_equal. f_equal. Z.to_euclidean_division_equations. lia. }
  apply Z.ltb_ge in L2.
  destruct (cp <? 65536) eqn:L3.
  { apply Z.ltb_lt in L3. cbn [append Json.escape].
    rewrite !code_byte by (Z.to_euclidean_division_equations; lia).
    destruct (224 + cp / 4096 <? 128) eqn:A;
      [apply Z.ltb_lt in A; Z.to_euclidean_division_equations; lia|].
    destruct (224 + cp / 4096 <? 224) eqn:A2;
      [apply Z.ltb_lt in A2; Z.to_euclidean_division_equations; lia|].
    destruct (224 + cp / 4096 <? 240) eqn:A3;
      [|apply Z.ltb_ge in A3; Z.to_euclidean_division_equations; lia].
    f_equal. f_equal. Z.to_euclidean_division_equations. lia. }
  apply Z.ltb_ge in L3. cbn [append Json.escape].
  rewrite !code_byte by (Z.to_euclidean_division_equations; lia).
  destruct (240 + cp / 262144 <? 128) eqn:A;
    [apply Z.ltb_lt in A; Z.to_euclidean_division_equations; lia|].
  destruct (240 + cp / 262144 <? 224) eqn:A2;
    [apply Z.ltb_lt in A2; Z.to_euclidean_division_equations; lia|].
  destruct (240 + cp / 262144 <? 240) eqn:A3;
    [apply Z.ltb_lt in A3; Z.to_euclidean_division_equations; lia|].
  f_equal. f_equal. Z.to_euclidean_division_equations. lia.
Qed.

Lemma rev_onto_app (a b acc : string) :
  Str.rev_onto (a ++ b) acc = Str.rev_onto b (Str.rev_onto a acc).
Proof.
  revert acc. induction a as [|c a IH]; intros acc; [reflexivity|].
  cbn [append Str.rev_onto]. apply IH.
Qed.

Lemma scan_escape_cp (cp : Z) (acc rest : string) (out : list Json.token) :
  scalar cp = true ->
  Json.scan (Json.SStr acc None) (escape_cp cp ++ rest) out
  = Json.scan (Json.SStr (Str.rev_onto (Json.utf8 cp) acc) None) rest out.
Proof.
  intros S. apply scalar_bounds in S. destruct S as [B N].
  unfold escape_cp. destruct (cp <? 128) eqn:L1.
  - apply Z.ltb_lt in L1. rewrite scan_escape_ascii by (rewrite code_byte; lia).
    unfold Json.utf8. apply Z.ltb_lt in L1. rewrite L1. reflexivity.
  - apply Z.ltb_ge in L1. destruct (cp <? 65536) eqn:L3.
    + apply Z.ltb_lt in L3. unfold Json.escape_point.
      apply Z.ltb_lt in L3. rewrite L3. apply Z.ltb_lt in L3.
      rewrite !append_assoc. apply scan_escape_bmp; [lia|].
      unfold Json.is_high. apply andb_false_iff.
      destruct (55296 <=? cp) eqn:A; [right|left; reflexivity].
      apply Z.leb_le in A. apply Z.leb_gt. lia.
    + apply Z.ltb_ge in L3. apply scan_escape_pair. lia.
Qed.

(** The body of a JSON string, as [dumps] writes it for a text, is read
    back as the text. *)
Lemma scan_encoded (cps : list Z) :
  Forall (fun cp => scalar cp = true) cps ->
  forall (acc rest : string) (out : list Json.token),
    Json.scan (Json.SStr acc None)
      (Json.escape (encode cps) O 0 ++ String (ascii_of_nat 34) rest) out
    = Json.scan Json.STop rest
        (Json.TAtom (VStr (Str.rev (Str.rev_onto (encode cps) acc))) :: out).
Proof.
  induction 1 as [|cp r S _ IH]; intros acc rest out.
  - reflexivity.
  - cbn [encode]. rewrite (escape_utf8 cp _ S). rewrite append_assoc.
    rewrite (scan_escape_cp cp _ _ _ S). rewrite IH. rewrite rev_onto_app.
    reflexivity.
Qed.

Lemma escape_encoded_brace (cps : list Z) :
  Forall (fun cp => scalar cp = true) cps ->
  Str.contains_char "{" (encode cps) = false ->
  Str.contains_char "{" (Json.escape (encode cps) O 0) = false.
Proof.
  induction 1 as [|cp r S _ IH]; intros C; [reflexivity|].
  cbn [encode] in *. rewrite (escape_utf8 cp _ S).
  rewrite contains_char_append in *. apply orb_false_iff in C.
  destruct C as [C1 C2]. rewrite (IH C2), orb_false_r.
  unfold escape_cp. destruct (cp <? 128) eqn:L.
  - rewrite escape_ascii_brace. unfold Json.utf8 in C1. rewrite L in C1.
    cbn [Str.contains_char] in C1. rewrite orb_false_r in C1. exact C1.
  - apply escape_point_brace.
Qed.

(** A text without an opening brace holds no token. *)
Lemma replace_no_brace (old new s : string) :
  Str.startswith "{" old = true ->
  Str.contains_char "{" s = false ->
  Str.replace s old new = s.
Proof.
  intros O. unfold Str.replace. destruct old as [|o old']; [discriminate O|].
  cbn [Str.startswith] in O. apply andb_true_iff in O. destruct O as [O _].
  apply Ascii.eqb_eq in O. subst o.
  induction s as [|c s IH]; intros C; [reflexivity|].
  cbn [Str.contains_char] in C. apply orb_false_iff in C. destruct C as [C1 C2].
  cbn [Str.replace_from Str.startswith]. rewrite Ascii.eqb_sym, C1. cbn [andb].
  rewrite (IH C2). reflexivity.
Qed.

Lemma loads_message (cps : list Z) :
  Forall (fun cp => scalar cp = true) cps ->
  Json.loads ("{" ++ Str.dq ++ "message" ++ Str.dq ++ ": "
                ++ Json.dumps (VStr (encode cps)) ++ "}")
  = Some (VDict [("message", VStr (encode cps))]).
Proof.
  intros S. unfold Json.loads. cbn [Json.dumps]. unfold Json.dumps_str.
  rewrite !append_assoc.
  cbn [Str.dq Str.chr append].
  match goal with
  | |- context [Json.scan Json.STop ?s []] =>
      change (Json.scan Json.STop s [])
        with (Json.scan (Json.SStr EmptyString None)
                (Json.escape (encode cps) O 0 ++ String (ascii_of_nat 34) "}")
                [Json.TColon; Json.TAtom (VStr "message"); Json.TLBrace])
  end.
  rewrite (scan_encoded cps S).
  change (Str.rev_onto (encode cps) EmptyString) with (Str.rev (encode cps)).
  rewrite rev_rev. reflexivity.
Qed.

(** The replacements on the template whose only member is the message. *)
Lemma substitute_message (cps : list Z) (now : DateTime.datetime) (config : dict)
    (seasons : list Logic.NewFinishedSeason) (show_list : string) :
  Forall (fun cp => scalar cp = true) cps ->
  Str.contains_char "{" (encode cps) = false ->
  Generic.substitute message_only_template now config seasons (encode cps) show_list
  = "{" ++ Str.dq ++ "message" ++ Str.dq ++ ": "
      ++ Json.dumps (VStr (encode cps)) ++ "}".
Proof.
  intros S C. unfold Generic.substitute.
  generalize (Json.dumps (VStr (DateTime.isoformat now))).
  generalize (Json.dumps (get_default "lookback_days" (VInt 7) config)).
  generalize (Json.dumps (VInt (Z.of_nat (List.length seasons)))).
  generalize (Json.dumps (VStr show_list)).
  generalize (Json.dumps (Generic.seasons_value seasons)).
  intros j_seasons j_list j_count j_days j_time.
  change (Str.replace message_only_template "{timestamp}" j_time) with message_only_template.
  change (Str.replace message_only_template "{period_days}" j_days) with message_only_template.
  change (Str.replace message_only_template "{season_count}" j_count)
    with message_only_template.
  set (encoded := Json.dumps (VStr (encode cps))).
  change (Str.replace message_only_template "{message}" encoded)
    with (String "{" (Str.dq ++ "message" ++ Str.dq ++ ": " ++ encoded ++ "}")).
  assert (B : Str.contains_char "{"
                (Str.dq ++ "message" ++ Str.dq ++ ": " ++ encoded ++ "}") = false).
  { rewrite !contains_char_append. subst encoded. cbn [Json.dumps].
    unfold Json.dumps_str. rewrite !contains_char_append.
    rewrite (escape_encoded_brace cps S C). reflexivity. }
  assert (R : forall old new,
             Str.startswith (String "{" (String "s" EmptyString)) old = true ->
             Str.replace
               (String "{" (Str.dq ++ "message" ++ Str.dq ++ ": " ++ encoded ++ "}"))
               old new
             = String "{" (Str.dq ++ "message" ++ Str.dq ++ ": " ++ encoded ++ "}")).
  { intros old new O.
    destruct old as [|o [|o2 old']]; cbn [Str.startswith] in O;
      try rewrite andb_false_r in O; try discriminate O.
    apply andb_true_iff in O. destruct O as [O1 O].
    apply andb_true_iff in O. destruct O as [O2 _].
    apply Ascii.eqb_eq in O1, O2. subst o o2.
    pose proof (replace_no_brace (String "{" (String "s" old')) new _ eq_refl B) as N.
    unfold Str.replace in *. cbn [Str.replace_from].
    change (Str.startswith (String "{" (String "s" old'))
              (String "{" (Str.dq ++ "message" ++ Str.dq ++ ": " ++ encoded ++ "}")))
      with false.
    rewrite N. reflexivity. }
  rewrite (R "{show_list}" j_list eq_refl). rewrite (R "{seasons}" j_seasons eq_refl).
  reflexivity.
Qed.


(** X18.  With the template whose only member is the message, the
    payload holds the message as it is, whatever characters it is made
    of: quotes, backslashes, line feeds, control characters and
    characters outside ASCII go through the encoding and the decoding
    unchanged.  The message is any text without an opening brace. *)
Theorem message_template_round_trips
    (config : dict) (seasons : list NewFinishedSeason) (cps : list Z)
    (s rendered : state) :
  get "webhook_payload_template" config = Some (VStr message_only_template) ->
  forallb scalar cps = true ->
  Str.contains_char "{" (encode cps) = false ->
  Base.format_message config seasons s = (Ok (encode cps), rendered) ->
  Generic.build_payload config seasons s
  = (Ok [("message", VStr (encode cps))], snd (datetime_now rendered)).
Proof.
  intros Ht Hs Hb Hm.
  assert (S : Forall (fun cp => scalar cp = true) cps).
  { apply Forall_forall. intros cp I. exact (proj1 (forallb_forall _ _) Hs cp I). }
  unfold Generic.build_payload, bindR. st_run. rewrite Hm. cbn [fst snd].
  unfold get_or_none, get_default. rewrite Ht.
  change (truthy (VStr message_only_template)) with true. cbv iota. st_run.
  rewrite (substitute_message cps _ _ _ _ S Hb).
  rewrite (loads_message cps S). st_run. reflexivity.
Qed.

End JsonFacts.

(** ** Values through a payload template *)

Section JsonValues.
Import Logic Spec SpecMore.

Lemma digit_char_cases (d : Z) :
  0 <= d < 10 ->
  d = 0 \/ d = 1 \/ d = 2 \/ d = 3 \/ d = 4 \/ d = 5 \/ d = 6 \/ d = 7 \/ d = 8
  \/ d = 9.
Proof. lia. Qed.

Lemma digit_char_facts (d : Z) :
  0 <= d < 10 ->
  Json.is_digit (Str.digit_char d) = true
  /\ Str.code (Str.digit_char d) - 48 = d
  /\ Json.ends_word (Str.digit_char d) = false
  /\ (Ascii.eqb (Str.digit_char d) "0" = true <-> d = 0)
  /\ Ascii.eqb (Str.digit_char d) "-" = false.
Proof.
  intros B. apply digit_char_cases in B.
  repeat (destruct B as [-> | B];
          [repeat split; try reflexivity; try (intros X; discriminate X);
           try (intros X; exfalso; lia)|]).
  subst d. repeat split; try reflexivity; try (intros X; discriminate X).
Qed.

Lemma digits_fuel_digits (fuel : nat) :
  forall (n : Z) (acc : string),
    all_chars Json.is_digit acc = true ->
    all_chars Json.is_digit (Str.digits_fuel fuel n acc) = true.
Proof.
  induction fuel as [|k IH]; intros n acc A; [exact A|].
  cbn [Str.digits_fuel]. cbv zeta.
  assert (A' : all_chars Json.is_digit (String (Str.digit_char (n mod 10)) acc) = true).
  { cbn [all_chars]. rewrite A.
    rewrite (proj1 (digit_char_facts (n mod 10) (Z.mod_pos_bound n 10 eq_refl))).
    reflexivity. }
  destruct (n <? 10); [exact A'|]. apply IH, A'.
Qed.

Lemma digits_value_fuel (k : nat) :
  forall (n : Z) (acc : string),
    0 <= n < 2 ^ Z.of_nat (S k) ->
    exists m, forall a,
      Json.digits_value (Str.digits_fuel (S k) n acc) a
      = Json.digits_value acc (a * m + n).
Proof.
  induction k as [|k IH]; intros n acc B.
  - exists 10. intros a. cbn [Str.digits_fuel]. cbv zeta.
    change (2 ^ Z.of_nat 1) with 2 in B.
    destruct (n <? 10) eqn:L; [|apply Z.ltb_ge in L; lia].
    cbn [Json.digits_value].
    destruct (digit_char_facts (n mod 10) (Z.mod_pos_bound n 10 eq_refl))
      as (D1 & D2 & _).
    rewrite D1, D2. f_equal. rewrite Z.mod_small by lia. reflexivity.
  - cbn [Str.digits_fuel]. cbv zeta.
    destruct (digit_char_facts (n mod 10) (Z.mod_pos_bound n 10 eq_refl))
      as (D1 & D2 & _).
    destruct (n <? 10) eqn:L.
    + apply Z.ltb_lt in L. exists 10. intros a. cbn [Json.digits_value].
      rewrite D1, D2. f_equal. rewrite Z.mod_small by lia. reflexivity.
    + apply Z.ltb_ge in L.
      destruct (IH (n / 10) (String (Str.digit_char (n mod 10)) acc)) as [m E].
      { rewrite Nat2Z.inj_succ in B. rewrite Z.pow_succ_r in B by lia.
        split; [apply Z.div_pos; lia|].
        apply Z.div_lt_upper_bound; lia. }
      exists (10 * m). intros a.
      change (Str.digits_fuel (S k) (n / 10) (String (Str.digit_char (n mod 10)) acc))
        with (Str.digits_fuel (S k) (n / 10) (String (Str.digit_char (n mod 10)) acc)).
      rewrite E. cbn [Json.digits_value]. rewrite D1, D2. f_equal.
      pose proof (Z.div_mod n 10). lia.
Qed.

Lemma fuel_enough (n : Z) :
  0 <= n -> n < 2 ^ Z.of_nat (S (Z.to_nat (Z.log2 n))).
Proof.
  intros B. rewrite Nat2Z.inj_succ, Z2Nat.id by apply Z.log2_nonneg.
  destruct (Z.eq_dec n 0) as [-> | N]; [reflexivity|].
  apply Z.log2_spec. lia.
Qed.

Lemma digits_value_of_nonneg (n : Z) :
  0 <= n -> Json.digits_value (Str.of_nonneg n) 0 = n.
Proof.
  intros B. unfold Str.of_nonneg.
  destruct (digits_value_fuel (Z.to_nat (Z.log2 n)) n EmptyString) as [m E].
  { split; [exact B|apply fuel_enough, B]. }
  rewrite E. reflexivity.
Qed.

(** The first digit of a positive number is not 0. *)
Lemma digits_fuel_head (k : nat) :
  forall (n : Z) (acc : string),
    0 < n < 2 ^ Z.of_nat (S k) ->
    exists d t, 1 <= d <= 9 /\ Str.digits_fuel (S k) n acc = String (Str.digit_char d) t.
Proof.
  induction k as [|k IH]; intros n acc B.
  - change (2 ^ Z.of_nat 1) with 2 in B. cbn [Str.digits_fuel]. cbv zeta.
    destruct (n <? 10) eqn:L; [|apply Z.ltb_ge in L; lia].
    exists (n mod 10), acc. split; [rewrite Z.mod_small; lia|reflexivity].
  - cbn [Str.digits_fuel]. cbv zeta. destruct (n <? 10) eqn:L.
    + apply Z.ltb_lt in L. exists (n mod 10), acc.
      split; [rewrite Z.mod_small; lia|reflexivity].
    + apply Z.ltb_ge in L. apply IH.
      rewrite Nat2Z.inj_succ in B. rewrite Z.pow_succ_r in B by lia.
      split; [apply Z.div_str_pos; lia|].
      apply Z.div_lt_upper_bound; lia.
Qed.

Lemma skip_all_digits (s : string) :
  all_chars Json.is_digit s = true -> Json.skip_digits s = EmptyString.
Proof.
  induction s as [|c s IH]; intros A; [reflexivity|].
  cbn [all_chars] in A. apply andb_true_iff in A. destruct A as [A1 A2].
  cbn [Json.skip_digits]. rewrite A1. apply IH, A2.
Qed.

Lemma number_of_nonneg (n : Z) :
  0 <= n ->
  exists c t, Str.of_nonneg n = String c t
              /\ Json.is_digit c = true
              /\ Json.int_part (Str.of_nonneg n) = Some EmptyString.
Proof.
  intros B.
  pose proof (digits_fuel_digits (S (Z.to_nat (Z.log2 n))) n EmptyString eq_refl) as A.
  fold (Str.of_nonneg n) in A.
  destruct (Z.eq_dec n 0) as [-> | N].
  { exists "0"%char, EmptyString. repeat split; reflexivity. }
  destruct (digits_fuel_head (Z.to_nat (Z.log2 n)) n EmptyString) as (d & t & D & E).
  { split; [lia|apply fuel_enough, B]. }
  fold (Str.of_nonneg n) in E. rewrite E in *.
  cbn [all_chars] in A. apply andb_true_iff in A. destruct A as [A1 A2].
  exists (Str.digit_char d), t. split; [reflexivity|]. split; [exact A1|].
  cbn [Json.int_part].
  destruct (digit_char_facts d) as (_ & _ & _ & Z0 & _); [lia|].
  destruct (Ascii.eqb (Str.digit_char d) "0") eqn:X.
  { destruct Z0 as [Z0 _]. specialize (Z0 eq_refl). lia. }
  rewrite A1, (skip_all_digits t A2). reflexivity.
Qed.

Lemma atom_of_Z (n : Z) : Json.atom (Str.of_Z n) = Some (VInt n).
Proof.
  unfold Str.of_Z. destruct (n <? 0) eqn:L.
  - apply Z.ltb_lt in L.
    destruct (number_of_nonneg (- n)) as (c & t & E & D & I); [lia|].
    unfold Json.atom.
    assert (X : forall w, String.eqb ("-" ++ Str.of_nonneg (- n)) w = true ->
                          exists c' t', w = String "-" (String c' t')
                                        /\ Json.is_digit c' = true).
    { intros w Q. apply String.eqb_eq in Q. subst w. rewrite E.
      exists c, t. split; [reflexivity|exact D]. }
    repeat match goal with
           | |- context [String.eqb ("-" ++ Str.of_nonneg (- n)) ?w] =>
               let Q := fresh "Q" in
               destruct (String.eqb ("-" ++ Str.of_nonneg (- n)) w) eqn:Q;
               [apply X in Q; destruct Q as (c' & t' & Q & Q');
                inversion Q; subst c'; discriminate Q'|]
           end.
    unfold Json.number. cbn [append]. rewrite I. cbn [Json.frac_part Json.exp_part orb].
    rewrite digits_value_of_nonneg by lia. f_equal. f_equal. lia.
  - apply Z.ltb_ge in L.
    destruct (number_of_nonneg n L) as (c & t & E & D & I).
    unfold Json.atom.
    assert (X : forall w, String.eqb (Str.of_nonneg n) w = true ->
                          exists c' t', w = String c' t' /\ Json.is_digit c' = true).
    { intros w Q. apply String.eqb_eq in Q. subst w. rewrite E.
      exists c, t. split; [reflexivity|exact D]. }
    repeat match goal with
           | |- context [String.eqb (Str.of_nonneg n) ?w] =>
               let Q := fresh "Q" in
               destruct (String.eqb (Str.of_nonneg n) w) eqn:Q;
               [apply X in Q; destruct Q as (c' & t' & Q & Q');
                inversion Q; subst c'; discriminate Q'|]
           end.
    unfold Json.number.
    assert (M : match Str.of_nonneg n with
                | String "-" r => (true, r)
                | _ => (false, Str.of_nonneg n)
                end = (false, Str.of_nonneg n)).
    { rewrite E. destruct c as [[] [] [] [] [] [] [] []]; try reflexivity.
      discriminate D. }
    rewrite M. rewrite I. cbn [Json.frac_part Json.exp_part orb].
    rewrite digits_value_of_nonneg by lia. reflexivity.
Qed.

(** Induction on values, through lists and dicts. *)
Lemma value_induction (P : pyval -> Prop) :
  P VNone ->
  (forall b, P (VBool b)) ->
  (forall n, P (VInt n)) ->
  (forall s, P (VStr s)) ->
  (forall l, Forall P l -> P (VList l)) ->
  (forall d, Forall (fun kv => P (snd kv)) d -> P (VDict d)) ->
  forall v, P v.
Proof.
  intros HN HB HI HS HL HD. fix IH 1. intros v.
  destruct v as [|b|n|f|s|l|d].
  - exact HN.
  - apply HB.
  - apply HI.
  - destruct f.
  - apply HS.
  - apply HL. induction l as [|x r IHl]; constructor; [apply IH|exact IHl].
  - apply HD. induction d as [|[k x] r IHd]; constructor; [apply IH|exact IHd].
Qed.

Lemma is_digit_not_end (c : ascii) :
  Json.is_digit c = true -> Json.ends_word c = false.
Proof.
  destruct c as [[] [] [] [] [] [] [] []]; intros D;
    first [reflexivity | discriminate D].
Qed.

Lemma scan_word_acc (w : string) :
  forall (acc rest : string) (out : list Json.token),
    all_chars (fun c => negb (Json.ends_word c)) w = true ->
    Json.scan (Json.SWord acc) (w ++ rest) out
    = Json.scan (Json.SWord (Str.rev_onto w acc)) rest out.
Proof.
  induction w as [|c w IH]; intros acc rest out A; [reflexivity|].
  cbn [all_chars] in A. apply andb_true_iff in A. destruct A as [A1 A2].
  apply negb_true_iff in A1. cbn [append Json.scan]. rewrite A1.
  cbn [Str.rev_onto]. apply IH, A2.
Qed.

Lemma scan_word_end (acc rest : string) (out : list Json.token) :
  closes rest = true ->
  Json.scan (Json.SWord acc) rest out
  = match Json.atom (Str.rev acc) with
    | Some v => Json.scan Json.STop rest (Json.TAtom v :: out)
    | None => None
    end.
Proof.
  intros C. destruct rest as [|c r]; cbn [Json.scan].
  - destruct (Json.atom (Str.rev acc)); reflexivity.
  - cbn [closes] in C. rewrite C. destruct (Json.atom (Str.rev acc)); reflexivity.
Qed.

(** A bare word is read as its atom. *)
Lemma scan_atom (c : ascii) (w rest : string) (out : list Json.token)
    (v : jvalue) :
  all_chars (fun c => negb (Json.ends_word c)) (String c w) = true ->
  closes rest = true ->
  Json.atom (String c w) = Some v ->
  Json.scan Json.STop (String c w ++ rest) out
  = Json.scan Json.STop rest (Json.TAtom v :: out).
Proof.
  intros A C V. cbn [append Json.scan].
  pose proof A as A'. cbn [all_chars] in A'. apply andb_true_iff in A'.
  destruct A' as [A1 A2]. apply negb_true_iff in A1.
  assert (T : Json.scan_top c out = (Json.SWord (String c EmptyString), out)).
  { unfold Json.ends_word in A1. unfold Json.scan_top.
    apply orb_false_iff in A1. destruct A1 as [A1 A3].
    apply orb_false_iff in A1. destruct A1 as [A1 A4].
    rewrite A1, A4. destruct (Json.structural c); [discriminate A3|reflexivity]. }
  rewrite T. rewrite (scan_word_acc w _ _ _ A2). rewrite (scan_word_end _ _ _ C).
  change (Str.rev_onto w (String c EmptyString))
    with (Str.rev_onto (String c w) EmptyString).
  change (Str.rev (Str.rev_onto (String c w) EmptyString))
    with (Str.rev (Str.rev (String c w))).
  rewrite rev_rev, V. reflexivity.
Qed.

Lemma all_chars_weaken (p q : ascii -> bool) (s : string) :
  (forall c, p c = true -> q c = true) ->
  all_chars p s = true -> all_chars q s = true.
Proof.
  intros I. induction s as [|c s IH]; intros A; [reflexivity|].
  cbn [all_chars] in *. apply andb_true_iff in A. destruct A as [A1 A2].
  rewrite (I c A1), (IH A2). reflexivity.
Qed.

Lemma of_Z_word (n : Z) :
  exists c w, Str.of_Z n = String c w
              /\ all_chars (fun c => negb (Json.ends_word c)) (String c w) = true.
Proof.
  assert (D : forall m, 0 <= m ->
                all_chars (fun c => negb (Json.ends_word c)) (Str.of_nonneg m) = true).
  { intros m B. apply (all_chars_weaken Json.is_digit).
    - intros c X. rewrite (is_digit_not_end c X). reflexivity.
    - apply (digits_fuel_digits _ m EmptyString eq_refl). }
  unfold Str.of_Z. destruct (n <? 0) eqn:L.
  - apply Z.ltb_lt in L. exists "-"%char, (Str.of_nonneg (- n)).
    split; [reflexivity|]. cbn [all_chars]. rewrite D by lia. reflexivity.
  - apply Z.ltb_ge in L. destruct (number_of_nonneg n L) as (c & w & E & _).
    exists c, w. split; [exact E|]. rewrite <- E. apply D, L.
Qed.

Lemma scan_of_Z (n : Z) (rest : string) (out : list Json.token) :
  closes rest = true ->
  Json.scan Json.STop (Str.of_Z n ++ rest) out
  = Json.scan Json.STop rest (Json.TAtom (VInt n) :: out).
Proof.
  intros C. destruct (of_Z_word n) as (c & w & E & A).
  pose proof (atom_of_Z n) as V. rewrite E in *.
  apply scan_atom; assumption.
Qed.

(** A str is read back as it was written. *)
Lemma scan_dumps_str (s rest : string) (out : list Json.token) :
  text s ->
  Json.scan Json.STop (Json.dumps_str s ++ rest) out
  = Json.scan Json.STop rest (Json.TAtom (VStr s) :: out).
Proof.
  intros (cps & S & ->). unfold Json.dumps_str.
  rewrite !append_assoc. cbn [Str.dq Str.chr append].
  change (Json.scan Json.STop
            (String (ascii_of_nat 34)
               (Json.escape (encode cps) O 0 ++ String (ascii_of_nat 34) rest)) out)
    with (Json.scan (Json.SStr EmptyString None)
            (Json.escape (encode cps) O 0 ++ String (ascii_of_nat 34) rest) out).
  rewrite scan_encoded.
  - change (Str.rev_onto (encode cps) EmptyString) with (Str.rev (encode cps)).
    rewrite rev_rev. reflexivity.
  - apply Forall_forall. intros cp I. exact (proj1 (forallb_forall _ _) S cp I).
Qed.

(** Texts between commas, up to a closing character. *)
Lemma scan_separated (close_char : ascii) (close : Json.token)
    (items : list (string * list Json.token)) :
  (forall rest out,
      Json.scan Json.STop (String close_char rest) out
      = Json.scan Json.STop rest (close :: out)) ->
  Json.ends_word close_char = true ->
  Forall (fun item =>
            forall rest out,
              closes rest = true ->
              Json.scan Json.STop (fst item ++ rest) out
              = Json.scan Json.STop rest (List.rev (snd item) ++ out)%list) items ->
  forall (rest : string) (out : list Json.token),
    Json.scan Json.STop
      (Str.join ", " (map fst items) ++ String close_char rest) out
    = Json.scan Json.STop rest
        (List.rev (separated close (map snd items)) ++ out)%list.
Proof.
  intros Hc He. induction 1 as [|[text toks] r Px _ IH]; intros rest out.
  - cbn [map Str.join append separated List.rev app]. apply Hc.
  - cbn [fst snd] in Px. destruct r as [|y r].
    + cbn [map Str.join fst snd separated]. rewrite Px by exact He.
      rewrite Hc. rewrite rev_app_distr. reflexivity.
    + change (Str.join ", " (map fst ((text, toks) :: y :: r)))
        with (text ++ ", " ++ Str.join ", " (map fst (y :: r))).
      rewrite !append_assoc. rewrite Px by reflexivity.
      cbn [append].
      change (Json.scan Json.STop
                (String "," (String " "
                   (Str.join ", " (map fst (y :: r)) ++ String close_char rest)))
                (List.rev toks ++ out)%list)
        with (Json.scan Json.STop
                (Str.join ", " (map fst (y :: r)) ++ String close_char rest)
                (Json.TComma :: List.rev toks ++ out)%list).
      rewrite IH. cbn [map snd separated]. rewrite (rev_app_distr toks).
      cbn [List.rev]. rewrite <- !app_assoc. reflexivity.
Qed.

Lemma dumps_dict (d : list (string * pyval)) :
  Json.dumps (VDict d)
  = "{" ++ Str.join ", "
             (map (fun '(k, x) => Json.dumps_str k ++ ": " ++ Json.dumps x) d)
        ++ "}".
Proof.
  cbn [Json.dumps].
  match goal with
  | |- context [Str.join ", " (?f d)] =>
      assert (M : f d
                  = map (fun '(k, x) => Json.dumps_str k ++ ": " ++ Json.dumps x) d)
        by (clear; induction d as [|[k x] r IH]; [reflexivity|];
            cbn [map]; f_equal; exact IH);
      rewrite M
  end.
  reflexivity.
Qed.

Lemma lift_dict (d : list (string * pyval)) :
  Json.lift (VDict d) = VDict (map (fun '(k, x) => (k, Json.lift x)) d).
Proof.
  cbn [Json.lift]. f_equal.
  induction d as [|[k x] r IH]; [reflexivity|]. cbn [map]. f_equal. exact IH.
Qed.

Lemma wf_list (l : list pyval) : wf (VList l) -> Forall wf l.
Proof.
  cbn [wf]. induction l as [|x r IH]; intros W; constructor.
  - apply W.
  - apply IH, W.
Qed.

Lemma wf_dict (d : list (string * pyval)) :
  wf (VDict d) ->
  NoDup (map fst d) /\ Forall (fun kv => text (fst kv) /\ wf (snd kv)) d.
Proof.
  cbn [wf]. intros [N W]. split; [exact N|]. clear N.
  induction d as [|[k x] r IH]; constructor.
  - cbn [fst snd]. split; apply W.
  - apply IH, W.
Qed.

(** The text of a well-formed value is read as its tokens. *)
Lemma scan_dumps (v : pyval) : wf v -> scans v.
Proof.
  induction v as [|b|n|s|l IH|d IH] using value_induction; intros W rest out C.
  - apply (scan_atom "n" "ull"); [reflexivity|exact C|reflexivity].
  - destruct b.
    + apply (scan_atom "t" "rue"); [reflexivity|exact C|reflexivity].
    + apply (scan_atom "f" "alse"); [reflexivity|exact C|reflexivity].
  - apply scan_of_Z, C.
  - apply scan_dumps_str, W.
  - apply wf_list in W. cbn [Json.dumps json_tokens]. rewrite !append_assoc.
    cbn [append].
    change (Json.scan Json.STop
              (String "[" (Str.join ", " (map Json.dumps l) ++ String "]" rest)) out)
      with (Json.scan Json.STop
              (Str.join ", " (map Json.dumps l) ++ String "]" rest)
              (Json.TLBrack :: out)).
    pose proof (scan_separated "]" Json.TRBrack
                  (map (fun x => (Json.dumps x, json_tokens x)) l)) as S.
    rewrite !map_map in S. cbn [fst snd] in S.
    rewrite S.
    + cbn [List.rev]. rewrite <- app_assoc. reflexivity.
    + reflexivity.
    + reflexivity.
    + apply Forall_map. cbn [fst snd]. clear S.
      induction IH as [|x r Px _ IHr]; constructor.
      * apply Px. inversion W; assumption.
      * apply IHr. inversion W; assumption.
  - apply wf_dict in W. destruct W as [_ W].
    rewrite dumps_dict. cbn [json_tokens]. rewrite !append_assoc. cbn [append].
    match goal with
    | |- Json.scan Json.STop (String "{" ?body) out = _ =>
        change (Json.scan Json.STop (String "{" body) out)
          with (Json.scan Json.STop body (Json.TLBrace :: out))
    end.
    pose proof (scan_separated "}" Json.TRBrace
                  (map (fun '(k, x) =>
                          (Json.dumps_str k ++ ": " ++ Json.dumps x,
                           Json.TAtom (VStr k) :: Json.TColon :: json_tokens x)) d)) as S.
    rewrite !map_map in S.
    assert (E1 : forall A (f : string * list Json.token -> A),
               map (fun kv : string * pyval =>
                      f (let '(k, x) := kv in
                         (Json.dumps_str k ++ ": " ++ Json.dumps x,
                          Json.TAtom (VStr k) :: Json.TColon :: json_tokens x))) d
               = map (fun '(k, x) =>
                        f (Json.dumps_str k ++ ": " ++ Json.dumps x,
                           Json.TAtom (VStr k) :: Json.TColon :: json_tokens x)) d).
    { intros A f. apply map_ext. intros [k x]. reflexivity. }
    rewrite !E1 in S. cbn [fst snd] in S. rewrite S.
    + cbn [List.rev]. rewrite <- app_assoc. reflexivity.
    + reflexivity.
    + reflexivity.
    + apply Forall_map. clear S E1.
      induction IH as [|[k x] r Px _ IHr]; constructor.
      * cbn [fst snd] in *. intros rest' out' C'. rewrite !append_assoc.
        inversion W as [|? ? [Wk Wx] Wr]; subst. cbn [fst snd] in *.
        rewrite (scan_dumps_str _ _ _ Wk). cbn [append].
        change (Json.scan Json.STop (String ":" (String " " (Json.dumps x ++ rest')))
                  (Json.TAtom (VStr k) :: out'))
          with (Json.scan Json.STop (Json.dumps x ++ rest')
                  (Json.TColon :: Json.TAtom (VStr k) :: out')).
        rewrite (Px Wx _ _ C'). cbn [List.rev].
        rewrite <- !app_assoc. reflexivity.
      * apply IHr. inversion W; assumption.
Qed.

Lemma parse_elements (l : list pyval) :
  Forall parses l ->
  l <> [] ->
  forall (e : Json.expect) (acc : list jvalue) (st : list Json.frame)
         (ts : list Json.token),
    e = Json.EValue \/ e = Json.EFirst ->
    Json.parse e (Json.FArr acc :: st)
      (separated Json.TRBrack (map json_tokens l) ++ ts)%list
    = match Json.complete (VList (List.rev acc ++ map Json.lift l)%list) st with
      | Some (e', st') => Json.parse e' st' ts
      | None => None
      end.
Proof.
  induction 1 as [|x r Px _ IH]; intros N e acc st ts E; [contradiction|].
  cbn [map separated]. rewrite <- app_assoc. rewrite (Px _ _ _ E).
  cbn [Json.complete]. destruct r as [|y r].
  - cbn [map separated app Json.parse Json.step List.rev].
    rewrite <- ?app_assoc. reflexivity.
  - pose proof (IH ltac:(discriminate) Json.EValue (Json.lift x :: acc) st ts
                  (or_introl eq_refl)) as R.
    change (map json_tokens (y :: r)) with (json_tokens y :: map json_tokens r) in *.
    cbn [app Json.parse Json.step]. rewrite R.
    cbn [List.rev map]. rewrite <- ?app_assoc. reflexivity.
Qed.

Lemma parse_members (d : list (string * pyval)) :
  Forall (fun kv => parses (snd kv)) d ->
  d <> [] ->
  forall (e : Json.expect) (acc : list (string * jvalue)) (st : list Json.frame)
         (ts : list Json.token),
    e = Json.EKeyFirst \/ e = Json.EKey ->
    Json.parse e (Json.FObj acc None :: st)
      (separated Json.TRBrace
         (map (fun '(k, x) => Json.TAtom (VStr k) :: Json.TColon :: json_tokens x) d)
         ++ ts)%list
    = match Json.complete
              (VDict (Json.dict_of_pairs
                        (List.rev acc
                           ++ map (fun '(k, x) => (k, Json.lift x)) d)%list)) st with
      | Some (e', st') => Json.parse e' st' ts
      | None => None
      end.
Proof.
  induction 1 as [|[k x] r Px _ IH]; intros N e acc st ts E; [contradiction|].
  cbn [fst snd] in Px. cbn [map separated]. rewrite <- app_assoc.
  cbn [app].
  assert (K : Json.parse e (Json.FObj acc None :: st)
                (Json.TAtom (VStr k) :: Json.TColon
                   :: (json_tokens x ++ match map (fun '(k0, x0) =>
                                               Json.TAtom (VStr k0) :: Json.TColon
                                                 :: json_tokens x0) r with
                                   | [] => separated Json.TRBrace
                                             (map (fun '(k0, x0) =>
                                                     Json.TAtom (VStr k0)
                                                       :: Json.TColon :: json_tokens x0) r)
                                   | _ :: _ =>
                                       Json.TComma
                                         :: separated Json.TRBrace
                                              (map (fun '(k0, x0) =>
                                                      Json.TAtom (VStr k0)
                                                        :: Json.TColon :: json_tokens x0) r)
                                   end ++ ts))%list
              = Json.parse Json.EValue (Json.FObj acc (Some k) :: st)
                  (json_tokens x ++ match map (fun '(k0, x0) =>
                                            Json.TAtom (VStr k0) :: Json.TColon
                                              :: json_tokens x0) r with
                               | [] => separated Json.TRBrace
                                         (map (fun '(k0, x0) =>
                                                 Json.TAtom (VStr k0)
                                                   :: Json.TColon :: json_tokens x0) r)
                               | _ :: _ =>
                                   Json.TComma
                                     :: separated Json.TRBrace
                                          (map (fun '(k0, x0) =>
                                                  Json.TAtom (VStr k0)
                                                    :: Json.TColon :: json_tokens x0) r)
                               end ++ ts)%list).
  { destruct E as [-> | ->]; reflexivity. }
  rewrite K. clear K. rewrite (Px _ _ _ (or_introl eq_refl)).
  cbn [Json.complete]. destruct r as [|[k' x'] r].
  - cbn [map separated app Json.parse Json.step List.rev].
    rewrite <- ?app_assoc. reflexivity.
  - pose proof (IH ltac:(discriminate) Json.EKey ((k, Json.lift x) :: acc) st ts
                  (or_intror eq_refl)) as R.
    cbn [map] in *. cbn [app Json.parse Json.step]. rewrite R.
    cbn [List.rev]. rewrite <- ?app_assoc. reflexivity.
Qed.

Lemma set_fresh {V : Type} (k : string) (v : V) (d : list (string * V)) :
  ~ In k (map fst d) -> Py.set k v d = (d ++ [(k, v)])%list.
Proof.
  induction d as [|[k' v'] r IH]; intros N; [reflexivity|].
  cbn [Py.set]. destruct (String.eqb k' k) eqn:E.
  - apply String.eqb_eq in E. exfalso. apply N. left. exact E.
  - cbn [app]. f_equal. apply IH. intros I. apply N. right. exact I.
Qed.

(** Pairs with distinct keys make the dict that lists them. *)
Lemma dict_of_pairs_distinct (pairs : list (string * jvalue)) :
  NoDup (map fst pairs) -> Json.dict_of_pairs pairs = pairs.
Proof.
  unfold Json.dict_of_pairs.
  assert (G : forall l pre : list (string * jvalue),
             NoDup (map fst (pre ++ l)%list) ->
             fold_left (fun d kv => Py.set (fst kv) (snd kv) d) l pre
             = (pre ++ l)%list).
  { induction l as [|[k v] r IH]; intros pre N.
    - cbn [fold_left]. rewrite app_nil_r. reflexivity.
    - cbn [fold_left fst snd]. rewrite set_fresh.
      + rewrite IH; rewrite <- app_assoc; [reflexivity|exact N].
      + intros I. rewrite map_app in N. cbn [map fst] in N.
        apply NoDup_remove_2 in N. apply N. apply in_or_app. left. exact I. }
  intros N. apply (G pairs []). exact N.
Qed.

Lemma parse_tokens (v : pyval) : wf v -> parses v.
Proof.
  induction v as [|b|n|s|l IH|d IH] using value_induction; intros W e st ts E.
  - destruct E as [-> | ->]; reflexivity.
  - destruct E as [-> | ->]; reflexivity.
  - destruct E as [-> | ->]; reflexivity.
  - destruct E as [-> | ->]; reflexivity.
  - apply wf_list in W. cbn [json_tokens].
    assert (S : Json.parse e st
                  ((Json.TLBrack :: separated Json.TRBrack (map json_tokens l)) ++ ts)%list
                = Json.parse Json.EFirst (Json.FArr [] :: st)
                    (separated Json.TRBrack (map json_tokens l) ++ ts)%list).
    { destruct E as [-> | ->]; reflexivity. }
    rewrite S. clear S. destruct l as [|x r].
    + reflexivity.
    + rewrite parse_elements.
      * reflexivity.
      * clear - IH W. induction IH as [|a l Pa _ IHl]; constructor.
        -- apply Pa. inversion W; assumption.
        -- apply IHl. inversion W; assumption.
      * discriminate.
      * right. reflexivity.
  - apply wf_dict in W. destruct W as [N W]. cbn [json_tokens].
    assert (S : Json.parse e st
                  ((Json.TLBrace
                      :: separated Json.TRBrace
                           (map (fun '(k, x) =>
                                   Json.TAtom (VStr k) :: Json.TColon :: json_tokens x) d))
                     ++ ts)%list
                = Json.parse Json.EKeyFirst (Json.FObj [] None :: st)
                    (separated Json.TRBrace
                       (map (fun '(k, x) =>
                               Json.TAtom (VStr k) :: Json.TColon :: json_tokens x) d)
                       ++ ts)%list).
    { destruct E as [-> | ->]; reflexivity. }
    rewrite S. clear S. rewrite lift_dict. destruct d as [|kx r].
    + reflexivity.
    + rewrite parse_members.
      * cbn [List.rev app]. rewrite dict_of_pairs_distinct; [reflexivity|].
        rewrite map_map.
        replace (map (fun x => fst (let '(k, x0) := x in (k, Json.lift x0))) (kx :: r))
          with (map fst (kx :: r)); [exact N|].
        apply map_ext. intros [k x]. reflexivity.
      * clear - IH W. induction IH as [|a l Pa _ IHl]; constructor.
        -- apply Pa. inversion W as [|? ? [_ Wx] _]; exact Wx.
        -- apply IHl. inversion W; assumption.
      * discriminate.
      * left. reflexivity.
Qed.

(** The JSON text of a well-formed value decodes to the value. *)
Lemma loads_dumps (v : pyval) : wf v -> Json.loads (Json.dumps v) = Some (Json.lift v).
Proof.
  intros W. unfold Json.loads.
  pose proof (scan_dumps v W EmptyString [] eq_refl) as S.
  rewrite append_nil_r in S. rewrite S. cbn [Json.scan].
  rewrite app_nil_r, rev_involutive.
  pose proof (parse_tokens v W Json.EValue [] [] (or_introl eq_refl)) as P.
  rewrite app_nil_r in P. rewrite P. reflexivity.
Qed.

End JsonValues.

Section TemplateValues.
Import Logic Spec SpecMore.
Context `{Runtime}.

Lemma wf_seasons_value (seasons : list NewFinishedSeason) :
  Forall (fun season => wf (Generic.to_dict season)) seasons ->
  wf (Generic.seasons_value seasons).
Proof.
  unfold Generic.seasons_value. cbn [wf].
  induction 1 as [|season r W _ IH]; cbn [map fold_right]; [exact I|].
  split; [exact W|exact IH].
Qed.

Lemma substitute_seasons (now : DateTime.datetime) (config : dict)
    (seasons : list NewFinishedSeason) (message show_list : string) :
  Generic.substitute seasons_only_template now config seasons message show_list
  = Json.dumps (VDict [("seasons", Generic.seasons_value seasons)]).
Proof.
  unfold Generic.substitute.
  generalize (Json.dumps (VStr (DateTime.isoformat now))).
  generalize (Json.dumps (get_default "lookback_days" (VInt 7) config)).
  generalize (Json.dumps (VInt (Z.of_nat (List.length seasons)))).
  generalize (Json.dumps (VStr message)).
  generalize (Json.dumps (VStr show_list)).
  intros j_list j_message j_count j_days j_time.
  rewrite dumps_dict. cbn [map Str.join].
  generalize (Json.dumps (Generic.seasons_value seasons)). intros j_seasons.
  reflexivity.
Qed.

(** X19.  With the template whose only member is the list of seasons,
    the payload holds the seasons as the default payload would: every
    field of every season goes through the encoding and the decoding
    unchanged, whatever the message is.  The seasons are well formed:
    their strs are texts and their dicts have no key twice. *)
Theorem seasons_template_round_trips
    (config : dict) (seasons : list NewFinishedSeason) (message : string)
    (s rendered : state) :
  get "webhook_payload_template" config = Some (VStr seasons_only_template) ->
  Forall (fun season => wf (Generic.to_dict season)) seasons ->
  Base.format_message config seasons s = (Ok message, rendered) ->
  Generic.build_payload config seasons s
  = (Ok [("seasons", Json.lift (Generic.seasons_value seasons))],
     snd (datetime_now rendered)).
Proof.
  intros Ht W Hm.
  unfold Generic.build_payload, bindR. st_run. rewrite Hm. cbn [fst snd].
  unfold get_or_none, get_default. rewrite Ht.
  change (truthy (VStr seasons_only_template)) with true. cbv iota. st_run.
  rewrite substitute_seasons. rewrite loads_dumps.
  - rewrite lift_dict. st_run. reflexivity.
  - cbn [wf map fst fold_right]. split; [|split; [|split]].
    + repeat constructor. intros [].
    + exists [115; 101; 97; 115; 111; 110; 115]. split; reflexivity.
    + apply wf_seasons_value, W.
    + exact I.
Qed.

Lemma all_chars_app (p : ascii -> bool) (a b : string) :
  all_chars p (a ++ b) = all_chars p a && all_chars p b.
Proof.
  induction a as [|c a IH]; [reflexivity|]. cbn [append all_chars].
  rewrite IH. apply andb_assoc.
Qed.

Lemma plain_text (s : string) : all_chars plain s = true -> text s.
Proof.
  induction s as [|c s IH]; intros A.
  - exists []. split; reflexivity.
  - cbn [all_chars] in A. apply andb_true_iff in A. destruct A as [A1 A2].
    destruct (IH A2) as (cps & S & E).
    exists (Str.code c :: cps). split.
    + cbn [forallb]. rewrite S, andb_true_r. clear - A1.
      destruct c as [[] [] [] [] [] [] [] []]; first [reflexivity|discriminate A1].
    + cbn [encode]. rewrite <- E. clear - A1.
      destruct c as [[] [] [] [] [] [] [] []]; first [reflexivity|discriminate A1].
Qed.

Lemma plain_no_brace (s : string) :
  all_chars plain s = true -> Str.contains_char "{" s = false.
Proof.
  induction s as [|c s IH]; intros A; [reflexivity|].
  cbn [all_chars] in A. apply andb_true_iff in A. destruct A as [A1 A2].
  cbn [Str.contains_char]. rewrite (IH A2), orb_false_r. clear - A1.
  destruct c as [[] [] [] [] [] [] [] []]; first [reflexivity|discriminate A1].
Qed.

Lemma digit_plain (c : ascii) : Json.is_digit c = true -> plain c = true.
Proof.
  destruct c as [[] [] [] [] [] [] [] []]; intros D;
    first [reflexivity|discriminate D].
Qed.

Lemma of_nonneg_plain (n : Z) : all_chars plain (Str.of_nonneg n) = true.
Proof.
  apply (all_chars_weaken Json.is_digit); [exact digit_plain|].
  apply (digits_fuel_digits _ n EmptyString eq_refl).
Qed.

Lemma of_Z_plain (n : Z) : all_chars plain (Str.of_Z n) = true.
Proof.
  unfold Str.of_Z. destruct (n <? 0); [|apply of_nonneg_plain].
  cbn [append all_chars]. rewrite of_nonneg_plain. reflexivity.
Qed.

Lemma zeros_plain (k : nat) : all_chars plain (Str.zeros k) = true.
Proof. induction k as [|k IH]; [reflexivity|]. cbn [Str.zeros all_chars]. exact IH. Qed.

Lemma pad_plain (w : nat) (n : Z) : all_chars plain (Str.pad w n) = true.
Proof.
  unfold Str.pad. cbv zeta. rewrite all_chars_app, zeros_plain, of_nonneg_plain.
  reflexivity.
Qed.

Lemma isoformat_plain (t : DateTime.datetime) :
  all_chars plain (DateTime.isoformat t) = true.
Proof.
  unfold DateTime.isoformat, DateTime.date_part, DateTime.time_part,
    DateTime.hm_part.
  destruct (DateTime.civil (t / DateTime.day)) as [[y m] d]. cbv zeta.
  destruct (t mod 1000000 =? 0);
    repeat (rewrite all_chars_app || rewrite pad_plain); reflexivity.
Qed.

Lemma dumps_plain_no_brace (s : string) :
  all_chars plain s = true ->
  Str.contains_char "{" (Json.dumps (VStr s)) = false.
Proof.
  intros A. destruct (plain_text s A) as (cps & S & E). subst s.
  cbn [Json.dumps]. unfold Json.dumps_str. rewrite !contains_char_append.
  rewrite escape_encoded_brace.
  - reflexivity.
  - apply Forall_forall. intros cp I. exact (proj1 (forallb_forall _ _) S cp I).
  - apply plain_no_brace, A.
Qed.

(** A replacement goes over a text without an opening brace. *)
Lemma replace_from_app_free (old new j rest : string) :
  Str.startswith "{" old = true ->
  Str.contains_char "{" j = false ->
  Str.replace_from old new O (j ++ rest) = j ++ Str.replace_from old new O rest.
Proof.
  intros O. destruct old as [|o old']; [discriminate O|].
  cbn [Str.startswith] in O. apply andb_true_iff in O. destruct O as [O _].
  apply Ascii.eqb_eq in O. subst o.
  induction j as [|c j IH]; intros C; [reflexivity|].
  cbn [Str.contains_char] in C. apply orb_false_iff in C. destruct C as [C1 C2].
  cbn [append Str.replace_from Str.startswith]. rewrite Ascii.eqb_sym, C1.
  cbn [andb]. rewrite (IH C2). reflexivity.
Qed.

Lemma substitute_default_shaped (now : DateTime.datetime) (config : dict)
    (seasons : list NewFinishedSeason) (message show_list : string) :
  Str.contains_char "{" (Json.dumps (get_default "lookback_days" (VInt 7) config))
  = false ->
  Str.contains_char "{" (Json.dumps (VStr message)) = false ->
  Generic.substitute default_shaped_template now config seasons message show_list
  = Json.dumps
      (VDict [ ("timestamp", VStr (DateTime.isoformat now));
               ("period_days", get_default "lookback_days" (VInt 7) config);
               ("season_count", VInt (Z.of_nat (List.length seasons)));
               ("seasons", Generic.seasons_value seasons);
               ("message", VStr message) ]).
Proof.
  intros Bd Bm.
  pose proof (dumps_plain_no_brace _ (isoformat_plain now)) as Bt.
  assert (Bc : Str.contains_char "{"
                 (Json.dumps (VInt (Z.of_nat (List.length seasons)))) = false)
    by (apply plain_no_brace, of_Z_plain).
  unfold Generic.substitute. rewrite dumps_dict. cbn [map Str.join].
  set (j_time := Json.dumps (VStr (DateTime.isoformat now))) in *.
  set (j_days := Json.dumps (get_default "lookback_days" (VInt 7) config)) in *.
  set (j_count := Json.dumps (VInt (Z.of_nat (List.length seasons)))) in *.
  set (j_message := Json.dumps (VStr message)) in *.
  set (j_list := Json.dumps (VStr show_list)) in *.
  set (j_seasons := Json.dumps (Generic.seasons_value seasons)) in *.
  clearbody j_time j_days j_count j_message j_list j_seasons.
  unfold Json.dumps_str. rewrite !append_assoc.
  let t := eval vm_compute in default_shaped_template in
  change default_shaped_template with t.
  unfold Str.replace.
  repeat (cbn [Str.replace_from Str.startswith append Ascii.eqb Bool.eqb andb
                 String.length Nat.sub];
          rewrite ?replace_from_app_free by (reflexivity || assumption)).
  reflexivity.
Qed.

(** X20.  The template that spells out the five members of the default
    payload gives the default payload itself, with the same timestamp and
    in the same state, for every well-formed list of seasons and every
    message that is a text without an opening brace, when the period is
    an int or is not set. *)
Theorem default_shaped_template_gives_default_payload
    (config : dict) (seasons : list NewFinishedSeason) (cps : list Z)
    (s rendered : state) :
  get "webhook_payload_template" config = Some (VStr default_shaped_template) ->
  (forall v, get "lookback_days" config = Some v -> exists n, v = VInt n) ->
  forallb scalar cps = true ->
  Str.contains_char "{" (encode cps) = false ->
  Forall (fun season => wf (Generic.to_dict season)) seasons ->
  Base.format_message config seasons s = (Ok (encode cps), rendered) ->
  Generic.build_payload config seasons s
  = Generic.default_payload config seasons (encode cps) rendered.
Proof.
  intros Ht Hd Hs Hb W Hm.
  assert (S : Forall (fun cp => scalar cp = true) cps).
  { apply Forall_forall. intros cp I. exact (proj1 (forallb_forall _ _) Hs cp I). }
  assert (D : exists n, get_default "lookback_days" (VInt 7) config = VInt n).
  { unfold get_default. destruct (get "lookback_days" config) as [v|].
    - apply Hd. reflexivity.
    - exists 7. reflexivity. }
  destruct D as [n D].
  unfold Generic.build_payload, bindR. st_run. rewrite Hm. cbn [fst snd].
  assert (G : get_or_none "webhook_payload_template" config
              = VStr default_shaped_template)
    by (unfold get_or_none, get_default; rewrite Ht; reflexivity).
  rewrite !G.
  change (truthy (VStr default_shaped_template)) with true. cbv iota. st_run.
  rewrite substitute_default_shaped.
  - rewrite loads_dumps.
    + rewrite lift_dict, default_payload_run. st_run. reflexivity.
    + cbn [wf map fst fold_right]. split.
      * repeat constructor; cbn [In]; intuition discriminate.
      * repeat split; try (apply plain_text; reflexivity).
        -- apply plain_text, isoformat_plain.
        -- rewrite D. exact I.
        -- apply wf_seasons_value, W.
        -- exists cps. split; [exact Hs|reflexivity].
  - rewrite D. apply plain_no_brace, of_Z_plain.
  - cbn [Json.dumps]. unfold Json.dumps_str. rewrite !contains_char_append.
    rewrite (escape_encoded_brace cps S Hb). reflexivity.
Qed.

End TemplateValues.

(** ** The further properties at work on the sample runtime *)

Section WitnessesMore.
Import Logic Spec SpecMore Config Main.

#[local] Existing Instance Sample.runtime.

Local Abbreviation s0 := (Sample.start Sample.now).

(** X1 at work: thirty days, written between blanks. *)
Lemma thirty_days_are_kept :
  Environ._get_lookback_days [("LOOKBACK_DAYS", " 30 ")] s0 = (30, s0).
Proof.
  refine (proj1 (proj2 (lookback_days_in_range [("LOOKBACK_DAYS", " 30 ")] s0))
            30 _ _).
  - reflexivity.
  - lia.
Defined.

(** X2 at work: the empty environment gives the default mode. *)
Lemma empty_environment_is_default :
  webhook_mode (fst (Environ.from_env [] s0)) = "default".
Proof.
  refine (proj1 (proj2 (proj2 (proj2 (proj2
            (from_env_always_configures [] s0))))) _).
  reflexivity.
Defined.

(** X3 at work: the child without a rating key is left out. *)
Lemma child_without_key_is_left_out :
  Api.get_children_metadata
    (SampleMore.api_data
       (Some (VList (map VDict [SampleMore.child (VStr "1");
                                SampleMore.child (VStr EmptyString)]))))
    SampleMore.join_plain SampleMore.encode_plain
    "12345" "http://localhost:8181" "test" s0
  = (Ok [SampleMore.child (VStr "1")],
     {| world := Sample.now;
        records :=
          [LogRecord DEBUG
             "Making request to Tautulli API: get_children_metadata"] |}).
Proof.
  refine (proj1 (proj2 (proj1 (proj2 (proj2
            (children_have_rating_keys
               (SampleMore.api_data
                  (Some (VList (map VDict [SampleMore.child (VStr "1");
                                           SampleMore.child (VStr EmptyString)]))))
               SampleMore.join_plain SampleMore.encode_plain
               "12345" "http://localhost:8181" "test" s0))) _ _)
            "http://localhost:8181/api/v2?apikey=test&cmd=get_children_metadata&rating_key=12345"
            _)
            [SampleMore.child (VStr "1"); SampleMore.child (VStr EmptyString)] _).
  - discriminate.
  - discriminate.
  - reflexivity.
  - reflexivity.
Defined.

(** A child that is not a dict makes [get_children_metadata] raise. *)
Example child_that_is_no_dict_raises :
  fst (Api.get_children_metadata
         (SampleMore.api_data
            (Some (VList [VDict (SampleMore.child (VStr "1")); VStr "2"])))
         SampleMore.join_plain SampleMore.encode_plain
         "12345" "http://localhost:8181" "test" s0)
  = Raise (Exn AttributeError "'str' object has no attribute 'get'").
Proof. reflexivity. Qed.

(** A URL with an unpaired bracket: [urljoin] raises before any request
    is made, and the API functions raise with it. *)
Example unpaired_bracket_raises :
  Api.get_recently_added (SampleMore.api_data (Some (VList [])))
    SampleMore.join_plain SampleMore.encode_plain "season" 100 "http://[" "test" s0
  = (Raise (Exn ValueError "Invalid IPv6 URL"), s0)
  /\ Api.get_metadata (SampleMore.api_data (Some (VList [])))
       SampleMore.join_plain SampleMore.encode_plain "12345" "http://[" "test" s0
     = (Raise (Exn ValueError "Invalid IPv6 URL"), s0)
  /\ Api.get_children_metadata (SampleMore.api_data (Some (VList [])))
       SampleMore.join_plain SampleMore.encode_plain "12345" "http://[" "test" s0
     = (Raise (Exn ValueError "Invalid IPv6 URL"), s0)
  /\ Api.get_cover_url SampleMore.join_plain (VStr "/library/metadata/1/thumb/2")
       "http://[" "secret" s0
     = (Raise (Exn ValueError "Invalid IPv6 URL"), s0).
Proof. repeat split; reflexivity. Qed.

(** X4 at work: a cover URL of the sample server. *)
Lemma sample_cover_url_ends_with_token :
  Str.endswith "http://plex:32400/library/metadata/1/thumb/2?X-Plex-Token=secret"
    "X-Plex-Token=secret" = true.
Proof.
  refine (proj1 (proj1 (proj2 (proj2
            (cover_url_carries_token SampleMore.join_plain
               "/library/metadata/1/thumb/2" "http://plex:32400/" "secret" s0)))
            "http://plex:32400/library/metadata/1/thumb/2?X-Plex-Token=secret" _)).
  reflexivity.
Defined.

(** X6 at work: the Signal provider and an empty result. *)
Lemma signal_skips_empty_result :
  Send.send_webhook (SampleMore.post_status 500) []
    (SignalCliProvider (get_provider_config SampleMore.signal_config))
    SampleMore.signal_config s0
  = (true,
     {| world := Sample.now;
        records := [LogRecord INFO "No new seasons found, skipping webhook"] |}).
Proof.
  refine (proj2
            (empty_result_policy (SampleMore.post_status 500)
               SampleMore.signal_config
               (SignalCliProvider (get_provider_config SampleMore.signal_config))
               s0 s0 _)
            SampleMore.signal_config s0 _);
    reflexivity.
Defined.

(** X7 at work: a server that answers 204. *)
Lemma status_204_is_success :
  fst (Send.send_webhook (SampleMore.post_status 204) [Sample.the_office]
         (GenericProvider (get_provider_config Sample.base_config))
         Sample.base_config s0)
  = true.
Proof.
  refine (proj2 (proj2 (proj2 (proj2
            (send_webhook_outcome (SampleMore.post_status 204) [Sample.the_office]
               (GenericProvider (get_provider_config Sample.base_config))
               Sample.base_config s0)) _ _)) _).
  - reflexivity.
  - discriminate.
  - eexists. exists 204. split; [reflexivity|]. split; [reflexivity|]. lia.
Defined.

(** X8 at work: a config without recipients. *)
Lemma missing_recipients_are_named :
  records (snd (SignalCli.validate_config [("signal_number", VStr "+1234567890")] s0))
  = [LogRecord ERROR "Missing required config: signal_recipients"].
Proof.
  refine (proj2 (proj2 (proj2 (proj2
            (signal_validate_config_fails_closed
               [("signal_number", VStr "+1234567890")] s0))))
            _ _);
    reflexivity.
Defined.

(** X9 at work: the two recipients of the sample config. *)
Lemma sample_recipients_are_clean :
  exists recipients,
    SignalCli._parse_recipients (get_provider_config Sample.base_config)
    = Ok recipients
    /\ Forall (fun r => r <> EmptyString
                        /\ Str.strip r = r
                        /\ Str.contains_char "," r = false) recipients.
Proof.
  refine (proj1 (parsed_recipients_are_clean (get_provider_config Sample.base_config))
            "+0987654321,+1122334455" _).
  reflexivity.
Defined.

(** X11 at work: the file of a sample episode. *)
Lemma sample_episode_file :
  _safe_get_nested (Sample.episode "/tv/s03e01.mkv")
    ["media_info"; "parts"; "file"] (VStr EmptyString)
  = VStr "/tv/s03e01.mkv".
Proof.
  refine (safe_get_nested_is_path_lookup (Sample.episode "/tv/s03e01.mkv")
            ["media_info"; "parts"; "file"] (VStr EmptyString) _).
  reflexivity.
Defined.

(** X12 at work: a list that holds only a movie. *)
Lemma only_a_movie_gives_nothing :
  fst (get_new_finished_seasons 7 SampleMore.only_movie
         (fun _ _ => ret (Ok false)) (fun _ => ret true) Sample.no_cover
         (Sample.children_of Sample.one_real_one_stub) s0)
  = Ok [].
Proof.
  refine (proj2
            (records_follow_the_fetched_list 7 SampleMore.only_movie
               (fun _ _ => ret (Ok false)) (fun _ => ret true) Sample.no_cover
               (Sample.children_of Sample.one_real_one_stub) s0) _).
  reflexivity.
Defined.

(** X13 at work: the record of the boundary season. *)
Lemma boundary_record_is_recent_and_keyed :
  exists item n t,
    In item [Sample.boundary_item]
    /\ get "media_type" item = Some (VStr "season")
    /\ truthy (get_or_none "rating_key" item) = true
    /\ truthy (get_or_none "grandparent_rating_key" item) = true
    /\ Py.int (get_or_none "added_at" item) = Ok n
    /\ fromtimestamp n = Ok t
    /\ Sample.now - DateTime.timedelta 7 <= t
    /\ added_at Sample.boundary_record = DateTime.isoformat t
    /\ rating_key Sample.boundary_record = get_or_none "rating_key" item
    /\ show Sample.boundary_record = get_default "parent_title" (VStr "Unknown") item
    /\ season Sample.boundary_record = get_default "parent_index" (VInt 0) item
    /\ season_title Sample.boundary_record
       = get_default "title" (VStr "Unknown") item
    /\ 0 <= episode_count Sample.boundary_record.
Proof.
  refine (every_record_is_recent_and_keyed 7 Sample.only_boundary_item
            (fun _ _ => ret (Ok false)) (fun _ => ret true) Sample.no_cover
            (Sample.children_of Sample.one_real_one_stub) s0
            [Sample.boundary_record] Sample.boundary_record _ _).
  - reflexivity.
  - left. reflexivity.
Defined.

(** X14 at work: the sample config in Signal mode. *)
Lemma sample_signal_provider_builds :
  exists payload,
    fst (build_payload
           (SignalCliProvider (get_provider_config SampleMore.signal_config))
           [Sample.the_office] s0)
    = Ok payload
    /\ get "number" payload = Some (VStr "+1234567890").
Proof.
  destruct (proj2 (proj2 (proj2 (proj2
              (validated_signal_provider_builds SampleMore.signal_config
                 (get_provider_config SampleMore.signal_config) s0 s0 eq_refl))))
              [Sample.the_office] s0)
    as (payload & E & N & _).
  exists payload. split; [exact E|exact N].
Defined.

(** X15 at work: recipients that are a comma between blanks. *)
Lemma comma_between_blanks_is_accepted :
  get_webhook_provider SampleMore.blank_recipients_config s0
  = (Ok (SignalCliProvider (get_provider_config SampleMore.blank_recipients_config)),
     s0).
Proof.
  refine (proj1
            (blank_recipients_pass_validation SampleMore.blank_recipients_config s0
               _ _ _ _)).
  - reflexivity.
  - discriminate.
  - discriminate.
  - repeat constructor.
Defined.

(** X16 at work: a template without a token and one season. *)
Lemma fixed_template_is_decoded :
  Generic.build_payload SampleMore.fixed_config [Sample.the_office] s0
  = (Ok [("text", VInt 1)],
     {| world := Sample.now + 2; records := [] |}).
Proof.
  refine (proj2
            (template_without_token_is_verbatim SampleMore.fixed_config
               [Sample.the_office] SampleMore.fixed_template
               "Found 1 new seasons" s0
               {| world := Sample.now + 1; records := [] |} _ _ _ _)
            (VDict [("text", VInt 1)]) _).
  - reflexivity.
  - discriminate.
  - repeat constructor.
  - reflexivity.
  - reflexivity.
Defined.

(** X17 at work: an answer that is not a list. *)
Lemma answer_that_is_no_list :
  Api.get_recently_added (SampleMore.api_data (Some (VStr "busy")))
    SampleMore.join_plain SampleMore.encode_plain "season" 100
    "http://localhost:8181" "test" s0
  = (Ok [],
     {| world := Sample.now;
        records :=
          [LogRecord DEBUG "Making request to Tautulli API: get_recently_added"] |}).
Proof.
  refine (proj1 (proj2
            (api_answers_are_typed (SampleMore.api_data (Some (VStr "busy")))
               SampleMore.join_plain SampleMore.encode_plain
               "season" "1" 100 "http://localhost:8181" "test" s0) _ _));
    discriminate.
Defined.

(** X18 at work: the default message, which begins with a character
    outside the basic plane. *)
Lemma default_message_round_trips :
  Generic.build_payload SampleMore.message_only_config [Sample.the_office] s0
  = (Ok [("message", VStr "📺 1 new season(s) completed this week!")],
     {| world := Sample.now + 2; records := [] |}).
Proof.
  refine (message_template_round_trips SampleMore.message_only_config
            [Sample.the_office] SampleMore.one_season_text s0
            {| world := Sample.now + 1; records := [] |} _ _ _ _);
    reflexivity.
Defined.

(** X19 at work: the two sample seasons come back as they are. *)
Lemma sample_seasons_round_trip :
  Generic.build_payload SampleMore.seasons_only_config
    [Sample.breaking_bad; Sample.the_office] s0
  = (Ok [("seasons",
          Json.lift (Generic.seasons_value [Sample.breaking_bad; Sample.the_office]))],
     {| world := Sample.now + 2; records := [] |}).
Proof.
  refine (seasons_template_round_trips SampleMore.seasons_only_config
            [Sample.breaking_bad; Sample.the_office]
            "📺 2 new season(s) completed this week!" s0
            {| world := Sample.now + 1; records := [] |} _ _ _).
  - reflexivity.
  - repeat (constructor;
            [cbn -[text]; split;
             [repeat constructor; cbn [In]; intuition discriminate
             |repeat split; try exact I; apply plain_text; reflexivity]|]).
    constructor.
  - reflexivity.
Defined.

(** X20 at work: the default-shaped template and the default payload for
    one season. *)
Lemma default_shaped_sample :
  Generic.build_payload SampleMore.default_shaped_config [Sample.the_office] s0
  = Generic.default_payload SampleMore.default_shaped_config [Sample.the_office]
      "📺 1 new season(s) completed this week!"
      {| world := Sample.now + 1; records := [] |}.
Proof.
  refine (default_shaped_template_gives_default_payload
            SampleMore.default_shaped_config [Sample.the_office]
            SampleMore.one_season_text s0
            {| world := Sample.now + 1; records := [] |} _ _ _ _ _ _).
  - reflexivity.
  - intros v E. vm_compute in E. discriminate E.
  - reflexivity.
  - reflexivity.
  - constructor; [|constructor].
    cbn -[text]. split.
    + repeat constructor; cbn [In]; intuition discriminate.
    + repeat split; try exact I; apply plain_text; reflexivity.
  - reflexivity.
Defined.

End WitnessesMore.
